(** * Data visualization dashboard (src/app.py): tables, range filter,
      chart ledger and the two exports

    The program is a Streamlit script: every user action re-runs it from
    the top.  What survives between runs is [st.session_state.charts]
    (the ledger) and the state of the libraries (pyplot's open figures,
    the files on disk).  The table [df] is rebuilt by every run from the
    uploaded file and the slider.

    Plotting, slide building and pandas are libraries outside the
    repository.  Their calls are kept symbolic: a chart image is the
    plotting call that drew it (with the table it was given), and
    whether a call raises is decided by an oracle [raises] over which
    the statements quantify.  What a call does whatever its arguments
    hold is written out: [plt.close] rejects a plotly figure,
    [prs.save] empties the file before it writes it, and the text of
    [to_csv] is modelled from the specification. *)

From Stdlib Require Import ZArith Lia.
From Stdlib Require Import Floats.PrimFloat Floats.SpecFloat Floats.FloatOps.
From Stdlib Require Import Floats.FloatAxioms.
From stdpp Require Import base option list strings gmap pretty.

Local Open Scope string_scope.
Local Open Scope list_scope.

(** ** Tables *)

(** Column types [pd.read_csv] produces. *)
Inductive dtype := int64 | float64 | bool_ | object_.

(** A column is a homogeneous sequence; a missing text value is [None]
    (a missing number is the float NaN). *)
Inductive column :=
| Int64 (vs : list Z)
| Float64 (vs : list float)
| Bool (vs : list bool)
| Object (vs : list (option string)).

Definition col_dtype (c : column) : dtype :=
  match c with
  | Int64 _ => int64
  | Float64 _ => float64
  | Bool _ => bool_
  | Object _ => object_
  end.

(** A [DataFrame]: named columns, in order ([df.columns]).  The row
    index is not modelled: nothing in the script reads it, and
    [to_csv(index=False)] does not write it. *)
Abbreviation DataFrame := (list (string * column)).

Inductive cell :=
| VInt (z : Z)
| VFloat (f : float)
| VBool (b : bool)
| VStr (s : option string).

Definition cells (c : column) : list cell :=
  match c with
  | Int64 vs => map VInt vs
  | Float64 vs => map VFloat vs
  | Bool vs => map VBool vs
  | Object vs => map VStr vs
  end.

Definition col_len (c : column) : nat := length (cells c).

Definition columns (df : DataFrame) : list string := map fst df.

(** [len(df)] *)
Definition nrows (df : DataFrame) : nat :=
  match df with
  | [] => 0
  | (_, c) :: _ => col_len c
  end.

(** The invariant of a table: all columns have the same length. *)
Definition wf_frame (df : DataFrame) : Prop :=
  Forall (fun nc => col_len (snd nc) = nrows df) df.

(** [df[x_axis]]: the column of that name, [None] where pandas raises
    [KeyError]. *)
Fixpoint df_col (df : DataFrame) (x : string) : option column :=
  match df with
  | [] => None
  | (n, c) :: rest => if String.eqb n x then Some c else df_col rest x
  end.

(** *** Rows, as a view of the columns *)

(** A row pairs every column name with the row's value in it. *)
Abbreviation row := (list (string * cell)).

Fixpoint rows_from (n : nat) (df : DataFrame) : list row :=
  match df with
  | [] => replicate n []
  | (name, c) :: rest =>
      zip_with (fun v r => (name, v) :: r) (cells c) (rows_from n rest)
  end.

Definition rows (df : DataFrame) : list row := rows_from (nrows df) df.

Fixpoint row_get (r : row) (x : string) : option cell :=
  match r with
  | [] => None
  | (n, v) :: rest => if String.eqb n x then Some v else row_get rest x
  end.

(** ** Errors *)

Inductive exn :=
| KeyError (key : string)
| TypeError (msg : string)
| AttributeError (msg : string)
| LibError (msg : string).

Inductive outcome (A : Type) :=
| Ok (a : A)
| Raise (e : exn).
Arguments Ok {A} a.
Arguments Raise {A} e.

(** ** The range filter (app.py, lines 53 to 60) *)

(** int64 to float64, rounding to nearest even as numpy does when an
    integer column is compared with a Python float. *)
Definition float_of_Z (z : Z) : float :=
  SF2Prim (binary_normalize 53 1024 z 0 false).

(** The values a comparison with a float scalar sees.  A comparison of
    text with a float raises [TypeError]. *)
Definition to_float64 (c : column) : option (list float) :=
  match c with
  | Int64 vs => Some (map float_of_Z vs)
  | Float64 vs => Some vs
  | Bool vs => Some (map (fun b : bool => if b then 1%float else 0%float) vs)
  | Object _ => None
  end.

(** [col >= v] and [col <= v], elementwise; NaN compares false. *)
Definition ge_mask (vs : list float) (v : float) : list bool :=
  map (fun a => PrimFloat.leb v a) vs.
Definition le_mask (vs : list float) (v : float) : list bool :=
  map (fun a => PrimFloat.leb a v) vs.

(** [m1 & m2] *)
Definition mask_and (m1 m2 : list bool) : list bool := zip_with andb m1 m2.

(** Boolean indexing of one sequence. *)
Fixpoint take_mask {A} (m : list bool) (l : list A) : list A :=
  match m, l with
  | b :: m', a :: l' => if b then a :: take_mask m' l' else take_mask m' l'
  | _, _ => []
  end.

Definition col_select (m : list bool) (c : column) : column :=
  match c with
  | Int64 vs => Int64 (take_mask m vs)
  | Float64 vs => Float64 (take_mask m vs)
  | Bool vs => Bool (take_mask m vs)
  | Object vs => Object (take_mask m vs)
  end.

(** [df[mask]]: a new table, every column indexed by the mask. *)
Definition select_rows (df : DataFrame) (m : list bool) : DataFrame :=
  map (fun nc => (fst nc, col_select m (snd nc))) df.

(** [df[x_axis].dtype in [int, float]]: numpy equates [int] with int64
    and [float] with float64. *)
Definition dtype_in_int_float (d : dtype) : bool :=
  match d with
  | int64 | float64 => true
  | bool_ | object_ => false
  end.

(** Lines 53 to 60, given the pair the slider returned. *)
Definition slider_filter (df : DataFrame) (x_axis : string)
    (slider : float * float) : outcome DataFrame :=
  match df_col df x_axis with
  | None => Raise (KeyError x_axis)
  | Some c =>
      if dtype_in_int_float (col_dtype c) then
        let '(min_val, max_val) := slider in
        match to_float64 c with
        | None => Raise (TypeError "'>=' not supported")
        | Some vs =>
            Ok (select_rows df (mask_and (ge_mask vs min_val) (le_mask vs max_val)))
        end
      else Ok df
  end.

(** The comparison as it is computed, said of one value and of one row:
    the value is seen as a float64 number. *)
Definition cell_float (v : cell) : option float :=
  match v with
  | VInt z => Some (float_of_Z z)
  | VFloat f => Some f
  | VBool b => Some (if b then 1%float else 0%float)
  | VStr _ => None
  end.

Definition in_range (min_val max_val : float) (v : cell) : bool :=
  match cell_float v with
  | Some f => PrimFloat.leb min_val f && PrimFloat.leb f max_val
  | None => false
  end.

Definition row_in_range (x : string) (min_val max_val : float) (r : row) : bool :=
  match row_get r x with
  | Some v => in_range min_val max_val v
  | None => false
  end.

(** *** The range as the claim has it

    [min <= value <= max], said of the numbers themselves.  The value
    of a finite float is [m * 2^e]; it is compared with an integer
    without rounding either. *)
Definition SF_compare_Z (x : spec_float) (z : Z) : option comparison :=
  match x with
  | S754_nan => None
  | S754_zero _ => Some (0 ?= z)%Z
  | S754_infinity s => Some (if s then Lt else Gt)
  | S754_finite s m e =>
      let v := if s then Z.neg m else Z.pos m in
      Some (if (0 <=? e)%Z then (v * 2 ^ e ?= z)%Z else (v ?= z * 2 ^ (- e))%Z)
  end.

(** [x <= z] and [z <= x] *)
Definition SF_le_Z (x : spec_float) (z : Z) : bool :=
  match SF_compare_Z x z with
  | Some (Lt | Eq) => true
  | _ => false
  end.

Definition Z_le_SF (z : Z) (x : spec_float) : bool :=
  match SF_compare_Z x z with
  | Some (Gt | Eq) => true
  | _ => false
  end.

(** Floats compare with floats as the numbers they are, and a missing
    value lies in no range. *)
Definition exact_in_range (min_val max_val : float) (v : cell) : bool :=
  match v with
  | VInt z => SF_le_Z (Prim2SF min_val) z && Z_le_SF z (Prim2SF max_val)
  | VFloat f => PrimFloat.leb min_val f && PrimFloat.leb f max_val
  | VBool _ | VStr _ => false
  end.

Definition exact_row_in_range (x : string) (min_val max_val : float) (r : row)
    : bool :=
  match row_get r x with
  | Some v => exact_in_range min_val max_val v
  | None => false
  end.

(** The integers float64 holds exactly for sure: those up to [2^53] in
    magnitude. *)
Definition int53 (z : Z) : bool :=
  ((- 2 ^ 53 <=? z) && (z <=? 2 ^ 53))%Z.

Definition exact_column (c : column) : bool :=
  match c with
  | Int64 vs => forallb int53 vs
  | Float64 _ | Bool _ | Object _ => true
  end.

(** Number of rows a mask keeps. *)
Definition count_true (m : list bool) : nat :=
  length (List.filter (fun b => b) m).

(** ** The libraries

    seaborn, plotly, pyplot, python-pptx and pandas are not part of the
    repository.  A plotting call is kept as a term: the function called
    and its arguments, the table among them. *)
Inductive plot :=
| sns_barplot (data : DataFrame) (x y color : string)
| sns_lineplot (data : DataFrame) (x y color : string)
| sns_scatterplot (data : DataFrame) (x y color : string)
| sns_histplot (data : DataFrame) (x : string) (kde : bool) (color : string)
| sns_boxplot (data : DataFrame) (x y color : string)
| px_line (data : DataFrame) (x y title color : string)
| px_scatter (data : DataFrame) (x y title color : string)
| px_pie (data : DataFrame) (names values title color : string)
| add_scatter (x y : column) (color : string).

(** The table a plotting call was given. *)
Definition plot_data (p : plot) : option DataFrame :=
  match p with
  | sns_barplot d _ _ _ | sns_lineplot d _ _ _ | sns_scatterplot d _ _ _
  | sns_histplot d _ _ _ | sns_boxplot d _ _ _
  | px_line d _ _ _ _ | px_scatter d _ _ _ _ | px_pie d _ _ _ _ => Some d
  | add_scatter _ _ _ => None
  end.

(** The calls that may raise. *)
Inductive libcall :=
| Slider (label : string)
| Draw (p : plot)
| Display (content : list plot)
| WriteImage (file_name : string) (content : list plot)
| OpenForWriting (file_name : string)
| SavePresentation (file_name : string).

(** What the libraries decide and the script does not: which calls
    raise (and with what message), and how the csv writer lays out one
    record (quoting, line terminator). *)
Record Libs := {
  raises : libcall -> option string;
  writerow : list string -> string
}.

(** ** The CSV text (app.py, line 105)

    The script only calls [df.to_csv(index=False)]; the writer is
    pandas'.  What follows is that writer as its documentation and the
    specification describe it. *)

(** *** The text of a float

    Python prints a float with the fewest digits that read back as the
    same float, in positional notation when the decimal exponent is
    between -4 and 15 and in scientific notation otherwise. *)

Section FloatText.
Local Open Scope Z_scope.

(** The value [m * 2^e], and the decimal [d * 10^k], as fractions. *)
Definition scaled (m e : Z) : Z * Z :=
  if 0 <=? e then (m * 2 ^ e, 1) else (m, 2 ^ (- e)).

Definition decimal (d k : Z) : Z * Z :=
  if 0 <=? k then (d * 10 ^ k, 1) else (d, 10 ^ (- k)).

Definition frac_le (a b : Z * Z) : bool := fst a * snd b <=? fst b * snd a.
Definition frac_lt (a b : Z * Z) : bool := fst a * snd b <? fst b * snd a.
Definition frac_sub (a b : Z * Z) : Z * Z :=
  (fst a * snd b - fst b * snd a, snd a * snd b).
Definition frac_floor_div (a b : Z * Z) : Z := (fst a * snd b) / (snd a * fst b).

(** The largest [p] with [10^p <= v], searched downwards from an
    estimate made from the number of bits. *)
Fixpoint log10_from (fuel : nat) (p : Z) (v : Z * Z) : Z :=
  match fuel with
  | O => p
  | S fuel' => if frac_le (decimal 1 p) v then p else log10_from fuel' (p - 1) v
  end.

Definition floor_log10 (m : positive) (e : Z) : Z :=
  let bits := Z.log2 (Z.pos m) + 1 + e in
  log10_from 4 (bits * 30103 / 100000 + 1) (scaled (Z.pos m) e).

(** The reals that round to the binary64 float [m * 2^e] lie between
    the midpoints to its two neighbours; in units of [2^(e-2)] the float
    is [4m], the upper midpoint [4m+2] and the lower one [4m-2], or
    [4m-1] where the float is a power of two.  The midpoints themselves
    round to it when [m] is even. *)
Definition round_interval (m : positive) (e : Z) : Z * Z :=
  let lo := if (Z.pos m =? 2 ^ 52) && (-1074 <? e) then 4 * Z.pos m - 1
            else 4 * Z.pos m - 2 in
  (lo, 4 * Z.pos m + 2).

Definition rounds_to (m : positive) (e : Z) (x : Z * Z) : bool :=
  let '(lo, hi) := round_interval m e in
  if Z.even (Z.pos m)
  then frac_le (scaled lo (e - 2)) x && frac_le x (scaled hi (e - 2))
  else frac_lt (scaled lo (e - 2)) x && frac_lt x (scaled hi (e - 2)).

(** Of the two [n]-digit decimals next to the float, the one that
    rounds to it, the closer one if both do. *)
Definition candidate (m : positive) (e : Z) (p : Z) (n : Z) : option (Z * Z) :=
  let v := scaled (Z.pos m) e in
  let k := p - n + 1 in
  let d := frac_floor_div v (decimal 1 k) in
  let lo_ok := rounds_to m e (decimal d k) in
  let hi_ok := rounds_to m e (decimal (d + 1) k) in
  let below := frac_sub v (decimal d k) in
  let above := frac_sub (decimal (d + 1) k) v in
  if lo_ok && hi_ok then
    if frac_lt above below then Some (d + 1, k)
    else if frac_lt below above then Some (d, k)
    else Some (if Z.even d then d else d + 1, k)
  else if lo_ok then Some (d, k)
  else if hi_ok then Some (d + 1, k)
  else None.

Fixpoint shortest_from (fuel : nat) (m : positive) (e : Z) (p : Z) (n : Z)
    : Z * Z :=
  match fuel with
  | O => (Z.pos m, e)
  | S fuel' =>
      match candidate m e p n with
      | Some dk => dk
      | None => shortest_from fuel' m e p (n + 1)
      end
  end.

Fixpoint strip_zeros (fuel : nat) (d k : Z) : Z * Z :=
  match fuel with
  | O => (d, k)
  | S fuel' => if (d mod 10 =? 0) && (0 <? d) then strip_zeros fuel' (d / 10) (k + 1)
               else (d, k)
  end.

(** The digits, and the decimal exponent of the first of them. *)
Definition shortest (m : positive) (e : Z) : string * Z :=
  let p := floor_log10 m e in
  let '(d, k) := shortest_from 17 m e p 1 in
  let '(d, k) := strip_zeros 20 d k in
  let ds := pretty d in
  (ds, k + Z.of_nat (String.length ds) - 1).

Fixpoint zeros (n : nat) : string :=
  match n with O => "" | S n' => "0" +:+ zeros n' end.

Definition take_str (n : nat) (s : string) : string := String.substring 0 n s.
Definition drop_str (n : nat) (s : string) : string :=
  String.substring n (String.length s - n) s.

Definition repr_exponent (x : Z) : string :=
  (if x <? 0 then "e-" else "e+")
  +:+ (if Z.abs x <? 10 then "0" else "") +:+ pretty (Z.abs x).

Definition repr_finite (ds : string) (x : Z) : string :=
  let n := String.length ds in
  if (x <? -4) || (16 <=? x) then
    take_str 1 ds
    +:+ (if Nat.ltb 1 n then "." +:+ drop_str 1 ds else "")
    +:+ repr_exponent x
  else if x <? 0 then
    "0." +:+ zeros (Z.to_nat (- x - 1)) +:+ ds
  else if Z.of_nat n <=? x + 1 then
    ds +:+ zeros (Z.to_nat (x + 1 - Z.of_nat n)) +:+ ".0"
  else
    take_str (Z.to_nat (x + 1)) ds +:+ "." +:+ drop_str (Z.to_nat (x + 1)) ds.

(** Modelled from the spec: the "natural textual form" of a float,
    which in [to_csv] is Python's [repr(f)]. *)
Definition float_repr (f : float) : string :=
  match Prim2SF f with
  | S754_nan => "nan"
  | S754_infinity s => if s then "-inf" else "inf"
  | S754_zero s => if s then "-0.0" else "0.0"
  | S754_finite s m e =>
      let '(ds, x) := shortest m e in
      (if s then "-" else "") +:+ repr_finite ds x
  end.

End FloatText.

(** *** The writer *)

(** Modelled from the spec: the text of the values of a column in
    [DataFrame.to_csv] (pandas, not in the repository), the "natural
    textual form" of the specification.  pandas converts a column as a
    whole: integers in decimal, floats as Python prints them, booleans
    as [True] and [False], text as it is, and a missing value (NaN, or
    [None] in a text column) as the empty string. *)
Definition column_text (c : column) : list string :=
  match c with
  | Int64 vs => map pretty vs
  | Float64 vs => map (fun f => if PrimFloat.is_nan f then "" else float_repr f) vs
  | Bool vs => map (fun b : bool => if b then "True" else "False") vs
  | Object vs => map (default "") vs
  end.

Definition values_for_csv (df : DataFrame) : list (list string) :=
  map (fun nc => column_text (snd nc)) df.

(** Record [i] is made of the [i]-th text of every column. *)
Definition csv_record (data : list (list string)) (i : nat) : list string :=
  map (fun col => default "" (col !! i)) data.

(** Modelled from the spec: the records [DataFrame.to_csv(index=False)]
    hands to the csv writer: "a header row of column names; one row per
    Table row; column order = Table's column order"; with
    [index=False] the row labels, which the model of a table leaves
    out, are not written. *)
Definition csv_records (df : DataFrame) : list (list string) :=
  columns df :: map (csv_record (values_for_csv df)) (seq 0 (nrows df)).

(** The writer puts the records one after the other. *)
Fixpoint writerows (lib : Libs) (records : list (list string)) : string :=
  match records with
  | [] => ""
  | r :: rest => writerow lib r +:+ writerows lib rest
  end.

(** Modelled from the spec: [df.to_csv(index=False)], the "delimited
    text" of the specification; [.encode('utf-8')] changes nothing
    here, a [string] being its UTF-8 bytes already. *)
Definition to_csv (lib : Libs) (df : DataFrame) : string :=
  writerows lib (csv_records df).

(** *** What the claim says of that text *)

(** The natural textual form of one value. *)
Definition natural_text (v : cell) : string :=
  match v with
  | VInt z => pretty z
  | VFloat f => if PrimFloat.is_nan f then "" else float_repr f
  | VBool true => "True"
  | VBool false => "False"
  | VStr (Some s) => s
  | VStr None => ""
  end.

(** The records of a table, read row by row: the column names, then the
    natural text of every row. *)
Definition text_records (df : DataFrame) : list (list string) :=
  columns df :: map (map (fun nv => natural_text (snd nv))) (rows df).

(** One line of delimited text: the fields, separated by commas, and a
    line feed. *)
Definition delimited (fields : list string) : string :=
  String.concat "," fields +:+ "
".

Fixpoint delimited_lines (records : list (list string)) : string :=
  match records with
  | [] => ""
  | r :: rest => delimited r +:+ delimited_lines rest
  end.

(** A field the csv writer writes as it is: it holds no comma, no
    double quote and no line break. *)
Definition special_char (a : Ascii.ascii) : bool :=
  let n := Ascii.nat_of_ascii a in
  Nat.eqb n 44 || Nat.eqb n 34 || Nat.eqb n 10 || Nat.eqb n 13.

Fixpoint plain_field (s : string) : bool :=
  match s with
  | EmptyString => true
  | String a rest => negb (special_char a) && plain_field rest
  end.

(** A record all of whose fields are plain; the csv writer quotes the
    field of a record made of one empty field. *)
Definition plain_record (fields : list string) : bool :=
  forallb plain_field fields
  && negb (match fields with [""] => true | _ => false end).

(** A csv writer with the comma as delimiter and the line feed as line
    terminator, as far as plain records go. *)
Definition plain_writer (lib : Libs) : Prop :=
  forall fields, plain_record fields = true -> writerow lib fields = delimited fields.

(** ** Charts, slides, files, and what the page shows *)

(** A ledger entry, the tuple [(chart_type, x_axis, y_axis, color)]. *)
Abbreviation chart := (string * string * string * string)%type.

Record picture := {
  image_file : string;
  image : list plot;
  pic_left : Z;
  pic_top : Z;
  pic_width : Z;
  pic_height : Z
}.

Record slide := {
  title_text : string;
  pictures : list picture
}.

(** A file on disk.  [Truncated] is a file that was opened for writing
    and whose content was not written out in full. *)
Inductive file :=
| Bytes (s : string)
| Png (content : list plot)
| Pptx (slides : list slide)
| Truncated.

Inductive ui_event :=
| st_title (s : string)
| st_success (s : string)
| st_error (s : string)
| st_info (s : string)
| st_subheader (s : string)
| st_header (s : string)
| st_write (s : string)
| st_write_frame (df : DataFrame)
| st_pyplot (content : list plot)
| st_plotly_chart (content : list plot)
| st_download_button (label : string) (data : file) (file_name mime : string).

(** [Inches(n)], in English Metric Units. *)
Definition Inches (n : Z) : Z := (n * 914400)%Z.

(** What outlives one statement: the session's ledger (absent before
    the first run), the page built so far by this run, pyplot's open
    figures (the current one first) and the files on disk. *)
Record World := {
  session_charts : option (list chart);
  ui : list ui_event;
  figs : list (nat * list plot);
  files : gmap string file
}.

Definition set_charts (l : option (list chart)) (w : World) : World :=
  {| session_charts := l; ui := ui w; figs := figs w; files := files w |}.
Definition set_ui (u : list ui_event) (w : World) : World :=
  {| session_charts := session_charts w; ui := u; figs := figs w; files := files w |}.
Definition set_figs (f : list (nat * list plot)) (w : World) : World :=
  {| session_charts := session_charts w; ui := ui w; figs := f; files := files w |}.
Definition set_files (f : gmap string file) (w : World) : World :=
  {| session_charts := session_charts w; ui := ui w; figs := figs w; files := f |}.

(** The ledger as a list, empty while absent. *)
Definition ledger (w : World) : list chart := default [] (session_charts w).

(** ** Statements: state that survives an exception *)

Definition M (A : Type) : Type := World -> outcome A * World.

#[global] Instance M_ret : MRet M := fun A a w => (Ok a, w).
#[global] Instance M_bind : MBind M := fun A B f m w =>
  match m w with
  | (Ok a, w') => f a w'
  | (Raise e, w') => (Raise e, w')
  end.

Definition throw {A} (e : exn) : M A := fun w => (Raise e, w).

(** [try: body except Exception as e: handler(e)] *)
Definition try_except {A} (body : M A) (handler : exn -> M A) : M A :=
  fun w =>
    match body w with
    | (Ok a, w') => (Ok a, w')
    | (Raise e, w') => handler e w'
    end.

Definition lift_outcome {A} (o : outcome A) : M A := fun w => (o, w).

(** [str(e)] *)
Definition exn_str (e : exn) : string :=
  match e with
  | KeyError k => "'" +:+ k +:+ "'"
  | TypeError msg => msg
  | AttributeError msg => msg
  | LibError msg => msg
  end.

Definition modify (f : World -> World) : M unit := fun w => (Ok tt, f w).

Definition st (e : ui_event) : M unit :=
  modify (fun w => set_ui (ui w ++ [e]) w).

(** Lines 19 and 20. *)
Definition session_init : M unit :=
  fun w =>
    match session_charts w with
    | None => (Ok tt, set_charts (Some []) w)
    | Some _ => (Ok tt, w)
    end.

Definition no_charts : string :=
  "st.session_state has no attribute 'charts'".

(** [st.session_state.charts] *)
Definition get_charts : M (list chart) :=
  fun w =>
    match session_charts w with
    | Some l => (Ok l, w)
    | None => (Raise (AttributeError no_charts), w)
    end.

(** [st.session_state.charts.append(c)] *)
Definition charts_append (c : chart) : M unit :=
  l ← get_charts; modify (set_charts (Some (l ++ [c]))).

(** *** pyplot's figures *)

(** The number pyplot gives a new figure: one past the largest open. *)
Definition new_fig_num (fs : list (nat * list plot)) : nat :=
  S (foldr Nat.max 0 (map fst fs)).

(** [fig, ax = plt.subplots()]: a new blank figure, made current. *)
Definition plt_subplots : M nat :=
  fun w =>
    let n := new_fig_num (figs w) in
    (Ok n, set_figs ((n, []) :: figs w) w).

Definition fig_content (fig : nat) (fs : list (nat * list plot)) : list plot :=
  match List.find (fun f => Nat.eqb (fst f) fig) fs with
  | Some f => snd f
  | None => []
  end.

Definition fig_draw (fig : nat) (p : plot) (fs : list (nat * list plot))
    : list (nat * list plot) :=
  map (fun f => if Nat.eqb (fst f) fig then (fst f, snd f ++ [p]) else f) fs.

(** [plt.close(fig)] for one of pyplot's figures. *)
Definition plt_close (fig : nat) : M unit :=
  modify (fun w =>
    set_figs (List.filter (fun f => negb (Nat.eqb (fst f) fig)) (figs w)) w).

(** [plt.close(fig)] where [fig] is a plotly figure, not one of
    pyplot's.  pyplot accepts a figure of its own, a number, a name or
    nothing, and rejects everything else with a [TypeError]; it closes
    nothing. *)
Definition close_rejects : string :=
  "close() argument must be a Figure, an int, a string, or None, not <class 'plotly.graph_objs._figure.Figure'>".

Definition plt_close_foreign (fig : list plot) : M unit :=
  throw (TypeError close_rejects).

Section Script.
Variable lib : Libs.

(** A library call that may raise. *)
Definition call (c : libcall) : M unit :=
  fun w =>
    match raises lib c with
    | Some msg => (Raise (LibError msg), w)
    | None => (Ok tt, w)
    end.

(** A seaborn call with [ax=ax]: draws on that figure. *)
Definition draw_on (fig : nat) (p : plot) : M unit :=
  call (Draw p);;
  modify (fun w => set_figs (fig_draw fig p (figs w)) w).

(** A plotly express call: a fresh plotly figure. *)
Definition px (p : plot) : M (list plot) :=
  call (Draw p);; mret [p].

(** [fig.add_scatter(x=df[x_axis], y=df[y_axis], mode='markers', ...)] *)
Definition fig_add_scatter (fig : list plot) (df : DataFrame)
    (x_axis y_axis color : string) : M (list plot) :=
  match df_col df x_axis with
  | None => throw (KeyError x_axis)
  | Some cx =>
      match df_col df y_axis with
      | None => throw (KeyError y_axis)
      | Some cy =>
          call (Draw (add_scatter cx cy color));;
          mret (fig ++ [add_scatter cx cy color])
      end
  end.

(** [st.pyplot(fig)] and [st.plotly_chart(fig)] *)
Definition show_pyplot (fig : nat) : M unit :=
  fun w =>
    let content := fig_content fig (figs w) in
    (call (Display content);; st (st_pyplot content)) w.

Definition show_plotly (fig : list plot) : M unit :=
  call (Display fig);; st (st_plotly_chart fig).

Definition write_file (name : string) (f : file) : M unit :=
  modify (fun w => set_files (<[name := f]> (files w)) w).

(** [plt.savefig(name)]: saves the current figure; with none open,
    pyplot makes a blank one current first. *)
Definition plt_savefig (name : string) : M unit :=
  fun w =>
    match figs w with
    | [] =>
        (_ ← plt_subplots; call (WriteImage name []);; write_file name (Png [])) w
    | (_, content) :: _ =>
        (call (WriteImage name content);; write_file name (Png content)) w
    end.

(** [pio.write_image(fig, name)] *)
Definition pio_write_image (fig : list plot) (name : string) : M unit :=
  call (WriteImage name fig);; write_file name (Png fig).

(** [slide.shapes.add_picture(name, left, top, width=.., height=..)]:
    reads the image file. *)
Definition add_picture (name : string) (left top width height : Z) : M picture :=
  fun w =>
    match files w !! name with
    | Some (Png content) =>
        (Ok {| image_file := name; image := content; pic_left := left;
               pic_top := top; pic_width := width; pic_height := height |}, w)
    | Some _ => (Raise (LibError "cannot identify image file"), w)
    | None => (Raise (LibError "No such file or directory"), w)
    end.

(** [prs.save(name)]: python-pptx opens the file for writing, which
    empties it, and then writes the parts of the package into it.  Both
    steps may fail; the second leaves the emptied file behind. *)
Definition prs_save (name : string) (prs : list slide) : M unit :=
  call (OpenForWriting name);;
  write_file name Truncated;;
  call (SavePresentation name);;
  write_file name (Pptx prs).

(** [open(name, "rb")] *)
Definition open_rb (name : string) : M file :=
  fun w =>
    match files w !! name with
    | Some f => (Ok f, w)
    | None => (Raise (LibError "No such file or directory"), w)
    end.

(** *** The filter step with its slider (lines 53 to 60) *)

Definition filter_step (df : DataFrame) (x_axis : string)
    (slider : float * float) : M DataFrame :=
  match df_col df x_axis with
  | None => throw (KeyError x_axis)
  | Some c =>
      if dtype_in_int_float (col_dtype c) then
        call (Slider ("Filter " +:+ x_axis +:+ " Range"));;
        lift_outcome (slider_filter df x_axis slider)
      else mret df
  end.

(** *** Generate Chart (lines 63 to 94) *)

(** Lines 66 to 88: the chart drawn on the page. *)
Definition render_chart (df : DataFrame) (chart_type x_axis y_axis color : string)
    (show_data_points : bool) : M unit :=
  if String.eqb chart_type "Bar Chart" then
    fig ← plt_subplots;
    draw_on fig (sns_barplot df x_axis y_axis color);;
    show_pyplot fig
  else if String.eqb chart_type "Line Chart" then
    fig ← px (px_line df x_axis y_axis (y_axis +:+ " over " +:+ x_axis) color);
    show_plotly fig
  else if String.eqb chart_type "Scatter Plot" then
    fig ← px (px_scatter df x_axis y_axis (y_axis +:+ " vs " +:+ x_axis) color);
    fig ← (if show_data_points
           then fig_add_scatter fig df x_axis y_axis color
           else mret fig);
    show_plotly fig
  else if String.eqb chart_type "Histogram" then
    fig ← plt_subplots;
    draw_on fig (sns_histplot df x_axis true color);;
    show_pyplot fig
  else if String.eqb chart_type "Box Plot" then
    fig ← plt_subplots;
    draw_on fig (sns_boxplot df x_axis y_axis color);;
    show_pyplot fig
  else if String.eqb chart_type "Pie Chart" then
    fig ← px (px_pie df x_axis y_axis
                (y_axis +:+ " Distribution by " +:+ x_axis) color);
    show_plotly fig
  else mret tt.

(** The body of the [try]: render, then record, then confirm. *)
Definition generate_body (df : DataFrame) (chart_type x_axis y_axis color : string)
    (show_data_points : bool) : M unit :=
  render_chart df chart_type x_axis y_axis color show_data_points;;
  charts_append (chart_type, x_axis, y_axis, color);;
  st (st_success (chart_type +:+ " added to the dashboard!")).

Definition generate_chart (df : DataFrame) (chart_type x_axis y_axis color : string)
    (show_data_points : bool) : M unit :=
  st (st_subheader (chart_type +:+ " Visualization"));;
  try_except
    (generate_body df chart_type x_axis y_axis color show_data_points)
    (fun e => st (st_error ("Error generating visualization: " +:+ exn_str e))).

(** *** The list of generated charts (lines 97 to 101) *)

Definition chart_line (c : chart) : string :=
  let '(chart_type, x_axis, y_axis, color) := c in
  chart_type +:+ " - X: " +:+ x_axis +:+ ", Y: " +:+ y_axis
    +:+ ", Color: " +:+ color.

Fixpoint write_all (lines : list string) : M unit :=
  match lines with
  | [] => mret tt
  | s :: rest => st (st_write s);; write_all rest
  end.

Definition display_charts : M unit :=
  l ← get_charts;
  match l with
  | [] => mret tt
  | _ => st (st_subheader "Generated Charts");; write_all (map chart_line l)
  end.

(** *** Download CSV (lines 104 to 111) *)

Definition download_csv (df : DataFrame) : M unit :=
  st (st_subheader "Download Filtered Dataset");;
  st (st_download_button "Download CSV" (Bytes (to_csv lib df))
        "filtered_dataset.csv" "text/csv").

(** *** Download Dashboard as PPT (lines 114 to 163) *)

Definition slide_title (c : chart) : string :=
  let '(chart_type, x_axis, y_axis, _) := c in
  chart_type +:+ " - X: " +:+ x_axis +:+ ", Y: " +:+ y_axis.

Definition chart_png (idx : nat) : string := "chart_" +:+ pretty idx +:+ ".png".

(** Lines 144 to 150: save the current figure, close it, place the
    image on the slide. *)
Definition save_and_place (fig : nat) (idx : nat) (title : string) : M slide :=
  plt_savefig (chart_png idx);;
  plt_close fig;;
  pic ← add_picture (chart_png idx) (Inches 1) (Inches 1) (Inches 6) (Inches 4);
  mret {| title_text := title; pictures := [pic] |}.

(** One turn of the loop: the slide [add_slide] made, as the turn
    leaves it. *)
Definition export_slide (df : DataFrame) (idx : nat) (c : chart) : M slide :=
  let '(chart_type, x_axis, y_axis, color) := c in
  let title := slide_title c in
  fig ← plt_subplots;
  if String.eqb chart_type "Bar Chart" then
    draw_on fig (sns_barplot df x_axis y_axis color);;
    save_and_place fig idx title
  else if String.eqb chart_type "Line Chart" then
    draw_on fig (sns_lineplot df x_axis y_axis color);;
    save_and_place fig idx title
  else if String.eqb chart_type "Scatter Plot" then
    draw_on fig (sns_scatterplot df x_axis y_axis color);;
    save_and_place fig idx title
  else if String.eqb chart_type "Histogram" then
    draw_on fig (sns_histplot df x_axis true color);;
    save_and_place fig idx title
  else if String.eqb chart_type "Box Plot" then
    draw_on fig (sns_boxplot df x_axis y_axis color);;
    save_and_place fig idx title
  else if String.eqb chart_type "Pie Chart" then
    pfig ← px (px_pie df x_axis y_axis
                 (y_axis +:+ " Distribution by " +:+ x_axis) color);
    pio_write_image pfig (chart_png idx);;
    plt_close_foreign pfig;;
    mret {| title_text := title; pictures := [] |}
  else save_and_place fig idx title.

(** [for idx, chart in enumerate(st.session_state.charts)], from [idx]. *)
Fixpoint export_loop (df : DataFrame) (idx : nat) (l : list chart) : M (list slide) :=
  match l with
  | [] => mret []
  | c :: rest =>
      s ← export_slide df idx c;
      prs ← export_loop df (S idx) rest;
      mret (s :: prs)
  end.

Definition ppt_filename : string := "dashboard.pptx".
Definition ppt_mime : string :=
  "application/vnd.openxmlformats-officedocument.presentationml.presentation".

Definition download_ppt (df : DataFrame) : M unit :=
  l ← get_charts;
  prs ← export_loop df 0 l;
  prs_save ppt_filename prs;;
  f ← open_rb ppt_filename;
  st (st_download_button "Download PPT" f ppt_filename ppt_mime).

(** *** The script *)

(** The widgets' values for one run. *)
Record widgets := {
  uploaded_file : option DataFrame;
  sel_chart_type : string;
  sel_x_axis : string;
  sel_y_axis : string;
  picked_color : string;
  show_data_points : bool;
  slider_value : float * float;
  generate_button : bool;
  ppt_button : bool
}.

(** Truth value of a string. *)
Definition truthy (s : string) : bool := negb (String.eqb s "").

(** [df.head()] *)
Definition df_head (df : DataFrame) : DataFrame :=
  select_rows df (replicate 5 true).

(** Lines 51 to 94: the slider's filter and the Generate Chart button;
    the table the rest of the run works on. *)
Definition controls (i : widgets) (df : DataFrame) : M DataFrame :=
  if truthy (sel_x_axis i) && truthy (sel_y_axis i) then
    df ← filter_step df (sel_x_axis i) (slider_value i);
    (if generate_button i then
       generate_chart df (sel_chart_type i) (sel_x_axis i) (sel_y_axis i)
         (picked_color i) (show_data_points i)
     else mret tt);;
    mret df
  else mret df.

(** Lines 96 to 163: the list of charts and the two downloads. *)
Definition outputs (i : widgets) (df : DataFrame) : M unit :=
  display_charts;;
  download_csv df;;
  if ppt_button i then download_ppt df else mret tt.

Definition app (i : widgets) : M unit :=
  st (st_title "📊 Data Visualization Dashboard");;
  session_init;;
  match uploaded_file i with
  | None => st (st_info "Please upload a CSV file to get started.")
  | Some df =>
      st (st_success "File uploaded successfully!");;
      st (st_subheader "Preview of the Dataset");;
      st (st_write_frame (df_head df));;
      st (st_header "Visualization Settings");;
      df ← controls i df;
      outputs i df
  end.

(** One run of the script: the page starts empty. *)
Definition run (i : widgets) (w : World) : outcome unit * World :=
  app i (set_ui [] w).

End Script.

(** The CSV data a page offers for download. *)
Definition is_csv_button (e : ui_event) : bool :=
  match e with
  | st_download_button label _ _ _ => String.eqb label "Download CSV"
  | _ => false
  end.

Definition csv_offered (page : list ui_event) : option file :=
  match List.find is_csv_button page with
  | Some (st_download_button _ data _ _) => Some data
  | _ => None
  end.

(** ** Predicates on statements *)

(** [preserves P m]: however [m] ends, by returning or by raising, the
    world it leaves is related by [P] to the one it started in. *)
Definition preserves {A} (P : World -> World -> Prop) (m : M A) : Prop :=
  forall w r w', m w = (r, w') -> P w w'.

(** [returns m]: [m] does not raise. *)
Definition returns {A} (m : M A) : Prop :=
  forall w, exists a w', m w = (Ok a, w').

(** Two worlds that look the same through [view]. *)
Definition unchanged {X} (view : World -> X) (w w' : World) : Prop :=
  view w' = view w.

Definition same_charts : World -> World -> Prop := unchanged session_charts.

Definition not_csv_button (e : ui_event) : bool := negb (is_csv_button e).

Definition same_csv : World -> World -> Prop :=
  unchanged (fun w => csv_offered (ui w)).

(** ** What an export is expected to leave *)

(** The drawing the export makes for an entry, given the table. *)
Definition export_plot (df : DataFrame) (c : chart) : list plot :=
  let '(chart_type, x_axis, y_axis, color) := c in
  if String.eqb chart_type "Bar Chart" then [sns_barplot df x_axis y_axis color]
  else if String.eqb chart_type "Line Chart" then [sns_lineplot df x_axis y_axis color]
  else if String.eqb chart_type "Scatter Plot" then [sns_scatterplot df x_axis y_axis color]
  else if String.eqb chart_type "Histogram" then [sns_histplot df x_axis true color]
  else if String.eqb chart_type "Box Plot" then [sns_boxplot df x_axis y_axis color]
  else if String.eqb chart_type "Pie Chart" then
    [px_pie df x_axis y_axis (y_axis +:+ " Distribution by " +:+ x_axis) color]
  else [].

Definition is_pie (c : chart) : bool :=
  let '(chart_type, _, _, _) := c in String.eqb chart_type "Pie Chart".

(** An image placed at 1in, 1in, 6in wide and 4in high. *)
Definition placed (idx : nat) (content : list plot) : picture :=
  {| image_file := chart_png idx; image := content;
     pic_left := Inches 1; pic_top := Inches 1;
     pic_width := Inches 6; pic_height := Inches 4 |}.

(** The slide expected for an entry: its title and its image. *)
Definition slide_for (df : DataFrame) (idx : nat) (c : chart) : slide :=
  {| title_text := slide_title c;
     pictures := [placed idx (export_plot df c)] |}.

Fixpoint slides_from (df : DataFrame) (idx : nat) (l : list chart) : list slide :=
  match l with
  | [] => []
  | c :: rest => slide_for df idx c :: slides_from df (S idx) rest
  end.

(** The image files the loop writes, one per entry. *)
Fixpoint files_after (df : DataFrame) (idx : nat) (l : list chart)
    (fs : gmap string file) : gmap string file :=
  match l with
  | [] => fs
  | c :: rest =>
      files_after df (S idx) rest (<[chart_png idx := Png (export_plot df c)]> fs)
  end.

(** A library in which no call raises and whose csv writer meets plain
    records only. *)
Definition quiet : Libs := {|
  raises := fun _ => None;
  writerow := delimited
|}.

(** A library whose plotting calls raise, and one that cannot write
    image files. *)
Definition no_plots : Libs := {|
  raises := fun c =>
    match c with
    | Draw _ => Some "Could not interpret value"
    | _ => None
    end;
  writerow := writerow quiet
|}.

Definition no_disk : Libs := {|
  raises := fun c =>
    match c with
    | WriteImage _ _ => Some "No space left on device"
    | _ => None
    end;
  writerow := writerow quiet
|}.

(** A library whose slider raises (Streamlit's does when the two ends
    of the range are equal), and one that cannot write the deck. *)
Definition no_slider : Libs := {|
  raises := fun c =>
    match c with
    | Slider _ => Some "Slider min_value must be less than the max_value"
    | _ => None
    end;
  writerow := writerow quiet
|}.

Definition no_save : Libs := {|
  raises := fun c =>
    match c with
    | SavePresentation _ => Some "No space left on device"
    | _ => None
    end;
  writerow := writerow quiet
|}.

(** When a run ends, however it ends, Streamlit's script runner closes
    all of pyplot's figures; the session state and the files stay. *)
Definition end_of_run (w : World) : World := set_figs [] w.

(** A session is the script run once per user action. *)
Fixpoint run_all (lib : Libs) (inputs : list widgets) (w : World) : World :=
  match inputs with
  | [] => w
  | i :: rest => run_all lib rest (end_of_run (snd (run lib i w)))
  end.

(** The entry a click on Generate Chart asks for. *)
Definition spec_of (i : widgets) : chart :=
  (sel_chart_type i, sel_x_axis i, sel_y_axis i, picked_color i).

(** The widgets of a run in which a click on Generate Chart reaches the
    renderer: a table is loaded, both axes are chosen among its columns
    (the select boxes offer nothing else), the button is pressed. *)
Definition generates (i : widgets) : Prop :=
  exists df,
    uploaded_file i = Some df /\
    truthy (sel_x_axis i) = true /\ truthy (sel_y_axis i) = true /\
    is_Some (df_col df (sel_x_axis i)) /\ is_Some (df_col df (sel_y_axis i)) /\
    generate_button i = true.

(** ** Sample data *)

Definition sales_table : DataFrame :=
  [("date", Object [Some "mon"; Some "tue"; Some "wed"]);
   ("sales", Int64 [50; 150; 250]%Z)].

Definition new_session : World :=
  {| session_charts := None; ui := []; figs := []; files := ∅ |}.

Definition session_with (l : list chart) : World :=
  {| session_charts := Some l; ui := []; figs := []; files := ∅ |}.

(** The widgets as a user leaves them on the sample table. *)
Definition sample_widgets (kind x y : string) (range : float * float)
    (generate ppt : bool) : widgets :=
  {| uploaded_file := Some sales_table; sel_chart_type := kind;
     sel_x_axis := x; sel_y_axis := y; picked_color := "#1f77b4";
     show_data_points := false; slider_value := range;
     generate_button := generate; ppt_button := ppt |}.

Definition bar_sales : chart := ("Bar Chart", "sales", "date", "#1f77b4").
Definition line_sales : chart := ("Line Chart", "sales", "date", "#1f77b4").
Definition pie_sales : chart := ("Pie Chart", "date", "sales", "#1f77b4").

(** A session in which a bar chart and then a line chart were generated
    with the slider at [100, 200], and the widgets of a later run that
    exports with the slider at [50, 150]. *)
Definition after_two_generations : World :=
  run_all quiet
    [sample_widgets "Bar Chart" "sales" "date" (100%float, 200%float) true false;
     sample_widgets "Line Chart" "sales" "date" (100%float, 200%float) true false]
    new_session.

Definition export_at_50_150 : widgets :=
  sample_widgets "Box Plot" "sales" "date" (50%float, 150%float) false true.

(** A table with a column of every kind, and a missing value in the
    text and in the float column. *)
Definition mixed_table : DataFrame :=
  [("day", Object [Some "mon"; None; Some "wed"]);
   ("sales", Int64 [50; -7; 250]%Z);
   ("price", Float64 [1.5%float; PrimFloat.nan; 0x1.999999999999ap-4%float]);
   ("paid", Bool [true; false; true])].

(** The six chart kinds of the select box. *)
Definition chart_kinds : list string :=
  ["Bar Chart"; "Line Chart"; "Scatter Plot"; "Histogram"; "Box Plot"; "Pie Chart"].

(** * Proofs *)

(** ** Boolean indexing: general facts *)

Section TakeMask.
Context {A B : Type}.

Lemma take_mask_nil_r (m : list bool) : take_mask m (@nil A) = [].
Proof. destruct m as [|[] m]; reflexivity. Qed.

Lemma take_mask_map (f : A -> B) (m : list bool) (l : list A) :
  take_mask m (map f l) = map f (take_mask m l).
Proof.
  revert l; induction m as [|b m IH]; intros [|a l]; simpl; try reflexivity.
  destruct b; simpl; rewrite IH; reflexivity.
Qed.

Lemma take_mask_filter (p : A -> bool) (l : list A) :
  take_mask (map p l) l = List.filter p l.
Proof.
  induction l as [|a l IH]; simpl; [reflexivity|].
  destruct (p a); rewrite IH; reflexivity.
Qed.

Lemma take_mask_all_true (m : list bool) (l : list A) :
  Forall (fun b => b = true) m -> length l <= length m -> take_mask m l = l.
Proof.
  intros Hm; revert l; induction Hm as [|b m Hb _ IH]; intros [|a l] Hl;
    simpl in *; try reflexivity; [lia|].
  subst b. rewrite IH by lia. reflexivity.
Qed.

Lemma take_mask_length (m : list bool) (l : list A) :
  length m = length l ->
  length (take_mask m l) = length (List.filter (fun b => b) m).
Proof.
  revert l; induction m as [|b m IH]; intros [|a l] Hl; simpl in *;
    try reflexivity; try discriminate.
  destruct b; simpl; rewrite IH by lia; reflexivity.
Qed.

End TakeMask.

Lemma zip_with_nil_right {A B C} (f : A -> B -> C) (l : list A) :
  zip_with f l [] = [].
Proof. destruct l; reflexivity. Qed.

Lemma take_mask_zip_with {A B C} (f : A -> B -> C) (m : list bool)
    (l : list A) (k : list B) :
  take_mask m (zip_with f l k) = zip_with f (take_mask m l) (take_mask m k).
Proof.
  revert l k; induction m as [|b m IH]; intros l k; [reflexivity|].
  destruct l as [|a l]; [reflexivity|].
  destruct k as [|c k].
  - change (take_mask (b :: m) (@nil B)) with (@nil B).
    rewrite !zip_with_nil_right. reflexivity.
  - simpl. destruct b; simpl; rewrite IH; reflexivity.
Qed.

Lemma take_mask_replicate {A} (m : list bool) (x : A) :
  take_mask m (replicate (length m) x)
  = replicate (length (List.filter (fun b => b) m)) x.
Proof.
  induction m as [|b m IH]; simpl; [reflexivity|].
  destruct b; simpl; rewrite IH; reflexivity.
Qed.

(** ** The row view and boolean indexing *)

Lemma cells_col_select (m : list bool) (c : column) :
  cells (col_select m c) = take_mask m (cells c).
Proof. destruct c; simpl; rewrite take_mask_map; reflexivity. Qed.

Lemma columns_select_rows (df : DataFrame) (m : list bool) :
  columns (select_rows df m) = columns df.
Proof.
  unfold columns, select_rows. rewrite map_map. reflexivity.
Qed.

Lemma dtypes_select_rows (df : DataFrame) (m : list bool) :
  map (fun nc => col_dtype (snd nc)) (select_rows df m)
  = map (fun nc => col_dtype (snd nc)) df.
Proof.
  unfold select_rows. rewrite map_map. apply map_ext.
  intros [n c]; destruct c; reflexivity.
Qed.

Lemma df_col_select_rows (df : DataFrame) (m : list bool) (x : string) :
  df_col (select_rows df m) x = col_select m <$> df_col df x.
Proof.
  induction df as [|[n c] df IH]; simpl; [reflexivity|].
  destruct (String.eqb n x); [reflexivity|apply IH].
Qed.

Lemma rows_from_select_rows (df : DataFrame) (m : list bool) :
  rows_from (count_true m) (select_rows df m)
  = take_mask m (rows_from (length m) df).
Proof.
  induction df as [|[n c] df IH]; simpl.
  - symmetry. apply take_mask_replicate.
  - rewrite cells_col_select, IH, take_mask_zip_with. reflexivity.
Qed.

Lemma col_len_select (m : list bool) (c : column) :
  col_len c = length m -> col_len (col_select m c) = count_true m.
Proof.
  unfold col_len. intros H. rewrite cells_col_select.
  apply take_mask_length. congruence.
Qed.

Lemma wf_select_rows (df : DataFrame) (m : list bool) :
  wf_frame df -> nrows df = length m -> wf_frame (select_rows df m).
Proof.
  unfold wf_frame. intros Hwf Hm.
  assert (Hn : forall nc, In nc (select_rows df m) ->
                 col_len (snd nc) = count_true m).
  { intros nc Hin. unfold select_rows in Hin. apply in_map_iff in Hin.
    destruct Hin as [[n c] [<- Hin]]. simpl. apply col_len_select.
    rewrite Forall_forall in Hwf.
    rewrite <- Hm. apply (Hwf (n, c)). apply list_elem_of_In, Hin. }
  apply Forall_forall. intros nc Hin. apply list_elem_of_In in Hin.
  rewrite (Hn nc Hin).
  destruct df as [|[n c] df]; [destruct Hin|].
  simpl in *. symmetry. apply (Hn (n, col_select m c)). left; reflexivity.
Qed.

Lemma rows_select_rows (df : DataFrame) (m : list bool) :
  wf_frame df -> nrows df = length m ->
  rows (select_rows df m) = take_mask m (rows df).
Proof.
  intros Hwf Hm. unfold rows. rewrite Hm, <- rows_from_select_rows.
  destruct df as [|[n c] df]; simpl in *.
  - destruct m; [reflexivity|discriminate].
  - rewrite col_len_select by exact Hm. reflexivity.
Qed.

Lemma rows_from_length (n : nat) (df : DataFrame) :
  Forall (fun nc => col_len (snd nc) = n) df -> length (rows_from n df) = n.
Proof.
  induction 1 as [|[name c] df Hc _ IH]; simpl.
  - apply length_replicate.
  - rewrite length_zip_with, IH. unfold col_len in Hc. simpl in Hc. lia.
Qed.

Lemma map_zip_with_l {A B C D} (f : A -> B -> C) (g : C -> D) (h : A -> D)
    (l : list A) (k : list B) :
  (forall a b, g (f a b) = h a) -> length l <= length k ->
  map g (zip_with f l k) = map h l.
Proof.
  intros Hg. revert k; induction l as [|a l IH]; intros [|b k] Hl;
    simpl in *; try reflexivity; [lia|].
  rewrite Hg, IH by lia. reflexivity.
Qed.

Lemma map_zip_with_r {A B C D} (f : A -> B -> C) (g : C -> D) (h : B -> D)
    (l : list A) (k : list B) :
  (forall a b, g (f a b) = h b) -> length k <= length l ->
  map g (zip_with f l k) = map h k.
Proof.
  intros Hg. revert k; induction l as [|a l IH]; intros [|b k] Hl;
    simpl in *; try reflexivity; [lia|].
  rewrite Hg, IH by lia. reflexivity.
Qed.

(** Reading field [x] off every row gives back column [x]. *)
Lemma row_get_rows_from (n : nat) (df : DataFrame) (x : string) (c : column) :
  Forall (fun nc => col_len (snd nc) = n) df ->
  df_col df x = Some c ->
  map (fun r => row_get r x) (rows_from n df) = map Some (cells c).
Proof.
  induction 1 as [|[name c0] df Hc Hdf IH]; simpl; [discriminate|].
  pose proof (rows_from_length n df Hdf) as Hlen.
  unfold col_len in Hc; simpl in Hc.
  destruct (String.eqb name x) eqn:E.
  - intros [= <-].
    apply map_zip_with_l; [|lia].
    intros v r. simpl. rewrite E. reflexivity.
  - intros Hx. rewrite <- (IH Hx).
    apply map_zip_with_r; [|lia].
    intros v r. simpl. rewrite E. reflexivity.
Qed.

Lemma cell_float_cells (c : column) (vs : list float) :
  to_float64 c = Some vs -> map cell_float (cells c) = map Some vs.
Proof.
  destruct c as [l|l|l|l]; simpl; intros [= <-]; rewrite !map_map;
    reflexivity.
Qed.

Lemma mask_and_between (vs : list float) (min_val max_val : float) :
  mask_and (ge_mask vs min_val) (le_mask vs max_val)
  = map (fun f => PrimFloat.leb min_val f && PrimFloat.leb f max_val) vs.
Proof.
  unfold mask_and, ge_mask, le_mask.
  induction vs as [|v vs IH]; simpl; [reflexivity|]. rewrite IH. reflexivity.
Qed.

(** The mask the script computes from the column is the range predicate
    evaluated on every row. *)
Lemma mask_is_row_in_range (df : DataFrame) (x : string) (c : column)
    (vs : list float) (min_val max_val : float) :
  wf_frame df -> df_col df x = Some c -> to_float64 c = Some vs ->
  mask_and (ge_mask vs min_val) (le_mask vs max_val)
  = map (row_in_range x min_val max_val) (rows df).
Proof.
  intros Hwf Hc Hvs. rewrite mask_and_between.
  pose proof (row_get_rows_from (nrows df) df x c Hwf Hc) as Hget.
  pose proof (cell_float_cells c vs Hvs) as Hfl.
  unfold rows, row_in_range.
  transitivity (map (fun o : option cell =>
                       match o with
                       | Some v => in_range min_val max_val v
                       | None => false
                       end) (map (fun r => row_get r x) (rows_from (nrows df) df))).
  2:{ rewrite map_map. reflexivity. }
  rewrite Hget, map_map. simpl.
  transitivity (map (fun o : option float =>
                       match o with
                       | Some f => PrimFloat.leb min_val f && PrimFloat.leb f max_val
                       | None => false
                       end) (map cell_float (cells c))).
  - rewrite Hfl, map_map. reflexivity.
  - rewrite map_map. reflexivity.
Qed.

Lemma numeric_to_float64 (c : column) :
  dtype_in_int_float (col_dtype c) = true -> exists vs, to_float64 c = Some vs.
Proof. destruct c; simpl; intros H; try discriminate; eauto. Qed.

(** The shape of the filter's result on a numeric field. *)
Lemma slider_filter_numeric (df : DataFrame) (x_axis : string) (c : column)
    (min_val max_val : float) :
  wf_frame df -> df_col df x_axis = Some c ->
  dtype_in_int_float (col_dtype c) = true ->
  slider_filter df x_axis (min_val, max_val)
  = Ok (select_rows df (map (row_in_range x_axis min_val max_val) (rows df))).
Proof.
  intros Hwf Hc Hnum. unfold slider_filter. rewrite Hc, Hnum.
  destruct (numeric_to_float64 c Hnum) as [vs Hvs]. rewrite Hvs.
  rewrite (mask_is_row_in_range df x_axis c vs min_val max_val Hwf Hc Hvs).
  reflexivity.
Qed.

Lemma rows_length (df : DataFrame) : wf_frame df -> length (rows df) = nrows df.
Proof. intros Hwf. apply rows_from_length, Hwf. Qed.

Lemma col_select_all_true (m : list bool) (c : column) :
  Forall (fun b => b = true) m -> col_len c <= length m -> col_select m c = c.
Proof.
  unfold col_len. intros Hm Hl.
  destruct c as [l|l|l|l]; simpl in *; rewrite length_map in Hl;
    rewrite take_mask_all_true by assumption; reflexivity.
Qed.

Lemma select_rows_all_true (df : DataFrame) (m : list bool) :
  Forall (fun b => b = true) m ->
  Forall (fun nc => col_len (snd nc) <= length m) df ->
  select_rows df m = df.
Proof.
  intros Hm. induction 1 as [|[n c] df Hc _ IH]; simpl; [reflexivity|].
  rewrite IH. simpl in Hc. rewrite col_select_all_true by assumption.
  reflexivity.
Qed.

Lemma map_filter_all_true {A} (p : A -> bool) (l : list A) :
  Forall (fun b => b = true) (map p (List.filter p l)).
Proof.
  induction l as [|a l IH]; simpl; [constructor|].
  destruct (p a) eqn:E; simpl; [constructor; assumption|assumption].
Qed.

(** ** Integers as float64

    An integer of magnitude up to [2^53] is converted without rounding,
    and the float comparison is then the comparison of the numbers. *)

Section Float64.
Local Open Scope Z_scope.

Lemma digits2_pos_bounds (m : positive) :
  2 ^ (Z.pos (digits2_pos m) - 1) <= Z.pos m < 2 ^ Z.pos (digits2_pos m).
Proof.
  induction m as [m IH|m IH|]; simpl digits2_pos.
  - rewrite Pos2Z.inj_succ.
    replace (Z.succ (Z.pos (digits2_pos m)) - 1) with (Z.succ (Z.pos (digits2_pos m) - 1)) by lia.
    rewrite !Z.pow_succ_r by lia. lia.
  - rewrite Pos2Z.inj_succ.
    replace (Z.succ (Z.pos (digits2_pos m)) - 1) with (Z.succ (Z.pos (digits2_pos m) - 1)) by lia.
    rewrite !Z.pow_succ_r by lia. lia.
  - simpl. lia.
Qed.

Lemma iter_xO_value (p k : positive) :
  Z.pos (Pos.iter xO p k) = Z.pos p * 2 ^ Z.pos k.
Proof.
  revert p. induction k as [|k IH] using Pos.peano_ind; intros p.
  - simpl. lia.
  - rewrite Pos.iter_succ, Pos2Z.inj_succ, Z.pow_succ_r by lia.
    change (Z.pos (Pos.iter xO p k)~0) with (2 * Z.pos (Pos.iter xO p k)).
    rewrite IH. lia.
Qed.

Lemma iter_xO_digits (p k : positive) :
  digits2_pos (Pos.iter xO p k) = (digits2_pos p + k)%positive.
Proof.
  induction k as [|k IH] using Pos.peano_ind.
  - simpl. lia.
  - rewrite Pos.iter_succ. simpl. rewrite IH. lia.
Qed.

(** A mantissa of 53 bits with an exponent in range is returned as it is. *)
Lemma binary_round_aux_canonical (s : bool) (m : positive) (e : Z) :
  digits2_pos m = 53%positive -> -1074 <= e <= 971 ->
  binary_round_aux 53 1024 s (Z.pos m) e loc_Exact = S754_finite s m e.
Proof.
  intros Hd He. unfold binary_round_aux, shr_fexp. simpl Zdigits2. rewrite Hd.
  match goal with
  | |- context [shr _ _ ?n] =>
      replace n with 0 by (unfold fexp, SpecFloat.emin; lia)
  end.
  cbn [shr shr_record_of_loc shr_m loc_of_shr_record round_nearest_even Zdigits2].
  rewrite Hd.
  match goal with
  | |- context [shr _ _ ?n] =>
      replace n with 0 by (unfold fexp, SpecFloat.emin; lia)
  end.
  cbn [shr shr_record_of_loc shr_m].
  destruct (Z.leb_spec e (1024 - 53)); [reflexivity|lia].
Qed.

Lemma binary_round_small (s : bool) (p : positive) :
  Z.pos (digits2_pos p) <= 53 ->
  exists m,
    binary_round 53 1024 s p 0 = S754_finite s m (Z.pos (digits2_pos p) - 53) /\
    digits2_pos m = 53%positive /\
    Z.pos m = Z.pos p * 2 ^ (53 - Z.pos (digits2_pos p)).
Proof.
  intros Hd. unfold binary_round.
  set (d := Z.pos (digits2_pos p)) in *.
  assert (Hf : fexp 53 1024 (d + 0) = d - 53).
  { unfold fexp, SpecFloat.emin. assert (0 < d) by (unfold d; lia). lia. }
  rewrite Hf. unfold shl_align.
  destruct (d - 53 - 0) as [|k|k] eqn:Hk; try lia.
  - exists p. assert (d = 53) by lia.
    split; [|split].
    + rewrite binary_round_aux_canonical; [f_equal; lia| unfold d in *; lia | lia].
    + unfold d in *. lia.
    + replace (53 - d) with 0 by lia. lia.
  - exists (Pos.iter xO p k).
    assert (Hdk : digits2_pos (Pos.iter xO p k) = 53%positive).
    { rewrite iter_xO_digits. unfold d in *. lia. }
    split; [|split].
    + rewrite binary_round_aux_canonical; [reflexivity|exact Hdk|].
      assert (0 < d) by (unfold d; lia). lia.
    + exact Hdk.
    + rewrite iter_xO_value. f_equal. f_equal. lia.
Qed.

Lemma binary_round_2_53 (s : bool) :
  binary_round 53 1024 s 9007199254740992 0 = S754_finite s 4503599627370496 1.
Proof. destruct s; vm_compute; reflexivity. Qed.

(** The float of an integer of at most 53 bits, or of [2^53]: a mantissa
    [m] of 53 bits and an exponent [d - 53], with [m * 2^(d-53)] the
    integer. *)
Lemma binary_round_exact (s : bool) (p : positive) :
  Z.pos p <= 2 ^ 53 ->
  exists m d,
    binary_round 53 1024 s p 0 = S754_finite s m (d - 53) /\
    digits2_pos m = 53%positive /\
    1 <= d <= 54 /\
    2 * Z.pos m = Z.pos p * 2 ^ (54 - d).
Proof.
  intros Hp.
  destruct (Z.le_gt_cases (Z.pos (digits2_pos p)) 53) as [Hd|Hd].
  - destruct (binary_round_small s p Hd) as (m & Hm & Hdm & Hv).
    exists m, (Z.pos (digits2_pos p)). split; [exact Hm|]. split; [exact Hdm|].
    split; [lia|].
    replace (54 - Z.pos (digits2_pos p)) with (Z.succ (53 - Z.pos (digits2_pos p)))
      by lia.
    rewrite Z.pow_succ_r by lia. lia.
  - assert (Hp' : p = 9007199254740992%positive).
    { pose proof (digits2_pos_bounds p) as [Hlo _].
      assert (2 ^ 53 <= 2 ^ (Z.pos (digits2_pos p) - 1))
        by (apply Z.pow_le_mono_r; lia).
      assert (Z.pos p = 2 ^ 53) by lia.
      change (2 ^ 53) with (Z.pos 9007199254740992) in *. congruence. }
    subst p. exists 4503599627370496%positive, 54.
    split; [apply binary_round_2_53|]. split; [reflexivity|]. split; [lia|].
    reflexivity.
Qed.

Lemma valid_finite (s : bool) (m : positive) (e : Z) :
  valid_binary (S754_finite s m e) = true ->
  Z.pos m < 2 ^ 53 /\ -1074 <= e /\ (-1074 < e -> 2 ^ 52 <= Z.pos m).
Proof.
  unfold valid_binary, SpecFloat.valid_binary, bounded, canonical_mantissa,
    fexp, SpecFloat.emin, prec, emax.
  intros H. apply andb_prop in H. destruct H as [Hc _].
  apply Z.eqb_eq in Hc.
  pose proof (digits2_pos_bounds m) as [Hlo Hhi].
  set (d := Z.pos (digits2_pos m)) in *.
  assert (0 < d) by (unfold d; lia).
  split; [|split].
  - assert (d <= 53) by lia.
    assert (2 ^ d <= 2 ^ 53) by (apply Z.pow_le_mono_r; lia). lia.
  - lia.
  - intros He. assert (d = 53) by lia.
    replace (d - 1) with 52 in Hlo by lia. exact Hlo.
Qed.

(** The comparison of a valid positive float with a positive integer. *)
Lemma compare_pos (mx m p : positive) (ex d : Z) :
  Z.pos mx < 2 ^ 53 -> -1074 <= ex -> (-1074 < ex -> 2 ^ 52 <= Z.pos mx) ->
  digits2_pos m = 53%positive -> 1 <= d <= 54 ->
  2 * Z.pos m = Z.pos p * 2 ^ (54 - d) ->
  match ex ?= d - 53 with
  | Lt => Lt
  | Gt => Gt
  | Eq => Pos.compare_cont Eq mx m
  end
  = (if 0 <=? ex then Z.pos mx * 2 ^ ex ?= Z.pos p
     else Z.pos mx ?= Z.pos p * 2 ^ (- ex)).
Proof.
  intros Hx1 Hx2 Hx3 Hdm Hd Hv.
  pose proof (digits2_pos_bounds m) as [Hmlo Hmhi]. rewrite Hdm in Hmlo, Hmhi.
  change (2 ^ (53 - 1)) with (2 ^ 52) in Hmlo.
  set (X := Z.pos mx) in *. set (M := Z.pos m) in *. set (P := Z.pos p) in *.
  assert (HP : 0 < P) by (unfold P; lia).
  assert (Hpow : 0 < 2 ^ (54 - d)) by (apply Z.pow_pos_nonneg; lia).
  assert (HPd : P < 2 ^ d).
  { assert (P * 2 ^ (54 - d) < 2 ^ d * 2 ^ (54 - d)).
    { rewrite <- Z.pow_add_r by lia. replace (d + (54 - d)) with 54 by lia.
      change (2 ^ 54) with (2 * 2 ^ 53). lia. }
    nia. }
  destruct (Z.compare_spec ex (d - 53)) as [He|He|He].
  - (* same exponent *)
    change (Pos.compare_cont Eq mx m) with (X ?= M).
    destruct (Z.leb_spec 0 ex) as [H0|H0].
    + assert (d = 53 \/ d = 54) as [->| ->] by lia.
      * replace ex with 0 by lia. change (2 ^ (54 - 53)) with 2 in Hv.
        rewrite Z.pow_0_r, Z.mul_1_r. f_equal. lia.
      * replace ex with 1 by lia. change (2 ^ (54 - 54)) with 1 in Hv.
        assert (HPM : P = 2 * M) by lia.
        rewrite Z.pow_1_r, HPM.
        destruct (Z.compare_spec X M); symmetry;
          [apply Z.compare_eq_iff | apply Z.compare_lt_iff | apply Z.compare_gt_iff];
          lia.
    + f_equal. replace (54 - d) with (Z.succ (- ex)) in Hv by lia.
      rewrite Z.pow_succ_r in Hv by lia. lia.
  - (* the float has the smaller exponent *)
    destruct (Z.leb_spec 0 ex) as [H0|H0].
    + assert (d = 54) by lia. subst d. replace ex with 0 by lia.
      change (2 ^ (54 - 54)) with 1 in Hv.
      rewrite Z.pow_0_r, Z.mul_1_r. symmetry. apply Z.compare_lt_iff. lia.
    + symmetry. apply Z.compare_lt_iff.
      replace (- ex) with ((54 - d) + (- ex - (54 - d))) by lia.
      rewrite Z.pow_add_r by lia.
      assert (0 < 2 ^ (- ex - (54 - d))) by (apply Z.pow_pos_nonneg; lia).
      rewrite Z.mul_assoc, <- Hv. nia.
  - (* the float has the larger exponent *)
    assert (HX : 2 ^ 52 <= X) by (apply Hx3; lia).
    destruct (Z.leb_spec 0 ex) as [H0|H0].
    + symmetry. apply Z.compare_gt_iff.
      assert (2 ^ d <= 2 ^ (52 + ex)) by (apply Z.pow_le_mono_r; lia).
      rewrite Z.pow_add_r in H by lia.
      assert (0 < 2 ^ ex) by (apply Z.pow_pos_nonneg; lia). nia.
    + symmetry. apply Z.compare_gt_iff.
      assert (2 ^ (d - ex) <= 2 ^ 52) by (apply Z.pow_le_mono_r; lia).
      replace (d - ex) with (d + - ex) in H by lia.
      rewrite Z.pow_add_r in H by lia.
      assert (0 < 2 ^ (- ex)) by (apply Z.pow_pos_nonneg; lia). nia.
Qed.

Lemma compare_opp_opp (a b : Z) : (- a ?= - b) = CompOpp (a ?= b).
Proof. rewrite Z.compare_opp, Z.compare_antisym. reflexivity. Qed.

(** The comparison of a valid float with the float of an integer is the
    comparison of its value with the integer. *)
Lemma SFcompare_float_of_Z (x : spec_float) (z : Z) :
  valid_binary x = true -> - 2 ^ 53 <= z <= 2 ^ 53 ->
  SFcompare x (binary_normalize 53 1024 z 0 false) = SF_compare_Z x z.
Proof.
  intros Hx Hz. destruct z as [|p|p]; unfold binary_normalize.
  - destruct x as [s|s| |s m e]; try reflexivity.
    apply valid_finite in Hx. destruct Hx as (_ & He & _).
    unfold SFcompare, SF_compare_Z. f_equal.
    destruct s; destruct (Z.leb_spec 0 e); symmetry;
      [apply Z.compare_lt_iff | apply Z.compare_lt_iff
      | apply Z.compare_gt_iff | apply Z.compare_gt_iff];
      try (assert (0 < 2 ^ e) by (apply Z.pow_pos_nonneg; lia); nia); lia.
  - destruct (binary_round_exact false p) as (m & d & -> & Hdm & Hd & Hv); [lia|].
    destruct x as [s|s| |s mx ex]; try reflexivity.
    apply valid_finite in Hx. destruct Hx as (Hx1 & Hx2 & Hx3).
    unfold SFcompare, SF_compare_Z. f_equal. destruct s.
    + destruct (Z.leb_spec 0 ex); symmetry; apply Z.compare_lt_iff.
      * assert (0 < 2 ^ ex) by (apply Z.pow_pos_nonneg; lia). nia.
      * assert (0 < 2 ^ (- ex)) by (apply Z.pow_pos_nonneg; lia). nia.
    + apply compare_pos; assumption.
  - destruct (binary_round_exact true p) as (m & d & -> & Hdm & Hd & Hv); [lia|].
    destruct x as [s|s| |s mx ex]; try reflexivity.
    apply valid_finite in Hx. destruct Hx as (Hx1 & Hx2 & Hx3).
    unfold SFcompare, SF_compare_Z. f_equal. destruct s.
    + pose proof (compare_pos mx m p ex d Hx1 Hx2 Hx3 Hdm Hd Hv) as Hc.
      change (Z.neg mx) with (- Z.pos mx). change (Z.neg p) with (- Z.pos p).
      destruct (0 <=? ex).
      * rewrite Z.mul_opp_l, compare_opp_opp, <- Hc.
        destruct (ex ?= d - 53); reflexivity.
      * rewrite Z.mul_opp_l, compare_opp_opp, <- Hc.
        destruct (ex ?= d - 53); reflexivity.
    + destruct (Z.leb_spec 0 ex); symmetry; apply Z.compare_gt_iff.
      * assert (0 < 2 ^ ex) by (apply Z.pow_pos_nonneg; lia). nia.
      * assert (0 < 2 ^ (- ex)) by (apply Z.pow_pos_nonneg; lia). nia.
Qed.

Lemma SFcompare_antisym (x y : spec_float) :
  SFcompare y x = option_map CompOpp (SFcompare x y).
Proof.
  destruct x as [sx|sx| |sx mx ex], y as [sy|sy| |sy my ey]; simpl;
    try reflexivity;
    try (destruct sx; reflexivity); try (destruct sy; reflexivity);
    try (destruct sx, sy; reflexivity).
  f_equal. destruct sx, sy; try reflexivity;
    rewrite (Z.compare_antisym ex ey);
    destruct (ex ?= ey); simpl; try reflexivity;
    rewrite (Pos.compare_cont_antisym mx my Eq); simpl;
    destruct (Pos.compare_cont Eq mx my); reflexivity.
Qed.

Lemma binary_normalize_valid (z : Z) :
  - 2 ^ 53 <= z <= 2 ^ 53 ->
  valid_binary (binary_normalize 53 1024 z 0 false) = true.
Proof.
  intros Hz. destruct z as [|p|p]; unfold binary_normalize; [reflexivity| |].
  - destruct (binary_round_exact false p) as (m & d & -> & Hdm & Hd & Hv); [lia|].
    unfold valid_binary, SpecFloat.valid_binary, bounded, canonical_mantissa,
      fexp, SpecFloat.emin, prec, emax.
    rewrite Hdm. apply andb_true_intro. split; [apply Z.eqb_eq|apply Z.leb_le]; lia.
  - destruct (binary_round_exact true p) as (m & d & -> & Hdm & Hd & Hv); [lia|].
    unfold valid_binary, SpecFloat.valid_binary, bounded, canonical_mantissa,
      fexp, SpecFloat.emin, prec, emax.
    rewrite Hdm. apply andb_true_intro. split; [apply Z.eqb_eq|apply Z.leb_le]; lia.
Qed.

Lemma leb_float_of_Z_r (a : float) (z : Z) :
  - 2 ^ 53 <= z <= 2 ^ 53 ->
  PrimFloat.leb a (float_of_Z z) = SF_le_Z (Prim2SF a) z.
Proof.
  intros Hz. unfold float_of_Z, SF_le_Z.
  rewrite leb_spec, Prim2SF_SF2Prim by (apply binary_normalize_valid, Hz).
  unfold SFleb. rewrite SFcompare_float_of_Z by (apply Prim2SF_valid || exact Hz).
  reflexivity.
Qed.

Lemma leb_float_of_Z_l (a : float) (z : Z) :
  - 2 ^ 53 <= z <= 2 ^ 53 ->
  PrimFloat.leb (float_of_Z z) a = Z_le_SF z (Prim2SF a).
Proof.
  intros Hz. unfold float_of_Z, Z_le_SF.
  rewrite leb_spec, Prim2SF_SF2Prim by (apply binary_normalize_valid, Hz).
  unfold SFleb. rewrite SFcompare_antisym.
  rewrite SFcompare_float_of_Z by (apply Prim2SF_valid || exact Hz).
  destruct (SF_compare_Z (Prim2SF a) z) as [[]|]; reflexivity.
Qed.

End Float64.

(** The comparison computed agrees with the exact one on a float and on
    an integer that float64 holds exactly. *)
Lemma in_range_exact (min_val max_val : float) (v : cell) :
  match v with
  | VInt z => int53 z = true
  | VFloat _ => True
  | VBool _ | VStr _ => False
  end ->
  in_range min_val max_val v = exact_in_range min_val max_val v.
Proof.
  destruct v as [z|f|b|s]; simpl; try tauto.
  unfold int53, in_range. simpl. intros Hz.
  apply andb_prop in Hz. destruct Hz as [H1 H2].
  apply Z.leb_le in H1. apply Z.leb_le in H2.
  rewrite leb_float_of_Z_r, leb_float_of_Z_l by lia. reflexivity.
Qed.

Lemma exact_column_cells (c : column) (v : cell) :
  dtype_in_int_float (col_dtype c) = true ->
  exact_column c = true ->
  In v (cells c) ->
  match v with
  | VInt z => int53 z = true
  | VFloat _ => True
  | VBool _ | VStr _ => False
  end.
Proof.
  destruct c as [vs|vs|vs|vs]; simpl; try discriminate; intros _ Hc Hin.
  - apply in_map_iff in Hin. destruct Hin as (z & <- & Hz).
    rewrite forallb_forall in Hc. apply Hc, Hz.
  - apply in_map_iff in Hin. destruct Hin as (f & <- & _). exact I.
Qed.

(** ** The range filter: claims *)

(** Where the two readings of the range agree on every row. *)
Lemma filter_rows_exact (df : DataFrame) (x_axis : string) (c : column)
    (min_val max_val : float) :
  wf_frame df ->
  df_col df x_axis = Some c ->
  dtype_in_int_float (col_dtype c) = true ->
  exact_column c = true ->
  List.filter (row_in_range x_axis min_val max_val) (rows df)
  = List.filter (exact_row_in_range x_axis min_val max_val) (rows df).
Proof.
  intros Hwf Hc Hnum Hex. apply filter_ext_in. intros r Hr.
  pose proof (row_get_rows_from (nrows df) df x_axis c Hwf Hc) as Hget.
  fold (rows df) in Hget.
  apply (in_map (fun r => row_get r x_axis)) in Hr. rewrite Hget in Hr.
  apply in_map_iff in Hr. destruct Hr as (v & Hv & Hin).
  unfold row_in_range, exact_row_in_range. rewrite <- Hv.
  apply in_range_exact. apply (exact_column_cells c v Hnum Hex Hin).
Qed.

(** C3, as the claim states it, fails on an integer that float64 does
    not hold: with the range [[0, 9007199254740992]] the filter keeps
    the row whose value is 9007199254740993, one more than the upper
    bound, because the comparison sees the value rounded to float64. *)
Lemma filter_keeps_row_outside_range :
  PrimFloat.leb 0 9007199254740992 = true
  /\ (9007199254740993 <=? 9007199254740992)%Z = false
  /\ exact_in_range 0 9007199254740992 (VInt 9007199254740993) = false
  /\ slider_filter [("n", Int64 [9007199254740993]%Z)] "n"
       (0%float, 9007199254740992%float)
     = Ok [("n", Int64 [9007199254740993]%Z)]
  /\ rows [("n", Int64 [9007199254740993]%Z)]
     <> List.filter (exact_row_in_range "n" 0 9007199254740992)
          (rows [("n", Int64 [9007199254740993]%Z)]).
Proof.
  split; [vm_compute; reflexivity|]. split; [reflexivity|].
  split; [vm_compute; reflexivity|]. split; [vm_compute; reflexivity|].
  vm_compute. discriminate.
Qed.

(** C3, amended. On a numeric field, with [min_val <= max_val], the
    filter returns a table whose rows are exactly the rows of the input
    whose value in the field, as the float64 number the comparison
    sees, lies in [[min_val, max_val]] (bounds included), in the
    input's row order, and every column is kept, in the input's column
    order.  A float value is compared as it is, and a missing one lies
    in no range; an integer value is converted to float64 first.  Where
    the integers of the field are at most [2^53] in magnitude the
    conversion does not round, and the rows kept are exactly those
    whose value lies in the range. *)
Theorem slider_filter_rows_in_float_range (df : DataFrame) (x_axis : string)
    (c : column) (min_val max_val : float) :
  wf_frame df ->
  df_col df x_axis = Some c ->
  dtype_in_int_float (col_dtype c) = true ->
  PrimFloat.leb min_val max_val = true ->
  exists df',
    slider_filter df x_axis (min_val, max_val) = Ok df' /\
    rows df' = List.filter (row_in_range x_axis min_val max_val) (rows df) /\
    (exact_column c = true ->
     rows df' = List.filter (exact_row_in_range x_axis min_val max_val) (rows df)) /\
    columns df' = columns df /\
    map (fun nc => col_dtype (snd nc)) df' = map (fun nc => col_dtype (snd nc)) df /\
    wf_frame df'.
Proof.
  intros Hwf Hc Hnum _.
  set (m := map (row_in_range x_axis min_val max_val) (rows df)).
  assert (Hm : nrows df = length m).
  { unfold m. rewrite length_map, rows_length by exact Hwf. reflexivity. }
  assert (Hrows : rows (select_rows df m)
                  = List.filter (row_in_range x_axis min_val max_val) (rows df)).
  { rewrite rows_select_rows by assumption. apply take_mask_filter. }
  exists (select_rows df m). split; [|split; [|split; [|split; [|split]]]].
  - apply slider_filter_numeric with (c := c); assumption.
  - exact Hrows.
  - intros Hex. rewrite Hrows. apply filter_rows_exact with (c := c); assumption.
  - apply columns_select_rows.
  - apply dtypes_select_rows.
  - apply wf_select_rows; assumption.
Qed.

(** C8. When the selected field's column is not numeric, the filter
    step is skipped altogether: the table is handed on unchanged, no
    slider is asked for, and nothing else changes either. *)
Theorem slider_filter_not_numeric (df : DataFrame) (x_axis : string)
    (c : column) (slider : float * float) :
  df_col df x_axis = Some c ->
  dtype_in_int_float (col_dtype c) = false ->
  slider_filter df x_axis slider = Ok df /\
  (forall lib w, filter_step lib df x_axis slider w = (Ok df, w)).
Proof.
  intros Hc Hnum. split.
  - unfold slider_filter. rewrite Hc, Hnum. reflexivity.
  - intros lib w. unfold filter_step. rewrite Hc, Hnum. reflexivity.
Qed.

(** C10. Filtering the result of the filter again, on the same field
    with the same bounds, returns that result unchanged. *)
Theorem slider_filter_idempotent (df : DataFrame) (x_axis : string)
    (c : column) (min_val max_val : float) :
  wf_frame df ->
  df_col df x_axis = Some c ->
  dtype_in_int_float (col_dtype c) = true ->
  PrimFloat.leb min_val max_val = true ->
  exists df',
    slider_filter df x_axis (min_val, max_val) = Ok df' /\
    slider_filter df' x_axis (min_val, max_val) = Ok df'.
Proof.
  intros Hwf Hc Hnum _.
  set (p := row_in_range x_axis min_val max_val).
  set (m := map p (rows df)).
  assert (Hm : nrows df = length m).
  { unfold m. rewrite length_map, rows_length by exact Hwf. reflexivity. }
  pose proof (wf_select_rows df m Hwf Hm) as Hwf'.
  exists (select_rows df m). split.
  - apply slider_filter_numeric with (c := c); assumption.
  - rewrite slider_filter_numeric with (c := col_select m c).
    + f_equal. apply select_rows_all_true.
      * rewrite rows_select_rows by assumption.
        unfold m. rewrite take_mask_filter. apply map_filter_all_true.
      * rewrite length_map, rows_length by exact Hwf'.
        eapply Forall_impl; [exact Hwf'|]. intros nc Hnc. simpl in *. lia.
    + exact Hwf'.
    + rewrite df_col_select_rows, Hc. reflexivity.
    + destruct c; simpl in *; congruence.
Qed.

(** ** Statements: sequencing *)

Lemma bind_Ok {A B} (m : M A) (f : A -> M B) (w w' : World) (a : A) :
  m w = (Ok a, w') -> (m ≫= f) w = f a w'.
Proof. intros H. unfold mbind, M_bind. rewrite H. reflexivity. Qed.

Lemma bind_Raise {A B} (m : M A) (f : A -> M B) (w w' : World) (e : exn) :
  m w = (Raise e, w') -> (m ≫= f) w = (Raise e, w').
Proof. intros H. unfold mbind, M_bind. rewrite H. reflexivity. Qed.

Lemma bind_inv {A B} (m : M A) (f : A -> M B) (w w' : World) (r : outcome B) :
  (m ≫= f) w = (r, w') ->
  (exists a w1, m w = (Ok a, w1) /\ f a w1 = (r, w')) \/
  (exists e, m w = (Raise e, w') /\ r = Raise e).
Proof.
  unfold mbind, M_bind. destruct (m w) as [[a|e] w1]; intros H.
  - left. eauto.
  - right. inversion H; subst. eauto.
Qed.

(** ** Invariants kept by every statement of a block *)

Section Preserves.
Variable P : World -> World -> Prop.
Hypothesis P_refl : forall w, P w w.
Hypothesis P_trans : forall w1 w2 w3, P w1 w2 -> P w2 w3 -> P w1 w3.

Lemma preserves_ret {A} (a : A) : preserves P (mret a).
Proof. intros w r w' [= <- <-]. apply P_refl. Qed.

Lemma preserves_throw {A} (e : exn) : preserves P (@throw A e).
Proof. intros w r w' [= <- <-]. apply P_refl. Qed.

Lemma preserves_lift_outcome {A} (o : outcome A) : preserves P (lift_outcome o).
Proof. intros w r w' [= <- <-]. apply P_refl. Qed.

Lemma preserves_bind {A B} (m : M A) (f : A -> M B) :
  preserves P m -> (forall a, preserves P (f a)) -> preserves P (m ≫= f).
Proof.
  intros Hm Hf w r w' H. apply bind_inv in H.
  destruct H as [(a & w1 & H1 & H2)|(e & H1 & _)].
  - eapply P_trans; [eapply Hm, H1|eapply Hf, H2].
  - eapply Hm, H1.
Qed.

Lemma preserves_try_except {A} (m : M A) (h : exn -> M A) :
  preserves P m -> (forall e, preserves P (h e)) -> preserves P (try_except m h).
Proof.
  intros Hm Hh w r w' H. unfold try_except in H.
  destruct (m w) as [[a|e] w1] eqn:E.
  - inversion H; subst. eapply Hm, E.
  - eapply P_trans; [eapply Hm, E|eapply Hh, H].
Qed.

Lemma preserves_modify (f : World -> World) :
  (forall w, P w (f w)) -> preserves P (modify f).
Proof. intros Hf w r w' [= <- <-]. apply Hf. Qed.

Lemma preserves_call (lib : Libs) (c : libcall) : preserves P (call lib c).
Proof.
  intros w r w' H. unfold call in H.
  destruct (raises lib c); inversion H; subst; apply P_refl.
Qed.

Lemma preserves_add_picture (name : string) (l t wd h : Z) :
  preserves P (add_picture name l t wd h).
Proof.
  intros w r w' H. unfold add_picture in H.
  destruct (files w !! name) as [[]|]; inversion H; subst; apply P_refl.
Qed.

Lemma preserves_open_rb (name : string) : preserves P (open_rb name).
Proof.
  intros w r w' H. unfold open_rb in H.
  destruct (files w !! name); inversion H; subst; apply P_refl.
Qed.

Lemma preserves_get_charts : preserves P get_charts.
Proof.
  intros w r w' H. unfold get_charts in H.
  destruct (session_charts w); inversion H; subst; apply P_refl.
Qed.

End Preserves.

(** ** Frames: what a statement leaves alone

    A view of the world that the figures and the files do not enter,
    and that showing an event of the kind [shown] does not change, is
    left as it was by every library call and by the statements built
    from them. *)

Section Frame.
Context {X : Type}.
Variable view : World -> X.
Variable shown : ui_event -> bool.
Hypothesis view_figs : forall f w, view (set_figs f w) = view w.
Hypothesis view_files : forall f w, view (set_files f w) = view w.
Hypothesis view_ui :
  forall e w, shown e = true -> view (set_ui (ui w ++ [e]) w) = view w.
Hypothesis shown_other : forall e, is_csv_button e = false -> shown e = true.
Variable lib : Libs.

Lemma unchanged_refl (w : World) : unchanged view w w.
Proof. reflexivity. Qed.

Lemma unchanged_trans (w1 w2 w3 : World) :
  unchanged view w1 w2 -> unchanged view w2 w3 -> unchanged view w1 w3.
Proof. unfold unchanged. congruence. Qed.

Lemma frame_st (e : ui_event) : shown e = true -> preserves (unchanged view) (st e).
Proof. intros He. apply preserves_modify. intros w. apply view_ui, He. Qed.

Lemma frame_plt_subplots : preserves (unchanged view) plt_subplots.
Proof. intros w r w' [= <- <-]. apply view_figs. Qed.

Ltac frame_step :=
  first
    [ apply (preserves_ret _ unchanged_refl)
    | apply (preserves_throw _ unchanged_refl)
    | apply (preserves_lift_outcome _ unchanged_refl)
    | apply (preserves_call _ unchanged_refl)
    | apply (preserves_add_picture _ unchanged_refl)
    | apply (preserves_open_rb _ unchanged_refl)
    | apply (preserves_get_charts _ unchanged_refl)
    | apply frame_plt_subplots
    | apply frame_st; apply shown_other; reflexivity
    | apply (preserves_modify (unchanged view)); intros ?;
      first [apply view_figs | apply view_files]
    | assumption
    | apply (preserves_bind _ unchanged_trans); [|intros ?]
    | apply (preserves_try_except _ unchanged_trans); [|intros ?]
    | match goal with
      | |- preserves _ (if ?b then _ else _) => destruct b
      | |- preserves _ (match ?x with _ => _ end) => destruct x
      end ].

Ltac frame := repeat frame_step.

Lemma frame_plt_close (fig : nat) : preserves (unchanged view) (plt_close fig).
Proof. unfold plt_close. frame. Qed.

Lemma frame_write_file (name : string) (f : file) :
  preserves (unchanged view) (write_file name f).
Proof. unfold write_file. frame. Qed.

Lemma frame_draw_on (fig : nat) (p : plot) :
  preserves (unchanged view) (draw_on lib fig p).
Proof. unfold draw_on. frame. Qed.

Lemma frame_px (p : plot) : preserves (unchanged view) (px lib p).
Proof. unfold px. frame. Qed.

Lemma frame_fig_add_scatter (fig : list plot) (df : DataFrame)
    (x_axis y_axis color : string) :
  preserves (unchanged view) (fig_add_scatter lib fig df x_axis y_axis color).
Proof. unfold fig_add_scatter. frame. Qed.

Lemma frame_show_plotly (fig : list plot) :
  preserves (unchanged view) (show_plotly lib fig).
Proof. unfold show_plotly. frame. Qed.

Lemma frame_show_pyplot (fig : nat) : preserves (unchanged view) (show_pyplot lib fig).
Proof.
  intros w r w' H. unfold show_pyplot in H. revert H.
  generalize (fig_content fig (figs w)). intros content.
  assert (Hp : preserves (unchanged view)
                 (call lib (Display content);; st (st_pyplot content))) by frame.
  apply Hp.
Qed.

Lemma frame_plt_savefig (name : string) :
  preserves (unchanged view) (plt_savefig lib name).
Proof.
  intros w r w' H. unfold plt_savefig in H.
  destruct (figs w) as [|[n content] fs]; revert H.
  - assert (Hp : preserves (unchanged view)
                   (_ ← plt_subplots; call lib (WriteImage name []);;
                    write_file name (Png []))).
    { frame. }
    apply Hp.
  - assert (Hp : preserves (unchanged view)
                   (call lib (WriteImage name content);;
                    write_file name (Png content))).
    { frame. }
    apply Hp.
Qed.

Lemma frame_pio_write_image (fig : list plot) (name : string) :
  preserves (unchanged view) (pio_write_image lib fig name).
Proof. unfold pio_write_image. frame. Qed.

Lemma frame_plt_close_foreign (fig : list plot) :
  preserves (unchanged view) (plt_close_foreign fig).
Proof. unfold plt_close_foreign. frame. Qed.

Lemma frame_prs_save (name : string) (prs : list slide) :
  preserves (unchanged view) (prs_save lib name prs).
Proof. unfold prs_save. frame. Qed.

Lemma frame_filter_step (df : DataFrame) (x_axis : string) (slider : float * float) :
  preserves (unchanged view) (filter_step lib df x_axis slider).
Proof. unfold filter_step. frame. Qed.

Lemma frame_render_chart (df : DataFrame) (chart_type x_axis y_axis color : string)
    (show : bool) :
  preserves (unchanged view) (render_chart lib df chart_type x_axis y_axis color show).
Proof.
  pose proof frame_draw_on as H1. pose proof frame_px as H2.
  pose proof frame_show_pyplot as H3. pose proof frame_show_plotly as H4.
  pose proof frame_fig_add_scatter as H5.
  unfold render_chart.
  repeat first [apply H1 | apply H2 | apply H3 | apply H4 | apply H5 | frame_step].
Qed.

Lemma frame_save_and_place (fig idx : nat) (title : string) :
  preserves (unchanged view) (save_and_place lib fig idx title).
Proof.
  unfold save_and_place.
  repeat first [apply frame_plt_savefig | apply frame_plt_close | frame_step].
Qed.

Lemma frame_export_slide (df : DataFrame) (idx : nat) (c : chart) :
  preserves (unchanged view) (export_slide lib df idx c).
Proof.
  destruct c as [[[chart_type x_axis] y_axis] color].
  unfold export_slide.
  repeat first [apply frame_draw_on | apply frame_save_and_place
               | apply frame_px | apply frame_pio_write_image
               | apply frame_plt_close_foreign | frame_step].
Qed.

Lemma frame_export_loop (df : DataFrame) (l : list chart) (idx : nat) :
  preserves (unchanged view) (export_loop lib df idx l).
Proof.
  revert idx; induction l as [|c l IH]; intros idx; simpl.
  - frame.
  - apply (preserves_bind _ unchanged_trans); [apply frame_export_slide|].
    intros s. apply (preserves_bind _ unchanged_trans); [apply IH|].
    intros prs. frame.
Qed.

Lemma frame_download_ppt (df : DataFrame) :
  preserves (unchanged view) (download_ppt lib df).
Proof.
  unfold download_ppt.
  repeat first [apply frame_export_loop | apply frame_prs_save | frame_step].
Qed.

Lemma frame_write_all (lines : list string) : preserves (unchanged view) (write_all lines).
Proof. induction lines as [|s lines IH]; simpl; frame. Qed.

Lemma frame_display_charts : preserves (unchanged view) display_charts.
Proof. unfold display_charts. repeat first [apply frame_write_all | frame_step]. Qed.

End Frame.

(** ** The ledger is touched by [charts_append] and [session_init] only *)

Lemma same_charts_refl (w : World) : same_charts w w.
Proof. reflexivity. Qed.

Lemma same_charts_trans (w1 w2 w3 : World) :
  same_charts w1 w2 -> same_charts w2 w3 -> same_charts w1 w3.
Proof. apply unchanged_trans. Qed.

Section Keeps.
Variable lib : Libs.

Let all_shown : ui_event -> bool := fun _ => true.

Lemma keeps_st (e : ui_event) : preserves same_charts (st e).
Proof. apply (frame_st session_charts all_shown); reflexivity. Qed.

Lemma keeps_filter_step (df : DataFrame) (x_axis : string) (slider : float * float) :
  preserves same_charts (filter_step lib df x_axis slider).
Proof. apply (frame_filter_step session_charts). Qed.

Lemma keeps_render_chart (df : DataFrame) (chart_type x_axis y_axis color : string)
    (show : bool) :
  preserves same_charts (render_chart lib df chart_type x_axis y_axis color show).
Proof. apply (frame_render_chart session_charts all_shown); reflexivity. Qed.

Lemma keeps_download_ppt (df : DataFrame) :
  preserves same_charts (download_ppt lib df).
Proof. apply (frame_download_ppt session_charts all_shown); reflexivity. Qed.

Lemma keeps_display_charts : preserves same_charts display_charts.
Proof. apply (frame_display_charts session_charts all_shown); reflexivity. Qed.

Lemma keeps_download_csv (df : DataFrame) :
  preserves same_charts (download_csv lib df).
Proof.
  unfold download_csv.
  apply (preserves_bind _ same_charts_trans); [apply keeps_st|].
  intros _. apply keeps_st.
Qed.

End Keeps.

(** ** Generate Chart: what one click does *)

Section Generate.
Variable lib : Libs.
Variables (df : DataFrame) (chart_type x_axis y_axis color : string).
Variable show : bool.

Let spec : chart := (chart_type, x_axis, y_axis, color).
Let started (w : World) : World :=
  set_ui (ui w ++ [st_subheader (chart_type +:+ " Visualization")]) w.
Let render : M unit := render_chart lib df chart_type x_axis y_axis color show.
Let failure (e : exn) : ui_event :=
  st_error ("Error generating visualization: " +:+ exn_str e).

(** The renderer raised: the handler reports it and records nothing. *)
Lemma generate_chart_render_raises (w w1 : World) (e : exn) :
  render (started w) = (Raise e, w1) ->
  generate_chart lib df chart_type x_axis y_axis color show w
  = (Ok tt, set_ui (ui w1 ++ [failure e]) w1)
  /\ session_charts w1 = session_charts w.
Proof.
  intros Hr. split.
  - unfold generate_chart, generate_body.
    rewrite (bind_Ok _ _ w (started w) tt) by reflexivity.
    unfold try_except. fold render.
    rewrite (bind_Raise _ _ _ _ _ Hr). reflexivity.
  - apply (keeps_render_chart lib df chart_type x_axis y_axis color show) in Hr.
    exact Hr.
Qed.

(** The renderer returned: the entry goes to the end of the ledger. *)
Lemma generate_chart_render_returns (w w1 : World) (l : list chart) :
  render (started w) = (Ok tt, w1) ->
  session_charts w = Some l ->
  generate_chart lib df chart_type x_axis y_axis color show w
  = (Ok tt,
     set_ui (ui w1 ++ [st_success (chart_type +:+ " added to the dashboard!")])
       (set_charts (Some (l ++ [spec])) w1)).
Proof.
  intros Hr Hl.
  assert (Hl1 : session_charts w1 = Some l).
  { apply (keeps_render_chart lib df chart_type x_axis y_axis color show) in Hr.
    unfold same_charts, unchanged in Hr. simpl in Hr. congruence. }
  unfold generate_chart, generate_body.
  rewrite (bind_Ok _ _ w (started w) tt) by reflexivity.
  unfold try_except. fold render.
  rewrite (bind_Ok _ _ _ _ _ Hr).
  unfold charts_append.
  rewrite (bind_Ok _ _ w1 (set_charts (Some (l ++ [spec])) w1) tt).
  - reflexivity.
  - rewrite (bind_Ok _ _ w1 w1 l); [reflexivity|].
    unfold get_charts. rewrite Hl1. reflexivity.
Qed.

(** With no ledger in the session the append itself raises, and that too
    is reported. *)
Lemma generate_chart_no_ledger (w w1 : World) :
  render (started w) = (Ok tt, w1) ->
  session_charts w = None ->
  generate_chart lib df chart_type x_axis y_axis color show w
  = (Ok tt, set_ui (ui w1 ++ [failure (AttributeError no_charts)]) w1)
  /\ session_charts w1 = None.
Proof.
  intros Hr Hl.
  assert (Hl1 : session_charts w1 = None).
  { apply (keeps_render_chart lib df chart_type x_axis y_axis color show) in Hr.
    unfold same_charts, unchanged in Hr. simpl in Hr. congruence. }
  split; [|exact Hl1].
  unfold generate_chart, generate_body.
  rewrite (bind_Ok _ _ w (started w) tt) by reflexivity.
  unfold try_except. fold render.
  rewrite (bind_Ok _ _ _ _ _ Hr).
  unfold charts_append.
  rewrite (bind_Raise _ _ w1 w1 (AttributeError no_charts)); [reflexivity|].
  apply bind_Raise. unfold get_charts. rewrite Hl1. reflexivity.
Qed.

(** Whatever happens inside, the handler returns, and the ledger is
    either as before or longer by this one entry. *)
Lemma generate_chart_cases (w : World) :
  exists w',
    generate_chart lib df chart_type x_axis y_axis color show w = (Ok tt, w') /\
    ((exists l, session_charts w = Some l /\
                session_charts w' = Some (l ++ [spec]) /\
                last (ui w') = Some (st_success (chart_type +:+ " added to the dashboard!")))
     \/ (session_charts w' = session_charts w /\
         exists e, last (ui w') = Some (failure e))).
Proof.
  destruct (render (started w)) as [[[]|e] w1] eqn:Hr.
  - destruct (session_charts w) as [l|] eqn:Hl.
    + eexists. split; [apply (generate_chart_render_returns w w1 l Hr Hl)|].
      left. exists l. simpl. rewrite last_snoc. auto.
    + destruct (generate_chart_no_ledger w w1 Hr Hl) as [Hg Hn].
      eexists. split; [exact Hg|]. right. simpl. rewrite last_snoc. split; eauto.
  - destruct (generate_chart_render_raises w w1 e Hr) as [Hg Hn].
    eexists. split; [exact Hg|]. right. simpl. rewrite last_snoc. split; eauto.
Qed.

End Generate.

(** ** Errors at generation time *)

(** C5, as the claim states it, fails where the renderer raises: the
    handler reports the error, but the entry is not in the ledger
    afterwards. *)
Lemma generate_failure_not_recorded :
  fst (render_chart no_plots sales_table "Bar Chart" "sales" "date" "#1f77b4" false
         (set_ui [st_subheader "Bar Chart Visualization"] (session_with [])))
  = Raise (LibError "Could not interpret value")
  /\ fst (generate_chart no_plots sales_table "Bar Chart" "sales" "date" "#1f77b4"
            false (session_with []))
     = Ok tt
  /\ last (ui (snd (generate_chart no_plots sales_table "Bar Chart" "sales" "date"
                      "#1f77b4" false (session_with []))))
     = Some (st_error "Error generating visualization: Could not interpret value")
  /\ ~ In bar_sales
         (ledger (snd (generate_chart no_plots sales_table "Bar Chart" "sales"
                         "date" "#1f77b4" false (session_with [])))).
Proof.
  repeat split; try (vm_compute; reflexivity).
  vm_compute. intros [].
Qed.

(** C5, amended. When the renderer raises at generation time, the
    handler itself returns, the page ends with the message
    "Error generating visualization: ..." carrying the error's text, and
    the ledger is exactly what it was: the failed entry is not
    recorded. *)
Theorem generate_failure_leaves_ledger (lib : Libs) (df : DataFrame)
    (chart_type x_axis y_axis color : string) (show : bool)
    (w w1 : World) (e : exn) :
  render_chart lib df chart_type x_axis y_axis color show
    (set_ui (ui w ++ [st_subheader (chart_type +:+ " Visualization")]) w)
  = (Raise e, w1) ->
  exists w',
    generate_chart lib df chart_type x_axis y_axis color show w = (Ok tt, w') /\
    last (ui w') = Some (st_error ("Error generating visualization: " +:+ exn_str e)) /\
    session_charts w' = session_charts w.
Proof.
  intros Hr.
  destruct (generate_chart_render_raises lib df chart_type x_axis y_axis color
              show w w1 e Hr) as [Hg Hc].
  eexists. split; [exact Hg|]. simpl. rewrite last_snoc. auto.
Qed.

Lemma generate_failure_leaves_ledger_witness :
  exists w',
    generate_chart no_plots sales_table "Bar Chart" "sales" "date" "#1f77b4" false
      (session_with [pie_sales]) = (Ok tt, w') /\
    last (ui w')
    = Some (st_error ("Error generating visualization: "
                      +:+ exn_str (LibError "Could not interpret value"))) /\
    session_charts w' = session_charts (session_with [pie_sales]).
Proof.
  eapply (generate_failure_leaves_ledger no_plots sales_table "Bar Chart" "sales"
            "date" "#1f77b4" false (session_with [pie_sales])).
  vm_compute. reflexivity.
Defined.

(** ** Errors in the filter and in the export *)

Lemma filter_step_world (lib : Libs) (df : DataFrame) (x_axis : string)
    (slider : float * float) (w w' : World) (r : outcome DataFrame) :
  filter_step lib df x_axis slider w = (r, w') -> w' = w.
Proof.
  unfold filter_step.
  destruct (df_col df x_axis) as [c|]; [|intros [= _ <-]; reflexivity].
  destruct (dtype_in_int_float (col_dtype c)); [|intros [= _ <-]; reflexivity].
  intros H. apply bind_inv in H.
  destruct H as [(a & w1 & H1 & H2)|(e & H1 & _)].
  - unfold call in H1. destruct (raises lib _); inversion H1; subst.
    inversion H2; subst. reflexivity.
  - unfold call in H1. destruct (raises lib _); inversion H1; subst.
    reflexivity.
Qed.

Lemma download_ppt_loop_raises (lib : Libs) (df : DataFrame) (l : list chart)
    (w w1 : World) (e : exn) :
  session_charts w = Some l ->
  export_loop lib df 0 l w = (Raise e, w1) ->
  download_ppt lib df w = (Raise e, w1) /\ ui w1 = ui w.
Proof.
  intros Hl Hloop. split.
  - unfold download_ppt.
    rewrite (bind_Ok _ _ w w l).
    + apply bind_Raise, Hloop.
    + unfold get_charts. rewrite Hl. reflexivity.
  - apply (frame_export_loop ui) in Hloop; [exact Hloop| |]; reflexivity.
Qed.

(** ** The export, when no library call raises *)

Section Quiet.
Variable lib : Libs.
Hypothesis Hq : forall c, raises lib c = None.

Lemma call_quiet (c : libcall) (w : World) : call lib c w = (Ok tt, w).
Proof. unfold call. rewrite Hq. reflexivity. Qed.

Lemma draw_on_quiet (fig : nat) (p : plot) (w : World) :
  draw_on lib fig p w = (Ok tt, set_figs (fig_draw fig p (figs w)) w).
Proof.
  unfold draw_on. rewrite (bind_Ok _ _ w w tt) by apply call_quiet.
  reflexivity.
Qed.

Lemma plt_savefig_quiet (name : string) (w : World) (n : nat)
    (content : list plot) (fs : list (nat * list plot)) :
  figs w = (n, content) :: fs ->
  plt_savefig lib name w
  = (Ok tt, set_files (<[name := Png content]> (files w)) w).
Proof.
  intros Hf. unfold plt_savefig. rewrite Hf.
  rewrite (bind_Ok _ _ w w tt) by apply call_quiet. reflexivity.
Qed.

Lemma add_picture_png (name : string) (l t wd h : Z) (w : World)
    (content : list plot) :
  files w !! name = Some (Png content) ->
  add_picture name l t wd h w
  = (Ok {| image_file := name; image := content; pic_left := l; pic_top := t;
           pic_width := wd; pic_height := h |}, w).
Proof. intros Hf. unfold add_picture. rewrite Hf. reflexivity. Qed.

(** Save the figure just drawn, close it, place its image. *)
Lemma save_and_place_quiet (fig idx : nat) (title : string) (w : World)
    (content : list plot) (fs : list (nat * list plot)) :
  figs w = (fig, content) :: fs ->
  exists w',
    save_and_place lib fig idx title w
    = (Ok {| title_text := title; pictures := [placed idx content] |}, w') /\
    session_charts w' = session_charts w /\ ui w' = ui w /\
    files w' = <[chart_png idx := Png content]> (files w).
Proof.
  intros Hf. unfold save_and_place.
  rewrite (bind_Ok _ _ _ _ _ (plt_savefig_quiet (chart_png idx) w fig content fs Hf)).
  set (w1 := set_files (<[chart_png idx := Png content]> (files w)) w).
  rewrite (bind_Ok _ _ w1 _ tt) by reflexivity.
  match goal with
  | |- context [ (add_picture _ _ _ _ _ ≫= _) ?w2 ] => set (w3 := w2)
  end.
  assert (Hpic : files w3 !! chart_png idx = Some (Png content)).
  { unfold w3, w1. simpl. apply lookup_insert_eq. }
  rewrite (bind_Ok _ _ _ _ _ (add_picture_png _ _ _ _ _ w3 content Hpic)).
  exists w3. repeat split.
Qed.

(** A seaborn entry: new figure, one drawing, saved and placed. *)
Lemma draw_save_place_quiet (p : plot) (idx : nat) (title : string) (w : World) :
  exists w',
    (fig ← plt_subplots;
     draw_on lib fig p;; save_and_place lib fig idx title) w
    = (Ok {| title_text := title; pictures := [placed idx [p]] |}, w') /\
    session_charts w' = session_charts w /\ ui w' = ui w /\
    files w' = <[chart_png idx := Png [p]]> (files w).
Proof.
  set (n := new_fig_num (figs w)).
  rewrite (bind_Ok _ _ w (set_figs ((n, []) :: figs w) w) n) by reflexivity.
  rewrite (bind_Ok _ _ _ _ _ (draw_on_quiet n p _)).
  match goal with
  | |- context [ save_and_place _ _ _ _ ?w2 ] => set (w3 := w2)
  end.
  destruct (save_and_place_quiet n idx title w3 [p]
              (fig_draw n p (figs w))) as (w' & Hs & Hc & Hu & Hfiles).
  { unfold w3. simpl. rewrite Nat.eqb_refl. reflexivity. }
  exists w'. split; [exact Hs|]. repeat split; assumption.
Qed.

(** An entry of no known kind: the blank figure is saved and placed. *)
Lemma blank_save_place_quiet (idx : nat) (title : string) (w : World) :
  exists w',
    (fig ← plt_subplots; save_and_place lib fig idx title) w
    = (Ok {| title_text := title; pictures := [placed idx []] |}, w') /\
    session_charts w' = session_charts w /\ ui w' = ui w /\
    files w' = <[chart_png idx := Png []]> (files w).
Proof.
  set (n := new_fig_num (figs w)).
  rewrite (bind_Ok _ _ w (set_figs ((n, []) :: figs w) w) n) by reflexivity.
  destruct (save_and_place_quiet n idx title (set_figs ((n, []) :: figs w) w) []
              (figs w)) as (w' & Hs & Hc & Hu & Hfiles); [reflexivity|].
  exists w'. split; [exact Hs|]. repeat split; assumption.
Qed.

(** Every entry but a Pie Chart one gets its slide. *)
Lemma export_slide_quiet (df : DataFrame) (idx : nat) (c : chart) (w : World) :
  is_pie c = false ->
  exists w',
    export_slide lib df idx c w = (Ok (slide_for df idx c), w') /\
    session_charts w' = session_charts w /\ ui w' = ui w /\
    files w' = <[chart_png idx := Png (export_plot df c)]> (files w).
Proof.
  destruct c as [[[chart_type x_axis] y_axis] color].
  unfold export_slide, slide_for, export_plot, is_pie. intros E6. rewrite E6.
  destruct (String.eqb chart_type "Bar Chart") eqn:E1.
  { apply String.eqb_eq in E1. subst chart_type. apply draw_save_place_quiet. }
  destruct (String.eqb chart_type "Line Chart") eqn:E2.
  { apply String.eqb_eq in E2. subst chart_type. apply draw_save_place_quiet. }
  destruct (String.eqb chart_type "Scatter Plot") eqn:E3.
  { apply String.eqb_eq in E3. subst chart_type. apply draw_save_place_quiet. }
  destruct (String.eqb chart_type "Histogram") eqn:E4.
  { apply String.eqb_eq in E4. subst chart_type. apply draw_save_place_quiet. }
  destruct (String.eqb chart_type "Box Plot") eqn:E5.
  { apply String.eqb_eq in E5. subst chart_type. apply draw_save_place_quiet. }
  apply blank_save_place_quiet.
Qed.

Lemma export_loop_quiet (df : DataFrame) (l : list chart) (idx : nat) (w : World) :
  Forall (fun c => is_pie c = false) l ->
  exists w',
    export_loop lib df idx l w = (Ok (slides_from df idx l), w') /\
    session_charts w' = session_charts w /\ ui w' = ui w /\
    files w' = files_after df idx l (files w).
Proof.
  intros Hl. revert idx w; induction Hl as [|c l Hc _ IH]; intros idx w; simpl.
  - exists w. repeat split.
  - destruct (export_slide_quiet df idx c w Hc) as (w1 & Hs & Hc1 & Hu1 & Hf1).
    destruct (IH (S idx) w1) as (w2 & Hl & Hc2 & Hu2 & Hf2).
    exists w2. split.
    + rewrite (bind_Ok _ _ _ _ _ Hs), (bind_Ok _ _ _ _ _ Hl). reflexivity.
    + repeat split; congruence.
Qed.

Lemma prs_save_quiet (name : string) (prs : list slide) (w : World) :
  prs_save lib name prs w
  = (Ok tt, set_files (<[name := Pptx prs]> (files w)) w).
Proof.
  unfold prs_save.
  rewrite (bind_Ok _ _ _ _ _ (call_quiet _ w)).
  rewrite (bind_Ok _ _ w (set_files (<[name := Truncated]> (files w)) w) tt)
    by reflexivity.
  rewrite (bind_Ok _ _ _ _ _ (call_quiet _ _)).
  unfold write_file, modify, set_files. simpl. rewrite insert_insert_eq.
  reflexivity.
Qed.

Lemma download_ppt_quiet (df : DataFrame) (l : list chart) (w : World) :
  session_charts w = Some l ->
  Forall (fun c => is_pie c = false) l ->
  exists w',
    download_ppt lib df w = (Ok tt, w') /\
    session_charts w' = Some l /\
    ui w' = ui w ++ [st_download_button "Download PPT"
                       (Pptx (slides_from df 0 l)) ppt_filename ppt_mime] /\
    files w' = <[ppt_filename := Pptx (slides_from df 0 l)]>
                 (files_after df 0 l (files w)).
Proof.
  intros Hl Hnp. unfold download_ppt.
  rewrite (bind_Ok _ _ w w l) by (unfold get_charts; rewrite Hl; reflexivity).
  destruct (export_loop_quiet df l 0 w Hnp) as (w1 & Hloop & Hc1 & Hu1 & Hf1).
  rewrite (bind_Ok _ _ _ _ _ Hloop).
  rewrite (bind_Ok _ _ _ _ _ (prs_save_quiet _ _ _)).
  rewrite (bind_Ok _ _ _
             (set_files (<[ppt_filename := Pptx (slides_from df 0 l)]> (files w1)) w1)
             (Pptx (slides_from df 0 l))).
  2:{ unfold open_rb. simpl. rewrite lookup_insert_eq. reflexivity. }
  eexists. split; [reflexivity|]. simpl. repeat split; congruence.
Qed.

End Quiet.

(** ** Image file names *)

Lemma string_app_length (s t : string) :
  String.length (s +:+ t) = String.length s + String.length t.
Proof. induction s as [|a s IH]; simpl; [reflexivity|]. rewrite IH. reflexivity. Qed.

Lemma string_app_inj_r (s1 s2 t : string) : s1 +:+ t = s2 +:+ t -> s1 = s2.
Proof.
  revert s2; induction s1 as [|a s1 IH]; intros [|b s2] H; simpl in H.
  - reflexivity.
  - apply (f_equal String.length) in H.
    rewrite !string_app_length in H. simpl in H. lia.
  - apply (f_equal String.length) in H.
    rewrite !string_app_length in H. simpl in H. lia.
  - injection H as -> H. f_equal. apply IH, H.
Qed.

Lemma chart_png_inj (i j : nat) : chart_png i = chart_png j -> i = j.
Proof.
  unfold chart_png. intros H.
  apply (inj (String.app "chart_")) in H.
  apply string_app_inj_r in H.
  apply (inj pretty) in H. exact H.
Qed.

Lemma chart_png_not_ppt (i : nat) : chart_png i <> ppt_filename.
Proof. unfold chart_png, ppt_filename. simpl. discriminate. Qed.

Lemma files_after_other (df : DataFrame) (l : list chart) (idx : nat)
    (fs : gmap string file) (name : string) :
  (forall k, idx <= k -> name <> chart_png k) ->
  files_after df idx l fs !! name = fs !! name.
Proof.
  revert idx fs; induction l as [|c l IH]; intros idx fs Hn; simpl.
  - reflexivity.
  - rewrite IH by (intros k Hk; apply Hn; lia).
    apply lookup_insert_ne. intros Heq. apply (Hn idx); [lia|]. symmetry. exact Heq.
Qed.

Lemma files_after_lookup (df : DataFrame) (l : list chart) (idx k : nat)
    (c : chart) (fs : gmap string file) :
  l !! k = Some c ->
  files_after df idx l fs !! chart_png (idx + k) = Some (Png (export_plot df c)).
Proof.
  revert idx k fs; induction l as [|c0 l IH]; intros idx k fs Hk; [discriminate|].
  destruct k as [|k]; simpl in *.
  - injection Hk as ->. rewrite Nat.add_0_r.
    rewrite files_after_other.
    + apply lookup_insert_eq.
    + intros j Hj Heq. apply chart_png_inj in Heq. lia.
  - replace (idx + S k) with (S idx + k) by lia. apply IH, Hk.
Qed.

(** ** What the export draws *)

Lemma export_plot_data (df : DataFrame) (c : chart) :
  Forall (fun p => plot_data p = Some df) (export_plot df c).
Proof.
  destruct c as [[[chart_type x_axis] y_axis] color]. unfold export_plot.
  repeat match goal with
         | |- context [if ?b then _ else _] => destruct b
         end; repeat constructor.
Qed.

Lemma export_plot_known_kind (df : DataFrame) (c : chart) :
  In (fst (fst (fst c))) chart_kinds -> export_plot df c <> [].
Proof.
  destruct c as [[[chart_type x_axis] y_axis] color]. simpl.
  intros Hk. unfold chart_kinds in Hk. simpl in Hk.
  destruct Hk as [<-|[<-|[<-|[<-|[<-|[<-|[]]]]]]]; vm_compute; discriminate.
Qed.

Lemma slides_from_pictures (df : DataFrame) (l : list chart) (idx : nat)
    (s : slide) (pic : picture) :
  In s (slides_from df idx l) -> In pic (pictures s) ->
  exists k c, l !! k = Some c /\ pic = placed (idx + k) (export_plot df c).
Proof.
  revert idx; induction l as [|c l IH]; intros idx; simpl; [intros []|].
  intros [<-|Hs] Hpic.
  - simpl in Hpic. destruct Hpic as [<-|[]]. exists 0, c.
    rewrite Nat.add_0_r. auto.
  - destruct (IH (S idx) Hs Hpic) as (k & c' & Hk & ->).
    exists (S k), c'. replace (idx + S k) with (S idx + k) by lia. auto.
Qed.

(** ** Statements that return *)

Lemma returns_ret {A} (a : A) : returns (mret a).
Proof. intros w. exists a, w. reflexivity. Qed.

Lemma returns_bind {A B} (m : M A) (f : A -> M B) :
  returns m -> (forall a, returns (f a)) -> returns (m ≫= f).
Proof.
  intros Hm Hf w. destruct (Hm w) as (a & w1 & H1).
  destruct (Hf a w1) as (b & w2 & H2).
  exists b, w2. rewrite (bind_Ok _ _ _ _ _ H1). exact H2.
Qed.

Lemma returns_modify (f : World -> World) : returns (modify f).
Proof. intros w. exists tt, (f w). reflexivity. Qed.

Lemma returns_st (e : ui_event) : returns (st e).
Proof. apply returns_modify. Qed.

Lemma returns_plt_subplots : returns plt_subplots.
Proof. intros w. eexists _, _. reflexivity. Qed.

Section QuietReturns.
Variable lib : Libs.
Hypothesis Hq : forall c, raises lib c = None.

Lemma returns_call (c : libcall) : returns (call lib c).
Proof. intros w. exists tt, w. apply call_quiet, Hq. Qed.

Lemma returns_draw_on (fig : nat) (p : plot) : returns (draw_on lib fig p).
Proof.
  unfold draw_on. apply returns_bind; [apply returns_call|].
  intros _. apply returns_modify.
Qed.

Lemma returns_px (p : plot) : returns (px lib p).
Proof.
  unfold px. apply returns_bind; [apply returns_call|].
  intros _. apply returns_ret.
Qed.

Lemma returns_show_plotly (fig : list plot) : returns (show_plotly lib fig).
Proof.
  unfold show_plotly. apply returns_bind; [apply returns_call|].
  intros _. apply returns_st.
Qed.

Lemma returns_show_pyplot (fig : nat) : returns (show_pyplot lib fig).
Proof.
  intros w. unfold show_pyplot.
  apply (returns_bind (call lib _) (fun _ => st _)); [apply returns_call|].
  intros _. apply returns_st.
Qed.

Lemma returns_fig_add_scatter (fig : list plot) (df : DataFrame)
    (x_axis y_axis color : string) :
  is_Some (df_col df x_axis) -> is_Some (df_col df y_axis) ->
  returns (fig_add_scatter lib fig df x_axis y_axis color).
Proof.
  intros [cx Hx] [cy Hy]. unfold fig_add_scatter. rewrite Hx, Hy.
  apply returns_bind; [apply returns_call|]. intros _. apply returns_ret.
Qed.

Lemma returns_render_chart (df : DataFrame) (chart_type x_axis y_axis color : string)
    (show : bool) :
  is_Some (df_col df x_axis) -> is_Some (df_col df y_axis) ->
  returns (render_chart lib df chart_type x_axis y_axis color show).
Proof.
  intros Hx Hy. unfold render_chart.
  repeat match goal with
         | |- returns (if ?b then _ else _) => destruct b
         | |- returns (_ ≫= _) => apply returns_bind; [|intros ?]
         | |- _ =>
             first [ apply returns_ret | apply returns_plt_subplots
                   | apply returns_draw_on | apply returns_px
                   | apply returns_show_plotly | apply returns_show_pyplot
                   | apply returns_fig_add_scatter; assumption ]
         end.
Qed.

Lemma filter_step_quiet (df : DataFrame) (x_axis : string)
    (slider : float * float) (w : World) :
  is_Some (df_col df x_axis) ->
  exists df', filter_step lib df x_axis slider w = (Ok df', w) /\
              slider_filter df x_axis slider = Ok df'.
Proof.
  intros [c Hc]. unfold filter_step, slider_filter. rewrite Hc.
  destruct (dtype_in_int_float (col_dtype c)) eqn:Hnum.
  - destruct slider as [min_val max_val].
    destruct (numeric_to_float64 c Hnum) as [vs Hvs]. rewrite Hvs.
    eexists. split; [|reflexivity].
    rewrite (bind_Ok _ _ _ _ _ (call_quiet lib Hq _ w)). reflexivity.
  - exists df. split; reflexivity.
Qed.

End QuietReturns.

Lemma df_col_slider_filter (df df' : DataFrame) (x_axis y : string)
    (slider : float * float) :
  slider_filter df x_axis slider = Ok df' ->
  is_Some (df_col df y) -> is_Some (df_col df' y).
Proof.
  unfold slider_filter. destruct (df_col df x_axis) as [c|]; [|discriminate].
  destruct (dtype_in_int_float (col_dtype c)); [|intros [= <-]; auto].
  destruct slider as [min_val max_val].
  destruct (to_float64 c) as [vs|]; [|discriminate].
  intros [= <-] [cy Hy]. rewrite df_col_select_rows, Hy. simpl. eauto.
Qed.

(** ** The ledger across the runs of a session *)

Lemma same_charts_ledger (w w' : World) : same_charts w w' -> ledger w' = ledger w.
Proof. unfold same_charts, unchanged, ledger. intros ->. reflexivity. Qed.

Lemma keeps_outputs (lib : Libs) (i : widgets) (df : DataFrame) :
  preserves same_charts (outputs lib i df).
Proof.
  unfold outputs.
  apply (preserves_bind _ same_charts_trans); [apply keeps_display_charts|].
  intros _.
  apply (preserves_bind _ same_charts_trans); [apply keeps_download_csv|].
  intros _. destruct (ppt_button i); [apply keeps_download_ppt|].
  apply (preserves_ret _ same_charts_refl).
Qed.

(** Up to the controls, a run only builds the page and makes sure the
    session has a ledger. *)
Lemma app_preamble (lib : Libs) (i : widgets) (df : DataFrame) (w : World) :
  uploaded_file i = Some df ->
  exists w0,
    app lib i w = (df' ← controls lib i df; outputs lib i df') w0 /\
    session_charts w0 = Some (ledger w) /\
    ui w0 = ui w ++ [st_title "📊 Data Visualization Dashboard";
                     st_success "File uploaded successfully!";
                     st_subheader "Preview of the Dataset";
                     st_write_frame (df_head df);
                     st_header "Visualization Settings"].
Proof.
  intros Hu. unfold app. rewrite Hu.
  rewrite (bind_Ok _ _ w _ tt) by reflexivity.
  match goal with |- context [ (session_init ≫= _) ?w1 ] => set (wa := w1) end.
  destruct (session_charts w) as [l|] eqn:Hl.
  - rewrite (bind_Ok _ _ wa wa tt).
    2:{ unfold session_init, wa. simpl. rewrite Hl. reflexivity. }
    repeat (rewrite (bind_Ok (st _) _ _ _ tt) by reflexivity).
    eexists. split; [reflexivity|]. simpl. unfold ledger. rewrite Hl.
    split; [reflexivity|]. rewrite <- !app_assoc. reflexivity.
  - rewrite (bind_Ok _ _ wa (set_charts (Some []) wa) tt).
    2:{ unfold session_init, wa. simpl. rewrite Hl. reflexivity. }
    repeat (rewrite (bind_Ok (st _) _ _ _ tt) by reflexivity).
    eexists. split; [reflexivity|]. simpl. unfold ledger. rewrite Hl.
    split; [reflexivity|]. rewrite <- !app_assoc. reflexivity.
Qed.

(** Without a table, a run leaves the ledger's entries alone. *)
Lemma app_no_upload (lib : Libs) (i : widgets) (w : World) :
  uploaded_file i = None -> ledger (snd (app lib i w)) = ledger w.
Proof.
  intros Hu. unfold app. rewrite Hu.
  rewrite (bind_Ok _ _ w _ tt) by reflexivity.
  match goal with |- context [ (session_init ≫= _) ?w1 ] => set (wa := w1) end.
  destruct (session_charts w) as [l|] eqn:Hl.
  - rewrite (bind_Ok _ _ wa wa tt).
    2:{ unfold session_init, wa. simpl. rewrite Hl. reflexivity. }
    simpl. unfold ledger. simpl. reflexivity.
  - rewrite (bind_Ok _ _ wa (set_charts (Some []) wa) tt).
    2:{ unfold session_init, wa. simpl. rewrite Hl. reflexivity. }
    simpl. unfold ledger. simpl. rewrite Hl. reflexivity.
Qed.

(** The controls either leave the ledger as it is or add the entry asked
    for at its end. *)
Lemma controls_cases (lib : Libs) (i : widgets) (df : DataFrame) (w w' : World)
    (r : outcome DataFrame) :
  controls lib i df w = (r, w') ->
  session_charts w' = session_charts w \/
  (exists l, session_charts w = Some l /\
             session_charts w' = Some (l ++ [spec_of i])).
Proof.
  unfold controls.
  destruct (truthy (sel_x_axis i) && truthy (sel_y_axis i));
    [|intros [= _ <-]; left; reflexivity].
  intros H. apply bind_inv in H.
  destruct H as [(df1 & w1 & Hf & H)|(e & Hf & _)].
  2:{ apply filter_step_world in Hf. subst. left; reflexivity. }
  apply filter_step_world in Hf. subst w1.
  apply bind_inv in H.
  destruct H as [([] & w2 & Hg & H)|(e & Hg & _)].
  - injection H as _ <-.
    destruct (generate_button i); [|injection Hg as <-; left; reflexivity].
    destruct (generate_chart_cases lib df1 (sel_chart_type i) (sel_x_axis i)
                (sel_y_axis i) (picked_color i) (show_data_points i) w)
      as (w3 & Hg3 & Hcases).
    rewrite Hg in Hg3. injection Hg3 as <-.
    destruct Hcases as [(l & Hl & Hl' & _)|[Hsame _]].
    + right. exists l. split; assumption.
    + left. exact Hsame.
  - destruct (generate_button i); [|discriminate].
    destruct (generate_chart_cases lib df1 (sel_chart_type i) (sel_x_axis i)
                (sel_y_axis i) (picked_color i) (show_data_points i) w)
      as (w3 & Hg3 & _).
    rewrite Hg in Hg3. discriminate.
Qed.

Lemma run_ledger_cases (lib : Libs) (i : widgets) (w : World) :
  ledger (snd (run lib i w)) = ledger w \/
  ledger (snd (run lib i w)) = ledger w ++ [spec_of i].
Proof.
  unfold run.
  change (ledger w) with (ledger (set_ui [] w)).
  generalize (set_ui [] w). clear w. intros w.
  destruct (uploaded_file i) as [df|] eqn:Hu.
  2:{ left. apply app_no_upload, Hu. }
  destruct (app_preamble lib i df w Hu) as (w0 & Happ & Hc0 & _).
  rewrite Happ.
  destruct ((df' ← controls lib i df; outputs lib i df') w0) as [r w'] eqn:Hrun.
  simpl. apply bind_inv in Hrun.
  destruct Hrun as [(df1 & w1 & Hctl & Hout)|(e & Hctl & _)].
  - apply keeps_outputs, same_charts_ledger in Hout. rewrite Hout.
    apply controls_cases in Hctl. unfold ledger.
    destruct Hctl as [->|(l & Hl & ->)].
    + left. rewrite Hc0. reflexivity.
    + right. rewrite Hc0 in Hl. injection Hl as <-. reflexivity.
  - apply controls_cases in Hctl. unfold ledger.
    destruct Hctl as [->|(l & Hl & ->)].
    + left. rewrite Hc0. reflexivity.
    + right. rewrite Hc0 in Hl. injection Hl as <-. reflexivity.
Qed.

Lemma ledger_end_of_run (w : World) : ledger (end_of_run w) = ledger w.
Proof. reflexivity. Qed.

(** Nothing a session does removes or moves an entry. *)
Lemma run_all_prefix (lib : Libs) (inputs : list widgets) (w : World) :
  ledger w `prefix_of` ledger (run_all lib inputs w).
Proof.
  revert w; induction inputs as [|i inputs IH]; intros w; simpl.
  - reflexivity.
  - etransitivity; [|apply IH]. rewrite ledger_end_of_run.
    destruct (run_ledger_cases lib i w) as [->| ->].
    + reflexivity.
    + apply prefix_app_r. reflexivity.
Qed.

Section QuietSession.
Variable lib : Libs.
Hypothesis Hq : forall c, raises lib c = None.

Lemma controls_generates (i : widgets) (df : DataFrame) (w : World)
    (l : list chart) :
  truthy (sel_x_axis i) = true -> truthy (sel_y_axis i) = true ->
  is_Some (df_col df (sel_x_axis i)) -> is_Some (df_col df (sel_y_axis i)) ->
  generate_button i = true ->
  session_charts w = Some l ->
  exists df' w',
    controls lib i df w = (Ok df', w') /\
    session_charts w' = Some (l ++ [spec_of i]).
Proof.
  intros Hx Hy Hcx Hcy Hg Hl. unfold controls. rewrite Hx, Hy, Hg. simpl.
  destruct (filter_step_quiet lib Hq df (sel_x_axis i) (slider_value i) w Hcx)
    as (df' & Hf & Hsf).
  rewrite (bind_Ok _ _ _ _ _ Hf).
  set (w0 := set_ui (ui w ++ [st_subheader (sel_chart_type i +:+ " Visualization")]) w).
  destruct (returns_render_chart lib Hq df' (sel_chart_type i) (sel_x_axis i)
              (sel_y_axis i) (picked_color i) (show_data_points i)
              (df_col_slider_filter _ _ _ _ _ Hsf Hcx)
              (df_col_slider_filter _ _ _ _ _ Hsf Hcy) w0) as ([] & w1 & Hr).
  pose proof (generate_chart_render_returns lib df' (sel_chart_type i)
                (sel_x_axis i) (sel_y_axis i) (picked_color i)
                (show_data_points i) w w1 l Hr Hl) as Hgen.
  rewrite (bind_Ok _ _ _ _ _ Hgen).
  eexists _, _. split; reflexivity.
Qed.

Lemma run_generates (i : widgets) (w : World) :
  generates i -> ledger (snd (run lib i w)) = ledger w ++ [spec_of i].
Proof.
  intros (df & Hu & Hx & Hy & Hcx & Hcy & Hg). unfold run.
  change (ledger w) with (ledger (set_ui [] w)).
  generalize (set_ui [] w). clear w. intros w.
  destruct (app_preamble lib i df w Hu) as (w0 & Happ & Hc0 & _).
  rewrite Happ.
  destruct (controls_generates i df w0 (ledger w) Hx Hy Hcx Hcy Hg Hc0)
    as (df' & w1 & Hctl & Hc1).
  rewrite (bind_Ok _ _ _ _ _ Hctl).
  destruct (outputs lib i df' w1) as [r w2] eqn:Hout. simpl.
  apply keeps_outputs, same_charts_ledger in Hout. rewrite Hout.
  unfold ledger. rewrite Hc1. reflexivity.
Qed.

Lemma run_all_generates (inputs : list widgets) (w : World) :
  Forall generates inputs ->
  ledger (run_all lib inputs w) = ledger w ++ map spec_of inputs.
Proof.
  intros Hall. revert w; induction Hall as [|i inputs Hi _ IH]; intros w; simpl.
  - rewrite app_nil_r. reflexivity.
  - rewrite IH, ledger_end_of_run, (run_generates i w Hi), <- app_assoc.
    reflexivity.
Qed.

End QuietSession.

(** C4. The ledger is append-only and keeps the order of insertion:
    a session of [n] successful generations leaves the ledger holding
    exactly the [n] entries asked for, in the order asked, repeated
    entries repeated; and no run of the script, whatever the library
    does, removes, moves or merges an entry (the ledger before a
    session is a prefix of the ledger after it). *)
Theorem ledger_append_only (lib : Libs) (inputs : list widgets) (w : World) :
  (forall c, raises lib c = None) ->
  Forall generates inputs ->
  ledger (run_all lib inputs w) = ledger w ++ map spec_of inputs /\
  length (ledger (run_all lib inputs w)) = length (ledger w) + length inputs /\
  (forall lib' inputs' w',
     ledger w' `prefix_of` ledger (run_all lib' inputs' w')).
Proof.
  intros Hq Hall.
  pose proof (run_all_generates lib Hq inputs w Hall) as Heq.
  split; [exact Heq|]. split.
  - rewrite Heq, length_app, length_map. reflexivity.
  - intros lib' inputs' w'. apply run_all_prefix.
Qed.

Lemma sample_widgets_generates (kind x y : string) (range : float * float)
    (ppt : bool) :
  truthy x = true -> truthy y = true ->
  is_Some (df_col sales_table x) -> is_Some (df_col sales_table y) ->
  generates (sample_widgets kind x y range true ppt).
Proof. intros Hx Hy Hcx Hcy. exists sales_table. simpl. auto 10. Qed.

Lemma ledger_append_only_witness :
  ledger (run_all quiet
            [sample_widgets "Bar Chart" "sales" "date" (50%float, 250%float) true false;
             sample_widgets "Bar Chart" "sales" "date" (100%float, 200%float) true false;
             sample_widgets "Pie Chart" "date" "sales" (0%float, 0%float) true true]
            new_session)
  = ledger new_session ++ [bar_sales; bar_sales; pie_sales]
  /\ length (ledger (run_all quiet
            [sample_widgets "Bar Chart" "sales" "date" (50%float, 250%float) true false;
             sample_widgets "Bar Chart" "sales" "date" (100%float, 200%float) true false;
             sample_widgets "Pie Chart" "date" "sales" (0%float, 0%float) true true]
            new_session))
     = length (ledger new_session) + 3
  /\ (forall lib' inputs' w',
        ledger w' `prefix_of` ledger (run_all lib' inputs' w')).
Proof.
  apply (ledger_append_only quiet
           [sample_widgets "Bar Chart" "sales" "date" (50%float, 250%float) true false;
            sample_widgets "Bar Chart" "sales" "date" (100%float, 200%float) true false;
            sample_widgets "Pie Chart" "date" "sales" (0%float, 0%float) true true]
           new_session).
  - intros c. reflexivity.
  - repeat constructor;
      apply sample_widgets_generates; try reflexivity; eexists; reflexivity.
Defined.

(** ** The CSV text *)

(** The text of a column is the natural text of each of its values. *)
Lemma column_text_cells (c : column) :
  column_text c = map natural_text (cells c).
Proof.
  destruct c as [vs|vs|vs|vs]; simpl; rewrite map_map; apply map_ext.
  - reflexivity.
  - reflexivity.
  - intros []; reflexivity.
  - intros [s|]; reflexivity.
Qed.

Lemma rows_from_lookup (n : nat) (df : DataFrame) (i : nat) :
  Forall (fun nc => col_len (snd nc) = n) df -> i < n ->
  exists r,
    rows_from n df !! i = Some r /\
    map (fun nv => natural_text (snd nv)) r = csv_record (values_for_csv df) i /\
    map fst r = columns df.
Proof.
  intros Hall Hi. induction Hall as [|[name c] df Hc _ IH]; simpl.
  - exists []. split; [|split; reflexivity].
    apply lookup_replicate_2, Hi.
  - destruct IH as (r & Hr & Htext & Hnames).
    unfold col_len in Hc. simpl in Hc.
    destruct (lookup_lt_is_Some_2 (cells c) i) as [v Hv]; [lia|].
    exists ((name, v) :: r). split; [|split].
    + rewrite lookup_zip_with, Hv. simpl. rewrite Hr. reflexivity.
    + simpl. rewrite Htext. f_equal.
      rewrite column_text_cells, list_lookup_fmap, Hv. reflexivity.
    + simpl. rewrite Hnames. reflexivity.
Qed.

Lemma csv_body_rows (df : DataFrame) :
  wf_frame df ->
  map (csv_record (values_for_csv df)) (seq 0 (nrows df))
  = map (map (fun nv => natural_text (snd nv))) (rows df).
Proof.
  intros Hwf. apply list_eq. intros i.
  rewrite !list_lookup_fmap.
  destruct (decide (i < nrows df)) as [Hi|Hi].
  - destruct (rows_from_lookup (nrows df) df i Hwf Hi) as (r & Hr & Ht & _).
    unfold rows. rewrite Hr, lookup_seq_lt by exact Hi. simpl. rewrite Ht.
    reflexivity.
  - rewrite lookup_seq_ge by lia.
    rewrite (lookup_ge_None_2 (rows df)); [reflexivity|].
    rewrite rows_length by exact Hwf. lia.
Qed.

Lemma rows_columns (df : DataFrame) :
  wf_frame df -> Forall (fun r => map fst r = columns df) (rows df).
Proof.
  intros Hwf. apply Forall_lookup. intros i r Hr.
  assert (Hi : i < nrows df).
  { rewrite <- (rows_length df Hwf). eapply lookup_lt_Some, Hr. }
  destruct (rows_from_lookup (nrows df) df i Hwf Hi) as (r' & Hr' & _ & Hn).
  unfold rows in Hr. congruence.
Qed.

Lemma csv_records_text (df : DataFrame) :
  wf_frame df -> csv_records df = text_records df.
Proof.
  intros Hwf. unfold csv_records, text_records.
  rewrite csv_body_rows by exact Hwf. reflexivity.
Qed.

Lemma writerows_plain (lib : Libs) (records : list (list string)) :
  plain_writer lib ->
  Forall (fun r => plain_record r = true) records ->
  writerows lib records = delimited_lines records.
Proof.
  intros Hw. induction 1 as [|r records Hr _ IH]; simpl; [reflexivity|].
  rewrite (Hw r Hr), IH. reflexivity.
Qed.

(** C6. The CSV text of a table is delimited text: the first record is
    the header, made of the column names; then comes one record per row
    of the table, in row order; a record holds the natural text of the
    row's values, one field per column and in the table's column order,
    and nothing else, so there is no index column.  Where no field needs
    quoting, the text is these records written one per line with commas
    between the fields. *)
Theorem to_csv_layout (lib : Libs) (df : DataFrame) :
  wf_frame df ->
  csv_records df = text_records df
  /\ to_csv lib df
     = writerow lib (columns df)
       +:+ writerows lib (map (map (fun nv => natural_text (snd nv))) (rows df))
  /\ length (csv_records df) = S (nrows df)
  /\ Forall (fun r => map fst r = columns df) (rows df)
  /\ Forall (fun rec => length rec = length (columns df)) (csv_records df)
  /\ (plain_writer lib ->
      Forall (fun r => plain_record r = true) (text_records df) ->
      to_csv lib df = delimited_lines (text_records df)).
Proof.
  intros Hwf.
  pose proof (csv_records_text df Hwf) as Hrec.
  split; [exact Hrec|]. split; [|split; [|split; [|split]]].
  - unfold to_csv. rewrite Hrec. reflexivity.
  - rewrite Hrec. unfold text_records. simpl.
    rewrite length_map, rows_length by exact Hwf. reflexivity.
  - apply rows_columns, Hwf.
  - rewrite Hrec. constructor; [reflexivity|].
    apply Forall_map. eapply Forall_impl; [apply rows_columns, Hwf|].
    intros r Hr. simpl. rewrite length_map, <- Hr, length_map. reflexivity.
  - intros Hw Hplain. unfold to_csv. rewrite Hrec.
    apply writerows_plain; assumption.
Qed.

Lemma mixed_table_wf : wf_frame mixed_table.
Proof. repeat constructor. Qed.

Lemma quiet_plain_writer : plain_writer quiet.
Proof. intros fields _. reflexivity. Qed.

Lemma to_csv_layout_witness :
  csv_records mixed_table
  = [["day"; "sales"; "price"; "paid"];
     ["mon"; "50"; "1.5"; "True"];
     [""; "-7"; ""; "False"];
     ["wed"; "250"; "0.1"; "True"]]
  /\ to_csv quiet mixed_table
     = writerow quiet (columns mixed_table)
       +:+ writerows quiet
             (map (map (fun nv => natural_text (snd nv))) (rows mixed_table))
  /\ length (csv_records mixed_table) = 4
  /\ Forall (fun r => map fst r = ["day"; "sales"; "price"; "paid"])
       (rows mixed_table)
  /\ Forall (fun rec => length rec = 4) (csv_records mixed_table)
  /\ (plain_writer quiet ->
      Forall (fun r => plain_record r = true) (text_records mixed_table) ->
      to_csv quiet mixed_table = "day,sales,price,paid
mon,50,1.5,True
,-7,,False
wed,250,0.1,True
").
Proof.
  exact (to_csv_layout quiet mixed_table mixed_table_wf).
Defined.

(** ** The CSV a run offers *)

Lemma find_snoc {A} (p : A -> bool) (l : list A) (a : A) :
  List.find p (l ++ [a])
  = match List.find p l with
    | Some x => Some x
    | None => if p a then Some a else None
    end.
Proof.
  induction l as [|x l IH]; simpl; [reflexivity|].
  destruct (p x); [reflexivity|apply IH].
Qed.

Lemma csv_offered_snoc_other (page : list ui_event) (e : ui_event) :
  not_csv_button e = true -> csv_offered (page ++ [e]) = csv_offered page.
Proof.
  unfold not_csv_button, csv_offered. intros He. rewrite find_snoc.
  destruct (List.find is_csv_button page); [reflexivity|].
  destruct (is_csv_button e); [discriminate|reflexivity].
Qed.

Section SameCsv.
Variable lib : Libs.

Let view (w : World) : option file := csv_offered (ui w).

Lemma csv_view_figs (f : list (nat * list plot)) (w : World) :
  view (set_figs f w) = view w.
Proof. reflexivity. Qed.

Lemma csv_view_files (f : gmap string file) (w : World) :
  view (set_files f w) = view w.
Proof. reflexivity. Qed.

Lemma csv_view_ui (e : ui_event) (w : World) :
  not_csv_button e = true -> view (set_ui (ui w ++ [e]) w) = view w.
Proof. intros He. unfold view. simpl. apply csv_offered_snoc_other, He. Qed.

Lemma csv_shown_other (e : ui_event) :
  is_csv_button e = false -> not_csv_button e = true.
Proof. unfold not_csv_button. intros ->. reflexivity. Qed.

Lemma csv_st (e : ui_event) :
  is_csv_button e = false -> preserves same_csv (st e).
Proof.
  intros He. apply (frame_st _ not_csv_button csv_view_ui).
  apply csv_shown_other, He.
Qed.

Lemma csv_render_chart (df : DataFrame) (chart_type x_axis y_axis color : string)
    (show : bool) :
  preserves same_csv (render_chart lib df chart_type x_axis y_axis color show).
Proof.
  apply (frame_render_chart _ not_csv_button csv_view_figs csv_view_ui
           csv_shown_other).
Qed.

Lemma csv_charts_append (c : chart) : preserves same_csv (charts_append c).
Proof.
  unfold charts_append.
  apply (preserves_bind _ (unchanged_trans _));
    [apply (preserves_get_charts _ (unchanged_refl _))|].
  intros l. apply preserves_modify. intros w. reflexivity.
Qed.

Lemma csv_generate_chart (df : DataFrame) (chart_type x_axis y_axis color : string)
    (show : bool) :
  preserves same_csv (generate_chart lib df chart_type x_axis y_axis color show).
Proof.
  unfold generate_chart, generate_body.
  apply (preserves_bind _ (unchanged_trans _)); [apply csv_st; reflexivity|].
  intros _. apply (preserves_try_except _ (unchanged_trans _)).
  - apply (preserves_bind _ (unchanged_trans _)); [apply csv_render_chart|].
    intros _.
    apply (preserves_bind _ (unchanged_trans _)); [apply csv_charts_append|].
    intros _. apply csv_st. reflexivity.
  - intros e. apply csv_st. reflexivity.
Qed.

Lemma csv_download_ppt (df : DataFrame) : preserves same_csv (download_ppt lib df).
Proof.
  apply (frame_download_ppt _ not_csv_button csv_view_figs csv_view_files
           csv_view_ui csv_shown_other).
Qed.

Lemma csv_display_charts : preserves same_csv display_charts.
Proof.
  apply (frame_display_charts _ not_csv_button csv_view_ui csv_shown_other).
Qed.

End SameCsv.

(** The filter step's outcome does not depend on the session. *)
Lemma filter_step_any_world (lib : Libs) (df : DataFrame) (x_axis : string)
    (slider : float * float) (w1 w2 : World) :
  fst (filter_step lib df x_axis slider w1)
  = fst (filter_step lib df x_axis slider w2).
Proof.
  unfold filter_step.
  destruct (df_col df x_axis) as [c|]; [|reflexivity].
  destruct (dtype_in_int_float (col_dtype c)); [|reflexivity].
  unfold mbind, M_bind, call. destruct (raises lib _); reflexivity.
Qed.

(** Nor does the table the controls hand on. *)
Lemma controls_any_world (lib : Libs) (i : widgets) (df : DataFrame)
    (w1 w2 : World) :
  fst (controls lib i df w1) = fst (controls lib i df w2).
Proof.
  unfold controls.
  destruct (truthy (sel_x_axis i) && truthy (sel_y_axis i)); [|reflexivity].
  pose proof (filter_step_any_world lib df (sel_x_axis i) (slider_value i) w1 w2)
    as Hf.
  destruct (filter_step lib df (sel_x_axis i) (slider_value i) w1)
    as [[df1|e] w1'] eqn:H1;
    destruct (filter_step lib df (sel_x_axis i) (slider_value i) w2)
      as [[df2|e2] w2'] eqn:H2; simpl in Hf; try discriminate.
  - injection Hf as <-.
    rewrite (bind_Ok _ _ _ _ _ H1), (bind_Ok _ _ _ _ _ H2).
    assert (Hg : forall w, exists w',
                 (if generate_button i
                  then generate_chart lib df1 (sel_chart_type i) (sel_x_axis i)
                         (sel_y_axis i) (picked_color i) (show_data_points i)
                  else mret tt) w = (Ok tt, w')).
    { intros w. destruct (generate_button i); [|eexists; reflexivity].
      destruct (generate_chart_cases lib df1 (sel_chart_type i) (sel_x_axis i)
                  (sel_y_axis i) (picked_color i) (show_data_points i) w)
        as (w' & Hg & _).
      eauto. }
    destruct (Hg w1') as (wa & Ha). destruct (Hg w2') as (wb & Hb).
    rewrite (bind_Ok _ _ _ _ _ Ha), (bind_Ok _ _ _ _ _ Hb). reflexivity.
  - rewrite (bind_Raise _ _ _ _ _ H1), (bind_Raise _ _ _ _ _ H2).
    simpl. congruence.
Qed.

Lemma controls_same_csv (lib : Libs) (i : widgets) (df : DataFrame) :
  preserves same_csv (controls lib i df).
Proof.
  unfold controls.
  destruct (truthy (sel_x_axis i) && truthy (sel_y_axis i)).
  - apply (preserves_bind _ (unchanged_trans _)).
    + apply frame_filter_step.
    + intros df1. apply (preserves_bind _ (unchanged_trans _)).
      * destruct (generate_button i); [apply csv_generate_chart|].
        apply (preserves_ret _ (unchanged_refl _)).
      * intros _. apply (preserves_ret _ (unchanged_refl _)).
  - apply (preserves_ret _ (unchanged_refl _)).
Qed.

Lemma returns_write_all (lines : list string) : returns (write_all lines).
Proof.
  induction lines as [|s lines IH]; simpl; [apply returns_ret|].
  apply returns_bind; [apply returns_st|]. intros _. exact IH.
Qed.

Lemma display_charts_returns (w : World) :
  is_Some (session_charts w) -> exists w', display_charts w = (Ok tt, w').
Proof.
  intros [l Hl]. unfold display_charts.
  rewrite (bind_Ok _ _ w w l) by (unfold get_charts; rewrite Hl; reflexivity).
  destruct l as [|c l]; [eexists; reflexivity|].
  destruct (returns_bind (st (st_subheader "Generated Charts"))
              (fun _ => write_all (map chart_line (c :: l)))
              (returns_st _) (fun _ => returns_write_all _) w) as ([] & w' & H).
  eauto.
Qed.

Lemma csv_offered_None (page : list ui_event) :
  csv_offered page = None -> List.find is_csv_button page = None.
Proof.
  unfold csv_offered. destruct (List.find is_csv_button page) as [e|] eqn:E;
    [|reflexivity].
  apply find_some in E. destruct E as [_ E].
  destruct e; simpl in E; discriminate.
Qed.

(** Once the controls are through, the page gets the CSV of the table
    they handed on. *)
Lemma outputs_csv (lib : Libs) (i : widgets) (df : DataFrame) (w : World) :
  is_Some (session_charts w) ->
  csv_offered (ui w) = None ->
  csv_offered (ui (snd (outputs lib i df w))) = Some (Bytes (to_csv lib df)).
Proof.
  intros Hs Hnone. unfold outputs.
  destruct (display_charts_returns w Hs) as (w1 & Hd).
  rewrite (bind_Ok _ _ _ _ _ Hd).
  assert (Hnone1 : List.find is_csv_button (ui w1) = None).
  { apply csv_offered_None. apply csv_display_charts in Hd.
    unfold same_csv, unchanged in Hd. congruence. }
  set (button := st_download_button "Download CSV" (Bytes (to_csv lib df))
                   "filtered_dataset.csv" "text/csv").
  set (w2 := set_ui ((ui w1 ++ [st_subheader "Download Filtered Dataset"])
                     ++ [button]) w1).
  assert (Hcsv : download_csv lib df w1 = (Ok tt, w2)) by reflexivity.
  rewrite (bind_Ok _ _ _ _ _ Hcsv).
  assert (H2 : csv_offered (ui w2) = Some (Bytes (to_csv lib df))).
  { unfold w2, button. simpl. unfold csv_offered.
    rewrite !find_snoc, Hnone1. reflexivity. }
  destruct (ppt_button i); [|exact H2].
  destruct (download_ppt lib df w2) as [r w3] eqn:Hppt. simpl.
  apply csv_download_ppt in Hppt. unfold same_csv, unchanged in Hppt.
  congruence.
Qed.

(** The CSV a run offers is that of the table its controls hand on;
    where the filter raises there is none. *)
Lemma run_csv_offered (lib : Libs) (i : widgets) (df0 : DataFrame) (w w0 : World) :
  uploaded_file i = Some df0 ->
  csv_offered (ui (snd (run lib i w)))
  = match fst (controls lib i df0 w0) with
    | Ok df => Some (Bytes (to_csv lib df))
    | Raise _ => None
    end.
Proof.
  intros Hu. unfold run.
  destruct (app_preamble lib i df0 (set_ui [] w) Hu) as (w1 & Happ & Hc1 & Hui).
  rewrite Happ, (controls_any_world lib i df0 w0 w1).
  assert (Hnone : csv_offered (ui w1) = None) by (rewrite Hui; reflexivity).
  destruct (controls lib i df0 w1) as [[df|e] w2] eqn:Hctl; simpl.
  - rewrite (bind_Ok _ _ _ _ _ Hctl). apply outputs_csv.
    + apply controls_cases in Hctl.
      destruct Hctl as [->|(l & _ & ->)]; [rewrite Hc1|]; eauto.
    + apply controls_same_csv in Hctl. unfold same_csv, unchanged in Hctl.
      congruence.
  - rewrite (bind_Raise _ _ _ _ _ Hctl). simpl.
    apply controls_same_csv in Hctl. unfold same_csv, unchanged in Hctl.
    congruence.
Qed.

(** C7. The CSV offered for download is a function of the table alone:
    two runs of the script on the same uploaded table with the same
    axes and slider range offer byte-identical CSV data, whatever the
    session holds and whatever else was clicked, and that data is the
    CSV text of the table the controls hand on. *)
Theorem csv_same_on_every_run (lib : Libs) (i1 i2 : widgets) (w1 w2 : World) :
  uploaded_file i1 = uploaded_file i2 ->
  sel_x_axis i1 = sel_x_axis i2 ->
  sel_y_axis i1 = sel_y_axis i2 ->
  slider_value i1 = slider_value i2 ->
  csv_offered (ui (snd (run lib i1 w1))) = csv_offered (ui (snd (run lib i2 w2)))
  /\ (forall df0 df,
        uploaded_file i1 = Some df0 ->
        fst (controls lib i1 df0 w1) = Ok df ->
        csv_offered (ui (snd (run lib i1 w1))) = Some (Bytes (to_csv lib df))).
Proof.
  intros Hu Hx Hy Hs. split.
  - destruct (uploaded_file i1) as [df0|] eqn:Hu1.
    + rewrite (run_csv_offered lib i1 df0 w1 w1 Hu1).
      rewrite (run_csv_offered lib i2 df0 w2 w1) by (symmetry; exact Hu).
      replace (fst (controls lib i2 df0 w1)) with (fst (controls lib i1 df0 w1));
        [reflexivity|].
      unfold controls. rewrite Hx, Hy, Hs.
      destruct (truthy (sel_x_axis i2) && truthy (sel_y_axis i2)); [|reflexivity].
      destruct (filter_step lib df0 (sel_x_axis i2) (slider_value i2) w1)
        as [[df1|e] w1'] eqn:Hf.
      * rewrite !(bind_Ok _ _ _ _ _ Hf).
        assert (Hg : forall (b : bool) ct x y col sh,
                   fst (((if b then generate_chart lib df1 ct x y col sh
                          else mret tt);; mret df1) w1') = Ok df1).
        { intros b ct x y col sh. destruct b; [|reflexivity].
          destruct (generate_chart_cases lib df1 ct x y col sh w1')
            as (w' & Hg & _).
          rewrite (bind_Ok _ _ _ _ _ Hg). reflexivity. }
        rewrite !Hg. reflexivity.
      * rewrite !(bind_Raise _ _ _ _ _ Hf). reflexivity.
    + unfold run, app. rewrite Hu1, <- Hu.
      unfold csv_offered, st, modify, session_init, mbind, M_bind. simpl.
      destruct (session_charts w1), (session_charts w2); reflexivity.
  - intros df0 df Hu1 Hctl.
    rewrite (run_csv_offered lib i1 df0 w1 w1 Hu1), Hctl. reflexivity.
Qed.

Lemma csv_same_on_every_run_witness :
  csv_offered (ui (snd (run quiet
     (sample_widgets "Bar Chart" "sales" "date" (100%float, 200%float) true false)
     new_session)))
  = csv_offered (ui (snd (run quiet
     (sample_widgets "Pie Chart" "sales" "date" (100%float, 200%float) false true)
     (session_with [bar_sales; pie_sales]))))
  /\ (forall df0 df,
        uploaded_file
          (sample_widgets "Bar Chart" "sales" "date" (100%float, 200%float) true false)
        = Some df0 ->
        fst (controls quiet
               (sample_widgets "Bar Chart" "sales" "date" (100%float, 200%float)
                  true false) df0 new_session) = Ok df ->
        csv_offered (ui (snd (run quiet
           (sample_widgets "Bar Chart" "sales" "date" (100%float, 200%float) true false)
           new_session)))
        = Some (Bytes (to_csv quiet df))).
Proof.
  apply (csv_same_on_every_run quiet
           (sample_widgets "Bar Chart" "sales" "date" (100%float, 200%float) true false)
           (sample_widgets "Pie Chart" "sales" "date" (100%float, 200%float) false true)
           new_session (session_with [bar_sales; pie_sales]));
    reflexivity.
Defined.

(** ** The slides of an export *)

Lemma slides_from_length (df : DataFrame) (l : list chart) (idx : nat) :
  length (slides_from df idx l) = length l.
Proof.
  revert idx; induction l as [|c l IH]; intros idx; simpl; [reflexivity|].
  rewrite IH. reflexivity.
Qed.

Lemma slides_from_lookup (df : DataFrame) (l : list chart) (idx k : nat) (c : chart) :
  l !! k = Some c -> slides_from df idx l !! k = Some (slide_for df (idx + k) c).
Proof.
  revert idx k; induction l as [|c0 l IH]; intros idx k Hk; [discriminate|].
  destruct k as [|k]; simpl in *.
  - injection Hk as ->. rewrite Nat.add_0_r. reflexivity.
  - replace (idx + S k) with (S idx + k) by lia. apply IH, Hk.
Qed.

(** ** The range filter on the sample table *)

Lemma sales_table_wf : wf_frame sales_table.
Proof. repeat constructor. Qed.

Lemma slider_filter_rows_in_float_range_witness :
  exists df',
    slider_filter sales_table "sales" (100%float, 200%float) = Ok df' /\
    rows df' = [[("date", VStr (Some "tue")); ("sales", VInt 150)]] /\
    (exact_column (Int64 [50; 150; 250]%Z) = true ->
     rows df' = List.filter (exact_row_in_range "sales" 100%float 200%float)
                  (rows sales_table)) /\
    columns df' = ["date"; "sales"] /\
    map (fun nc => col_dtype (snd nc)) df' = [object_; int64] /\
    wf_frame df'.
Proof.
  apply (slider_filter_rows_in_float_range sales_table "sales"
           (Int64 [50; 150; 250]%Z) 100%float 200%float).
  - exact sales_table_wf.
  - reflexivity.
  - reflexivity.
  - reflexivity.
Defined.

Lemma slider_filter_not_numeric_witness :
  slider_filter sales_table "date" (100%float, 200%float) = Ok sales_table /\
  (forall lib w,
     filter_step lib sales_table "date" (100%float, 200%float) w
     = (Ok sales_table, w)).
Proof.
  apply (slider_filter_not_numeric sales_table "date"
           (Object [Some "mon"; Some "tue"; Some "wed"]) (100%float, 200%float));
    reflexivity.
Defined.

Lemma slider_filter_idempotent_witness :
  exists df',
    slider_filter sales_table "sales" (100%float, 200%float) = Ok df' /\
    slider_filter df' "sales" (100%float, 200%float) = Ok df'.
Proof.
  apply (slider_filter_idempotent sales_table "sales" (Int64 [50; 150; 250]%Z)
           100%float 200%float).
  - exact sales_table_wf.
  - reflexivity.
  - reflexivity.
  - reflexivity.
Defined.

(** ** The scenarios of the specification, run on the sample table *)

(** The filter keeps the one row with sales in [100, 200]. *)
Example filter_sales_100_200 :
  slider_filter sales_table "sales" (100%float, 200%float)
  = Ok [("date", Object [Some "tue"]); ("sales", Int64 [150]%Z)].
Proof. reflexivity. Qed.

(** The CSV of the sample table, and of its filtered view. *)
Example csv_of_sales_table :
  to_csv quiet sales_table = "date,sales
mon,50
tue,150
wed,250
".
Proof. reflexivity. Qed.

(** ** The export, whatever the library does

    A statement that returned made no call that raised; what it left is
    then what it leaves when no call raises. *)

Section Returned.
Variable lib : Libs.

Lemma call_returned (c : libcall) (w w' : World) (a : unit) :
  call lib c w = (Ok a, w') -> w' = w.
Proof.
  unfold call. destruct (raises lib c); [discriminate|].
  intros [= _ <-]. reflexivity.
Qed.

Lemma draw_on_returned (fig : nat) (p : plot) (w w' : World) (a : unit) :
  draw_on lib fig p w = (Ok a, w') ->
  w' = set_figs (fig_draw fig p (figs w)) w.
Proof.
  unfold draw_on. intros H. apply bind_inv in H.
  destruct H as [([] & w1 & Hc & H)|(e & _ & He)]; [|discriminate].
  apply call_returned in Hc. subst w1. injection H as _ <-. reflexivity.
Qed.


Lemma write_image_returned (name : string) (content : list plot)
    (w w' : World) (a : unit) :
  (call lib (WriteImage name content);; write_file name (Png content)) w
  = (Ok a, w') ->
  w' = set_files (<[name := Png content]> (files w)) w.
Proof.
  intros H. apply bind_inv in H.
  destruct H as [([] & w1 & Hc & H)|(e & _ & He)]; [|discriminate].
  apply call_returned in Hc. subst w1. injection H as _ <-. reflexivity.
Qed.

Lemma save_and_place_returned (fig idx : nat) (title : string) (w w' : World)
    (content : list plot) (fs : list (nat * list plot)) (s : slide) :
  figs w = (fig, content) :: fs ->
  save_and_place lib fig idx title w = (Ok s, w') ->
  s = {| title_text := title; pictures := [placed idx content] |} /\
  files w' = <[chart_png idx := Png content]> (files w).
Proof.
  intros Hf H. unfold save_and_place in H.
  apply bind_inv in H.
  destruct H as [([] & w1 & Hs & H)|(e & _ & He)]; [|discriminate].
  unfold plt_savefig in Hs. rewrite Hf in Hs.
  apply write_image_returned in Hs.
  apply bind_inv in H.
  destruct H as [([] & w2 & Hc & H)|(e & _ & He)]; [|discriminate].
  injection Hc as <-.
  apply bind_inv in H.
  destruct H as [(pic & w3 & Hp & H)|(e & _ & He)]; [|discriminate].
  rewrite (add_picture_png (chart_png idx) _ _ _ _ _ content) in Hp.
  2:{ subst w1. simpl. apply lookup_insert_eq. }
  injection Hp as <- <-. injection H as <- <-.
  subst w1. split; reflexivity.
Qed.

Lemma draw_save_place_returned (p : plot) (idx : nat) (title : string)
    (w w' : World) (s : slide) :
  (fig ← plt_subplots; draw_on lib fig p;; save_and_place lib fig idx title) w
  = (Ok s, w') ->
  s = {| title_text := title; pictures := [placed idx [p]] |} /\
  files w' = <[chart_png idx := Png [p]]> (files w).
Proof.
  intros H. apply bind_inv in H.
  destruct H as [(fig & w1 & Hn & H)|(e & _ & He)]; [|discriminate].
  injection Hn as <- <-.
  apply bind_inv in H.
  destruct H as [([] & w2 & Hd & H)|(e & _ & He)]; [|discriminate].
  apply draw_on_returned in Hd. subst w2.
  eapply save_and_place_returned in H.
  2:{ simpl. rewrite Nat.eqb_refl. reflexivity. }
  exact H.
Qed.

Lemma blank_save_place_returned (idx : nat) (title : string) (w w' : World)
    (s : slide) :
  (fig ← plt_subplots; save_and_place lib fig idx title) w = (Ok s, w') ->
  s = {| title_text := title; pictures := [placed idx []] |} /\
  files w' = <[chart_png idx := Png []]> (files w).
Proof.
  intros H. apply bind_inv in H.
  destruct H as [(fig & w1 & Hn & H)|(e & _ & He)]; [|discriminate].
  injection Hn as <- <-.
  eapply save_and_place_returned in H; [exact H|reflexivity].
Qed.

(** The turn of a Pie Chart entry does not get past [plt.close]. *)
Lemma pie_never_returns (p : plot) (idx : nat) (title : string) (w w' : World)
    (s : slide) :
  (fig ← plt_subplots;
   pfig ← px lib p;
   pio_write_image lib pfig (chart_png idx);;
   plt_close_foreign pfig;;
   mret {| title_text := title; pictures := [] |}) w = (Ok s, w') ->
  False.
Proof.
  intros H. apply bind_inv in H.
  destruct H as [(fig & w1 & Hn & H)|(e & _ & He)]; [|discriminate].
  apply bind_inv in H.
  destruct H as [(pfig & w2 & Hp & H)|(e & _ & He)]; [|discriminate].
  apply bind_inv in H.
  destruct H as [([] & w3 & Hw & H)|(e & _ & He)]; [|discriminate].
  apply bind_inv in H.
  destruct H as [([] & w4 & Hc & H)|(e & _ & He)]; discriminate.
Qed.

Lemma export_slide_returned (df : DataFrame) (idx : nat) (c : chart)
    (w w' : World) (s : slide) :
  export_slide lib df idx c w = (Ok s, w') ->
  is_pie c = false /\
  s = slide_for df idx c /\
  files w' = <[chart_png idx := Png (export_plot df c)]> (files w).
Proof.
  destruct c as [[[chart_type x_axis] y_axis] color].
  unfold export_slide, slide_for, export_plot, is_pie.
  destruct (String.eqb chart_type "Pie Chart") eqn:E6.
  { apply String.eqb_eq in E6. subst chart_type.
    intros H. exfalso. revert H. apply pie_never_returns. }
  intros H. split; [reflexivity|]. revert H.
  destruct (String.eqb chart_type "Bar Chart") eqn:E1.
  { apply String.eqb_eq in E1. subst chart_type. apply draw_save_place_returned. }
  destruct (String.eqb chart_type "Line Chart") eqn:E2.
  { apply String.eqb_eq in E2. subst chart_type. apply draw_save_place_returned. }
  destruct (String.eqb chart_type "Scatter Plot") eqn:E3.
  { apply String.eqb_eq in E3. subst chart_type. apply draw_save_place_returned. }
  destruct (String.eqb chart_type "Histogram") eqn:E4.
  { apply String.eqb_eq in E4. subst chart_type. apply draw_save_place_returned. }
  destruct (String.eqb chart_type "Box Plot") eqn:E5.
  { apply String.eqb_eq in E5. subst chart_type. apply draw_save_place_returned. }
  apply blank_save_place_returned.
Qed.

Lemma export_loop_returned (df : DataFrame) (l : list chart) (idx : nat)
    (w w' : World) (prs : list slide) :
  export_loop lib df idx l w = (Ok prs, w') ->
  Forall (fun c => is_pie c = false) l /\
  prs = slides_from df idx l /\ files w' = files_after df idx l (files w).
Proof.
  revert idx w w' prs; induction l as [|c l IH]; intros idx w w' prs H;
    simpl in *.
  - injection H as <- <-. split; [constructor|]. split; reflexivity.
  - apply bind_inv in H.
    destruct H as [(s & w1 & Hs & H)|(e & _ & He)]; [|discriminate].
    apply export_slide_returned in Hs. destruct Hs as (Hc & -> & Hf1).
    apply bind_inv in H.
    destruct H as [(prs' & w2 & Hl & H)|(e & _ & He)]; [|discriminate].
    apply IH in Hl. destruct Hl as (Hnp & -> & Hf2).
    injection H as <- <-. rewrite Hf2, Hf1.
    split; [constructor; assumption|]. split; reflexivity.
Qed.

Lemma prs_save_returned (name : string) (prs : list slide) (w w' : World)
    (a : unit) :
  prs_save lib name prs w = (Ok a, w') ->
  w' = set_files (<[name := Pptx prs]> (files w)) w.
Proof.
  unfold prs_save. intros H. apply bind_inv in H.
  destruct H as [([] & w1 & Hc & H)|(e & _ & He)]; [|discriminate].
  apply call_returned in Hc. subst w1.
  apply bind_inv in H.
  destruct H as [([] & w2 & Ht & H)|(e & _ & He)]; [|discriminate].
  injection Ht as <-.
  apply bind_inv in H.
  destruct H as [([] & w3 & Hc & H)|(e & _ & He)]; [|discriminate].
  apply call_returned in Hc. subst w3.
  injection H as _ <-. unfold set_files. simpl. rewrite insert_insert_eq.
  reflexivity.
Qed.

Lemma download_ppt_returned (df : DataFrame) (l : list chart) (w w' : World) :
  session_charts w = Some l ->
  download_ppt lib df w = (Ok tt, w') ->
  session_charts w' = Some l /\
  files w' = <[ppt_filename := Pptx (slides_from df 0 l)]>
               (files_after df 0 l (files w)).
Proof.
  intros Hl H. split.
  { apply keeps_download_ppt in H. unfold same_charts, unchanged in H.
    congruence. }
  unfold download_ppt in H.
  rewrite (bind_Ok _ _ w w l) in H
    by (unfold get_charts; rewrite Hl; reflexivity).
  apply bind_inv in H.
  destruct H as [(prs & w1 & Hloop & H)|(e & _ & He)]; [|discriminate].
  apply export_loop_returned in Hloop. destruct Hloop as (_ & -> & Hf1).
  apply bind_inv in H.
  destruct H as [([] & w2 & Hs & H)|(e & _ & He)]; [|discriminate].
  apply prs_save_returned in Hs. subst w2.
  apply bind_inv in H.
  destruct H as [(f & w4 & Ho & H)|(e & _ & He)]; [|discriminate].
  unfold open_rb in Ho. simpl in Ho. rewrite lookup_insert_eq in Ho.
  injection Ho as <- <-. injection H as <-. simpl. rewrite Hf1. reflexivity.
Qed.

End Returned.

(** ** The deck on disk during the export loop *)

Section DeckFile.
Variable lib : Libs.

Let deck (w : World) : option file := files w !! ppt_filename.

Lemma deck_figs (f : list (nat * list plot)) (w : World) :
  deck (set_figs f w) = deck w.
Proof. reflexivity. Qed.

Lemma deck_write_image (idx : nat) (f : file) :
  preserves (unchanged deck) (write_file (chart_png idx) f).
Proof.
  apply preserves_modify. intros w. unfold deck. simpl.
  apply lookup_insert_ne, chart_png_not_ppt.
Qed.

Lemma deck_plt_savefig (idx : nat) :
  preserves (unchanged deck) (plt_savefig lib (chart_png idx)).
Proof.
  intros w r w' H. unfold plt_savefig in H.
  destruct (figs w) as [|[n content] fs]; revert H.
  - apply (preserves_bind _ (unchanged_trans deck));
      [apply (frame_plt_subplots deck deck_figs)|].
    intros _. apply (preserves_bind _ (unchanged_trans deck));
      [apply (preserves_call _ (unchanged_refl deck))|].
    intros _. apply deck_write_image.
  - apply (preserves_bind _ (unchanged_trans deck));
      [apply (preserves_call _ (unchanged_refl deck))|].
    intros _. apply deck_write_image.
Qed.

Lemma deck_save_and_place (fig idx : nat) (title : string) :
  preserves (unchanged deck) (save_and_place lib fig idx title).
Proof.
  unfold save_and_place.
  apply (preserves_bind _ (unchanged_trans deck)); [apply deck_plt_savefig|].
  intros _. apply (preserves_bind _ (unchanged_trans deck));
    [apply (frame_plt_close deck deck_figs)|].
  intros _. apply (preserves_bind _ (unchanged_trans deck));
    [apply (preserves_add_picture _ (unchanged_refl deck))|].
  intros pic. apply (preserves_ret _ (unchanged_refl deck)).
Qed.

Lemma deck_draw_save_place (fig : nat) (p : plot) (idx : nat) (title : string) :
  preserves (unchanged deck)
    (draw_on lib fig p;; save_and_place lib fig idx title).
Proof.
  apply (preserves_bind _ (unchanged_trans deck));
    [apply (frame_draw_on deck deck_figs)|].
  intros _. apply deck_save_and_place.
Qed.

Lemma deck_export_slide (df : DataFrame) (idx : nat) (c : chart) :
  preserves (unchanged deck) (export_slide lib df idx c).
Proof.
  destruct c as [[[chart_type x_axis] y_axis] color].
  unfold export_slide.
  apply (preserves_bind _ (unchanged_trans deck));
    [apply (frame_plt_subplots deck deck_figs)|].
  intros fig.
  repeat match goal with
         | |- preserves _ (if ?b then _ else _) => destruct b
         end;
    try apply deck_draw_save_place; try apply deck_save_and_place.
  apply (preserves_bind _ (unchanged_trans deck)); [apply frame_px|].
  intros pfig. apply (preserves_bind _ (unchanged_trans deck)).
  - unfold pio_write_image.
    apply (preserves_bind _ (unchanged_trans deck));
      [apply (preserves_call _ (unchanged_refl deck))|].
    intros _. apply deck_write_image.
  - intros _. apply (preserves_bind _ (unchanged_trans deck));
      [apply (preserves_throw _ (unchanged_refl deck))|].
    intros _. apply (preserves_ret _ (unchanged_refl deck)).
Qed.

Lemma deck_export_loop (df : DataFrame) (l : list chart) (idx : nat) :
  preserves (unchanged deck) (export_loop lib df idx l).
Proof.
  revert idx; induction l as [|c l IH]; intros idx; simpl.
  - apply (preserves_ret _ (unchanged_refl deck)).
  - apply (preserves_bind _ (unchanged_trans deck)); [apply deck_export_slide|].
    intros s. apply (preserves_bind _ (unchanged_trans deck)); [apply IH|].
    intros prs. apply (preserves_ret _ (unchanged_refl deck)).
Qed.

End DeckFile.

(** ** A ledger with a Pie Chart entry *)

Lemma export_loop_pie_raises (lib : Libs) (df : DataFrame) (l : list chart)
    (idx : nat) (w : World) :
  Exists (fun c => is_pie c = true) l ->
  exists e w', export_loop lib df idx l w = (Raise e, w').
Proof.
  intros Hpie.
  destruct (export_loop lib df idx l w) as [[prs|e] w'] eqn:H; [|eauto].
  exfalso. apply export_loop_returned in H. destruct H as [Hnp _].
  apply Exists_exists in Hpie. destruct Hpie as (c & Hin & Hc).
  rewrite Forall_forall in Hnp. specialize (Hnp c Hin). congruence.
Qed.

Lemma download_ppt_pie_raises (lib : Libs) (df : DataFrame) (l : list chart)
    (w : World) :
  session_charts w = Some l ->
  Exists (fun c => is_pie c = true) l ->
  exists e w',
    download_ppt lib df w = (Raise e, w') /\
    files w' !! ppt_filename = files w !! ppt_filename /\
    ui w' = ui w /\
    session_charts w' = session_charts w.
Proof.
  intros Hl Hpie.
  destruct (export_loop_pie_raises lib df l 0 w Hpie) as (e & w' & Hloop).
  destruct (download_ppt_loop_raises lib df l w w' e Hl Hloop) as [Hd Hui].
  exists e, w'. split; [exact Hd|]. split; [|split; [exact Hui|]].
  - apply (deck_export_loop lib df l 0) in Hloop. exact Hloop.
  - apply (keeps_download_ppt lib df) in Hd. exact Hd.
Qed.

(** C2, on the code.  The claim holds of a ledger without Pie Chart
    entry: when no library call fails, the deck saved has one slide per
    entry, in ledger order, titled "kind - X: x, Y: y" and holding the
    entry's image at 1in, 1in, 6in wide and 4in high.  It fails as soon
    as the ledger holds a Pie Chart entry: the turn of such an entry
    hands the plotly figure to [plt.close], which rejects it, so the
    export ends in that error whatever the libraries do otherwise; no
    deck is saved and none is offered.  On the ledger [Bar Chart; Pie
    Chart] the two images are written, the error is the [TypeError] of
    [plt.close], and there is no [dashboard.pptx]. *)
Theorem export_fails_on_pie_chart :
  (forall lib df l w,
     (forall c, raises lib c = None) ->
     session_charts w = Some l ->
     Forall (fun c => is_pie c = false) l ->
     exists prs w',
       download_ppt lib df w = (Ok tt, w') /\
       files w' !! "dashboard.pptx" = Some (Pptx prs) /\
       length prs = length l /\
       forall k kind x y color, l !! k = Some (kind, x, y, color) ->
         prs !! k
         = Some {| title_text := kind +:+ " - X: " +:+ x +:+ ", Y: " +:+ y;
                   pictures :=
                     [{| image_file := "chart_" +:+ pretty k +:+ ".png";
                         image := export_plot df (kind, x, y, color);
                         pic_left := 914400; pic_top := 914400;
                         pic_width := 5486400; pic_height := 3657600 |}] |})
  /\ (forall lib df l w,
        session_charts w = Some l ->
        Exists (fun c => is_pie c = true) l ->
        exists e w',
          download_ppt lib df w = (Raise e, w') /\
          files w' !! "dashboard.pptx" = files w !! "dashboard.pptx" /\
          ui w' = ui w)
  /\ fst (download_ppt quiet sales_table (session_with [bar_sales; pie_sales]))
     = Raise (TypeError close_rejects)
  /\ files (snd (download_ppt quiet sales_table
                   (session_with [bar_sales; pie_sales]))) !! "dashboard.pptx"
     = None
  /\ files (snd (download_ppt quiet sales_table
                   (session_with [bar_sales; pie_sales]))) !! "chart_0.png"
     = Some (Png [sns_barplot sales_table "sales" "date" "#1f77b4"])
  /\ files (snd (download_ppt quiet sales_table
                   (session_with [bar_sales; pie_sales]))) !! "chart_1.png"
     = Some (Png [px_pie sales_table "date" "sales" "sales Distribution by date"
                    "#1f77b4"]).
Proof.
  split; [|split; [|repeat split; vm_compute; reflexivity]].
  - intros lib df l w Hq Hl Hnp.
    destruct (download_ppt_quiet lib Hq df l w Hl Hnp) as (w' & Hd & _ & _ & Hf).
    exists (slides_from df 0 l), w'. split; [exact Hd|]. split; [|split].
    + rewrite Hf. apply lookup_insert_eq.
    + apply slides_from_length.
    + intros k kind x y color Hk.
      apply (slides_from_lookup df l 0 k _ Hk).
  - intros lib df l w Hl Hpie.
    destruct (download_ppt_pie_raises lib df l w Hl Hpie)
      as (e & w' & Hd & Hdeck & Hui & _).
    exists e, w'. auto.
Qed.

(** ** Export against the table of the run *)

(** Up to the controls, a run builds the head of the page and makes
    sure the session has a ledger. *)
Lemma app_preamble_world (lib : Libs) (i : widgets) (df : DataFrame) (w : World) :
  uploaded_file i = Some df ->
  app lib i w
  = (df' ← controls lib i df; outputs lib i df')
      {| session_charts := Some (ledger w);
         ui := ui w ++ [st_title "📊 Data Visualization Dashboard";
                        st_success "File uploaded successfully!";
                        st_subheader "Preview of the Dataset";
                        st_write_frame (df_head df);
                        st_header "Visualization Settings"];
         figs := figs w;
         files := files w |}.
Proof.
  intros Hu. unfold app. rewrite Hu.
  rewrite (bind_Ok _ _ w _ tt) by reflexivity.
  match goal with |- context [ (session_init ≫= _) ?w1 ] => set (wa := w1) end.
  destruct w as [[l|] page fs fl].
  - rewrite (bind_Ok _ _ wa wa tt) by reflexivity.
    repeat (rewrite (bind_Ok (st _) _ _ _ tt) by reflexivity).
    unfold wa, set_ui, ledger. simpl. rewrite <- !app_assoc. reflexivity.
  - rewrite (bind_Ok _ _ wa (set_charts (Some []) wa) tt) by reflexivity.
    repeat (rewrite (bind_Ok (st _) _ _ _ tt) by reflexivity).
    unfold wa, set_ui, set_charts, ledger. simpl. rewrite <- !app_assoc.
    reflexivity.
Qed.

(** The table the filter step returns is the one the mask selects. *)
Lemma filter_step_returned (lib : Libs) (df df' : DataFrame) (x_axis : string)
    (slider : float * float) (w w' : World) :
  filter_step lib df x_axis slider w = (Ok df', w') ->
  slider_filter df x_axis slider = Ok df'.
Proof.
  unfold filter_step, slider_filter.
  destruct (df_col df x_axis) as [c|]; [|discriminate].
  destruct (dtype_in_int_float (col_dtype c)) eqn:Hnum.
  - intros H. apply bind_inv in H.
    destruct H as [([] & w1 & _ & H)|(e & _ & He)]; [|discriminate].
    unfold lift_outcome in H. injection H as H _. exact H.
  - intros [= <- _]. reflexivity.
Qed.

(** The table the controls hand on is the filtered one. *)
Lemma controls_returned (lib : Libs) (i : widgets) (df df' : DataFrame)
    (w w' : World) :
  truthy (sel_x_axis i) && truthy (sel_y_axis i) = true ->
  controls lib i df w = (Ok df', w') ->
  slider_filter df (sel_x_axis i) (slider_value i) = Ok df'.
Proof.
  intros Ht H. unfold controls in H. rewrite Ht in H.
  apply bind_inv in H.
  destruct H as [(df1 & w1 & Hf & H)|(e & _ & He)]; [|discriminate].
  apply filter_step_returned in Hf.
  apply bind_inv in H.
  destruct H as [([] & w2 & _ & H)|(e & _ & He)]; [|discriminate].
  injection H as <- _. exact Hf.
Qed.

(** Nothing stands between the export and the end of the run: where the
    button is pressed, the run ends as the export ends. *)
Lemma outputs_ends_with_export (lib : Libs) (i : widgets) (df : DataFrame)
    (w : World) :
  ppt_button i = true ->
  is_Some (session_charts w) ->
  exists w1,
    outputs lib i df w = download_ppt lib df w1 /\
    session_charts w1 = session_charts w /\
    figs w1 = figs w /\ files w1 = files w.
Proof.
  intros Hp [l Hl]. unfold outputs. rewrite Hp.
  destruct (display_charts w) as [r w1] eqn:Hd.
  assert (Hr : r = Ok tt).
  { destruct (display_charts_returns w) as (w1' & Hd'); [eauto|]. congruence. }
  subst r.
  rewrite (bind_Ok _ _ _ _ _ Hd).
  set (button := st_download_button "Download CSV" (Bytes (to_csv lib df))
                   "filtered_dataset.csv" "text/csv").
  set (w2 := set_ui ((ui w1 ++ [st_subheader "Download Filtered Dataset"])
                     ++ [button]) w1).
  assert (Hcsv : download_csv lib df w1 = (Ok tt, w2)) by reflexivity.
  rewrite (bind_Ok _ _ _ _ _ Hcsv).
  exists w2. split; [reflexivity|].
  pose proof (keeps_display_charts _ _ _ Hd) as Hc.
  pose proof (frame_display_charts figs (fun _ => true)
                (fun _ _ _ => eq_refl) (fun _ _ => eq_refl) _ _ _ Hd) as Hg.
  pose proof (frame_display_charts files (fun _ => true)
                (fun _ _ _ => eq_refl) (fun _ _ => eq_refl) _ _ _ Hd) as Hf.
  unfold w2. simpl. auto.
Qed.

(** C1. An export draws every entry of the ledger from the table of the
    run it is made in, that is the uploaded table filtered by the
    slider as it stands in that run, whatever table was current when
    the entry was appended: when the run completes, the image
    [chart_k.png] is entry [k] plotted from that table, every picture of
    the deck saved is such an image, and the entries that were in the
    ledger before the run are still there, unchanged and in place (they
    are the whole ledger unless the run generated a chart as well). *)
Theorem export_renders_current_table (lib : Libs) (i : widgets)
    (df0 : DataFrame) (w w' : World) :
  uploaded_file i = Some df0 ->
  truthy (sel_x_axis i) && truthy (sel_y_axis i) = true ->
  ppt_button i = true ->
  run lib i w = (Ok tt, w') ->
  exists df,
    slider_filter df0 (sel_x_axis i) (slider_value i) = Ok df /\
    ledger w `prefix_of` ledger w' /\
    (generate_button i = false -> ledger w' = ledger w) /\
    (forall k c, ledger w' !! k = Some c ->
       files w' !! chart_png k = Some (Png (export_plot df c)) /\
       Forall (fun p => plot_data p = Some df) (export_plot df c) /\
       (In (fst (fst (fst c))) chart_kinds -> export_plot df c <> [])) /\
    (exists prs,
       files w' !! ppt_filename = Some (Pptx prs) /\
       length prs = length (ledger w') /\
       forall s pic p, In s prs -> In pic (pictures s) -> In p (image pic) ->
                       plot_data p = Some df).
Proof.
  intros Hu Ht Hp Hrun. unfold run in Hrun.
  rewrite (app_preamble_world lib i df0 (set_ui [] w) Hu) in Hrun.
  match type of Hrun with
  | (controls _ _ _ ≫= _) ?wx = _ => set (w1 := wx) in *
  end.
  assert (Hl1 : session_charts w1 = Some (ledger w)) by reflexivity.
  apply bind_inv in Hrun.
  destruct Hrun as [(df & w2 & Hctl & Hout)|(e & _ & He)]; [|discriminate].
  exists df. split; [apply (controls_returned lib i df0 df w1 w2 Ht Hctl)|].
  assert (Hl2 : exists l2, session_charts w2 = Some l2 /\
                           ledger w `prefix_of` l2 /\
                           (generate_button i = false -> l2 = ledger w)).
  { pose proof Hctl as Hcases. apply controls_cases in Hcases.
    destruct Hcases as [Hsame|(l & Hl & Hl')].
    - exists (ledger w). split; [congruence|]. split; [reflexivity|auto].
    - rewrite Hl1 in Hl. injection Hl as <-.
      exists (ledger w ++ [spec_of i]). split; [exact Hl'|].
      split; [apply prefix_app_r; reflexivity|].
      intros Hg. exfalso.
      unfold controls in Hctl. rewrite Ht, Hg in Hctl.
      apply bind_inv in Hctl.
      destruct Hctl as [(df1 & w3 & Hf & H)|(e & _ & He)]; [|discriminate].
      apply filter_step_world in Hf. subst w3.
      injection H as _ <-. rewrite Hl1 in Hl'.
      injection Hl' as Hl'. apply (f_equal (@length _)) in Hl'.
      rewrite length_app in Hl'. simpl in Hl'. lia. }
  destruct Hl2 as (l2 & Hl2 & Hpre & Hsame).
  destruct (outputs_ends_with_export lib i df w2 Hp) as (w3 & Hends & Hc3 & _ & _);
    [eauto|].
  rewrite Hends in Hout. rewrite Hl2 in Hc3.
  destruct (download_ppt_returned lib df l2 w3 w' Hc3 Hout) as [Hc' Hf].
  assert (Hledger : ledger w' = l2) by (unfold ledger; rewrite Hc'; reflexivity).
  rewrite Hledger.
  split; [exact Hpre|]. split; [exact Hsame|]. split.
  - intros k c Hk. split; [|split].
    + rewrite Hf, lookup_insert_ne by (apply not_eq_sym, chart_png_not_ppt).
      apply (files_after_lookup df l2 0 k c (files w3) Hk).
    + apply export_plot_data.
    + apply export_plot_known_kind.
  - exists (slides_from df 0 l2). split; [|split].
    + rewrite Hf. apply lookup_insert_eq.
    + apply slides_from_length.
    + intros s pic p Hs Hpic Hin.
      destruct (slides_from_pictures df l2 0 s pic Hs Hpic) as (k & c & _ & ->).
      simpl in Hin. pose proof (export_plot_data df c) as Hall.
      rewrite Forall_forall in Hall. apply Hall, list_elem_of_In, Hin.
Qed.

Lemma export_renders_current_table_witness :
  exists df,
    slider_filter sales_table "sales" (50%float, 150%float) = Ok df /\
    ledger after_two_generations
      `prefix_of` ledger (snd (run quiet export_at_50_150 after_two_generations)) /\
    (generate_button export_at_50_150 = false ->
     ledger (snd (run quiet export_at_50_150 after_two_generations))
     = ledger after_two_generations) /\
    (forall k c,
       ledger (snd (run quiet export_at_50_150 after_two_generations)) !! k = Some c ->
       files (snd (run quiet export_at_50_150 after_two_generations)) !! chart_png k
       = Some (Png (export_plot df c)) /\
       Forall (fun p => plot_data p = Some df) (export_plot df c) /\
       (In (fst (fst (fst c))) chart_kinds -> export_plot df c <> [])) /\
    (exists prs,
       files (snd (run quiet export_at_50_150 after_two_generations)) !! ppt_filename
       = Some (Pptx prs) /\
       length prs
       = length (ledger (snd (run quiet export_at_50_150 after_two_generations))) /\
       forall s pic p, In s prs -> In pic (pictures s) -> In p (image pic) ->
                       plot_data p = Some df).
Proof.
  apply (export_renders_current_table quiet export_at_50_150 sales_table
           after_two_generations
           (snd (run quiet export_at_50_150 after_two_generations)));
    vm_compute; reflexivity.
Defined.

(** Generate two charts with the slider at [100, 200], move it to
    [50, 150], export: the ledger holds the two entries as generated,
    and both pictures show the two rows of the table as filtered now,
    not the one row the charts were generated from. *)
Example refilter_then_export :
  ledger after_two_generations = [bar_sales; line_sales] /\
  ledger (snd (run quiet export_at_50_150 after_two_generations))
  = [bar_sales; line_sales] /\
  slider_filter sales_table "sales" (100%float, 200%float)
  = Ok [("date", Object [Some "tue"]); ("sales", Int64 [150]%Z)] /\
  files (snd (run quiet export_at_50_150 after_two_generations)) !! ppt_filename
  = Some (Pptx
      [{| title_text := "Bar Chart - X: sales, Y: date";
          pictures :=
            [placed 0 [sns_barplot
                         [("date", Object [Some "mon"; Some "tue"]);
                          ("sales", Int64 [50; 150]%Z)]
                         "sales" "date" "#1f77b4"]] |};
       {| title_text := "Line Chart - X: sales, Y: date";
          pictures :=
            [placed 1 [sns_lineplot
                         [("date", Object [Some "mon"; Some "tue"]);
                          ("sales", Int64 [50; 150]%Z)]
                         "sales" "date" "#1f77b4"]] |}]).
Proof. repeat split; vm_compute; reflexivity. Qed.

(** ** Errors and their handlers *)

(** The controls raise only what the filter step raised: what the
    generation raises is caught in [generate_chart]. *)
Lemma controls_raises (lib : Libs) (i : widgets) (df : DataFrame) (w w' : World)
    (e : exn) :
  controls lib i df w = (Raise e, w') ->
  truthy (sel_x_axis i) && truthy (sel_y_axis i) = true /\
  filter_step lib df (sel_x_axis i) (slider_value i) w = (Raise e, w').
Proof.
  unfold controls.
  destruct (truthy (sel_x_axis i) && truthy (sel_y_axis i)); [|discriminate].
  intros H. split; [reflexivity|].
  apply bind_inv in H.
  destruct H as [(df1 & w1 & Hf & H)|(e0 & Hf & He)].
  - exfalso. apply bind_inv in H.
    destruct H as [([] & w2 & _ & H)|(e0 & Hg & _)]; [discriminate|].
    destruct (generate_button i); [|discriminate].
    destruct (generate_chart_cases lib df1 (sel_chart_type i) (sel_x_axis i)
                (sel_y_axis i) (picked_color i) (show_data_points i) w1)
      as (w3 & Hg3 & _).
    rewrite Hg in Hg3. discriminate.
  - injection He as <-. exact Hf.
Qed.

(** A run in which the export button is pressed ends as the filter step
    ends, when that raises, and otherwise as the export ends. *)
Lemma run_ends_with_export (lib : Libs) (i : widgets) (df0 : DataFrame)
    (w : World) :
  uploaded_file i = Some df0 ->
  ppt_button i = true ->
  (exists e,
     fst (run lib i w) = Raise e /\
     fst (filter_step lib df0 (sel_x_axis i) (slider_value i) w) = Raise e)
  \/ (exists df w1,
        run lib i w = download_ppt lib df w1 /\
        ledger w `prefix_of` ledger w1).
Proof.
  intros Hu Hp. unfold run.
  rewrite (app_preamble_world lib i df0 (set_ui [] w) Hu).
  match goal with
  | |- context [ (controls _ _ _ ≫= _) ?wx ] => set (w1 := wx)
  end.
  assert (Hl1 : session_charts w1 = Some (ledger w)) by reflexivity.
  destruct (controls lib i df0 w1) as [[df|e] w2] eqn:Hctl.
  - right. rewrite (bind_Ok _ _ _ _ _ Hctl).
    assert (Hl2 : exists l2, session_charts w2 = Some l2 /\
                             ledger w `prefix_of` l2).
    { apply controls_cases in Hctl. destruct Hctl as [Hsame|(l & Hl & Hl')].
      - exists (ledger w). split; [congruence|reflexivity].
      - rewrite Hl1 in Hl. injection Hl as <-.
        eexists. split; [exact Hl'|]. apply prefix_app_r. reflexivity. }
    destruct Hl2 as (l2 & Hl2 & Hpre).
    destruct (outputs_ends_with_export lib i df w2 Hp) as (w3 & Hends & Hc3 & _);
      [eauto|].
    exists df, w3. split; [exact Hends|].
    unfold ledger at 2. rewrite Hc3, Hl2. exact Hpre.
  - left. exists e. rewrite (bind_Raise _ _ _ _ _ Hctl). split; [reflexivity|].
    apply controls_raises in Hctl. destruct Hctl as [_ Hf].
    rewrite (filter_step_any_world lib df0 (sel_x_axis i) (slider_value i) w w1).
    rewrite Hf. reflexivity.
Qed.

(** C9, on the code.  Of the three actions only the generation has a
    handler: whatever is raised while a chart is generated is caught and
    shown as "Error generating visualization: ...", and the action
    returns.  The export and the filter have none.  A run in which the
    export button is pressed ends exactly as the export ends, error
    included, unless the filter step has raised before, in which case
    the run ends in that error.  The ledger is left as it was by a
    failing export and a failing filter.  With a Pie Chart entry in the
    ledger, pressing the export button ends the run in the [TypeError]
    of [plt.close]. *)
Theorem export_and_filter_errors_escape :
  (forall lib df chart_type x_axis y_axis color show w,
     exists w',
       generate_chart lib df chart_type x_axis y_axis color show w = (Ok tt, w') /\
       ((exists l, session_charts w = Some l /\
                   session_charts w'
                   = Some (l ++ [(chart_type, x_axis, y_axis, color)]) /\
                   last (ui w')
                   = Some (st_success (chart_type +:+ " added to the dashboard!")))
        \/ (session_charts w' = session_charts w /\
            exists e, last (ui w')
                      = Some (st_error ("Error generating visualization: "
                                        +:+ exn_str e)))))
  /\ (forall lib i df0 w,
        uploaded_file i = Some df0 ->
        ppt_button i = true ->
        (exists e,
           fst (run lib i w) = Raise e /\
           fst (filter_step lib df0 (sel_x_axis i) (slider_value i) w) = Raise e)
        \/ (exists df w1,
              run lib i w = download_ppt lib df w1 /\
              ledger w `prefix_of` ledger w1))
  /\ (forall lib df w r w',
        download_ppt lib df w = (r, w') -> session_charts w' = session_charts w)
  /\ (forall lib df x_axis slider w r w',
        filter_step lib df x_axis slider w = (r, w') -> w' = w)
  /\ fst (run quiet
            (sample_widgets "Bar Chart" "sales" "date" (50%float, 250%float)
               false true)
            (session_with [pie_sales]))
     = Raise (TypeError close_rejects)
  /\ ledger (snd (run quiet
                    (sample_widgets "Bar Chart" "sales" "date" (50%float, 250%float)
                       false true)
                    (session_with [pie_sales])))
     = [pie_sales].
Proof.
  split; [|split; [|split; [|split; [|split]]]].
  - intros. apply generate_chart_cases.
  - intros lib i df0 w. apply run_ends_with_export.
  - intros lib df w r w' H. apply (keeps_download_ppt lib df) in H. exact H.
  - intros lib df x_axis slider w r w'. apply filter_step_world.
  - vm_compute. reflexivity.
  - vm_compute. reflexivity.
Qed.

(** * More of the script *)

(** ** The filter: how it can end, and what the slider's range does *)

(** X1. Given a field of the table, the filter step can fail in one way
    only: the slider raises, which happens on a numeric field alone
    (for a text field no slider is made).  The comparison itself never
    fails, because the test on the dtype lets no text column through.
    A filter step that returns hands on a table with the same columns
    that keeps the invariant of tables and has no more rows; and
    however the step ends, it leaves the session, the page, the figures
    and the files alone. *)
Theorem filter_step_outcomes (lib : Libs) (df : DataFrame) (x_axis : string)
    (c : column) (slider : float * float) (w : World) :
  df_col df x_axis = Some c ->
  (exists msg,
     dtype_in_int_float (col_dtype c) = true /\
     raises lib (Slider ("Filter " +:+ x_axis +:+ " Range")) = Some msg /\
     filter_step lib df x_axis slider w = (Raise (LibError msg), w))
  \/ (exists df',
        filter_step lib df x_axis slider w = (Ok df', w) /\
        (dtype_in_int_float (col_dtype c) = true ->
         raises lib (Slider ("Filter " +:+ x_axis +:+ " Range")) = None) /\
        columns df' = columns df /\
        (wf_frame df -> wf_frame df' /\ nrows df' <= nrows df)).
Proof.
  intros Hc. unfold filter_step. rewrite Hc.
  destruct (dtype_in_int_float (col_dtype c)) eqn:Hnum.
  - destruct (raises lib (Slider ("Filter " +:+ x_axis +:+ " Range")))
      as [msg|] eqn:Hs.
    + left. exists msg. split; [reflexivity|]. split; [reflexivity|].
      apply bind_Raise. unfold call. rewrite Hs. reflexivity.
    + right. destruct slider as [min_val max_val].
      destruct (numeric_to_float64 c Hnum) as [vs Hvs].
      exists (select_rows df (mask_and (ge_mask vs min_val) (le_mask vs max_val))).
      split.
      { rewrite (bind_Ok _ _ w w tt) by (unfold call; rewrite Hs; reflexivity).
        unfold lift_outcome, slider_filter. rewrite Hc, Hnum, Hvs. reflexivity. }
      split; [reflexivity|]. split; [apply columns_select_rows|].
      intros Hwf.
      rewrite (mask_is_row_in_range df x_axis c vs min_val max_val Hwf Hc Hvs).
      set (m := map (row_in_range x_axis min_val max_val) (rows df)).
      assert (Hm : nrows df = length m).
      { unfold m. rewrite length_map, rows_length by exact Hwf. reflexivity. }
      pose proof (wf_select_rows df m Hwf Hm) as Hwf'.
      split; [exact Hwf'|].
      rewrite <- (rows_length _ Hwf'), <- (rows_length _ Hwf).
      rewrite rows_select_rows by assumption. unfold m.
      rewrite take_mask_filter. apply filter_length_le.
  - right. exists df. split; [reflexivity|]. split; [discriminate|].
    split; [reflexivity|]. intros Hwf. split; [exact Hwf|lia].
Qed.

Lemma filter_step_outcomes_witness :
  (exists msg,
     dtype_in_int_float (col_dtype (Int64 [7; 7]%Z)) = true /\
     raises no_slider (Slider ("Filter " +:+ "n" +:+ " Range")) = Some msg /\
     filter_step no_slider [("n", Int64 [7; 7]%Z)] "n" (7%float, 7%float)
       (session_with [bar_sales])
     = (Raise (LibError msg), session_with [bar_sales]))
  \/ (exists df',
        filter_step no_slider [("n", Int64 [7; 7]%Z)] "n" (7%float, 7%float)
          (session_with [bar_sales])
        = (Ok df', session_with [bar_sales]) /\
        (dtype_in_int_float (col_dtype (Int64 [7; 7]%Z)) = true ->
         raises no_slider (Slider ("Filter " +:+ "n" +:+ " Range")) = None) /\
        columns df' = columns [("n", Int64 [7; 7]%Z)] /\
        (wf_frame [("n", Int64 [7; 7]%Z)] ->
         wf_frame df' /\ nrows df' <= nrows [("n", Int64 [7; 7]%Z)])).
Proof.
  apply (filter_step_outcomes no_slider [("n", Int64 [7; 7]%Z)] "n"
           (Int64 [7; 7]%Z) (7%float, 7%float) (session_with [bar_sales])).
  reflexivity.
Defined.

(** X2. A range that holds every value of the field filters nothing: with
    the slider at its two ends, as it is first shown, the table passes
    unchanged (as long as the column has no missing value, see below). *)
Theorem slider_filter_whole_range (df : DataFrame) (x_axis : string)
    (c : column) (vs : list float) (min_val max_val : float) :
  wf_frame df ->
  df_col df x_axis = Some c ->
  to_float64 c = Some vs ->
  Forall (fun v => PrimFloat.leb min_val v = true /\ PrimFloat.leb v max_val = true)
    vs ->
  slider_filter df x_axis (min_val, max_val) = Ok df.
Proof.
  intros Hwf Hc Hvs Hall. unfold slider_filter. rewrite Hc, Hvs.
  destruct (dtype_in_int_float (col_dtype c)); [|reflexivity].
  f_equal. apply select_rows_all_true.
  - rewrite mask_and_between. apply Forall_map.
    eapply Forall_impl; [exact Hall|]. intros v [-> ->]. reflexivity.
  - unfold mask_and, ge_mask, le_mask.
    rewrite length_zip_with, !length_map, Nat.min_id.
    assert (Hlen : length vs = nrows df).
    { pose proof (row_get_rows_from (nrows df) df x_axis c Hwf Hc) as Hget.
      apply (f_equal (@length _)) in Hget.
      rewrite !length_map in Hget.
      pose proof (cell_float_cells c vs Hvs) as Hfl.
      apply (f_equal (@length _)) in Hfl. rewrite !length_map in Hfl.
      fold (rows df) in Hget. rewrite rows_length in Hget by exact Hwf.
      congruence. }
    rewrite Hlen. unfold wf_frame in Hwf.
    eapply Forall_impl; [exact Hwf|]. intros nc Hnc. simpl in *. lia.
Qed.

Lemma slider_filter_whole_range_witness :
  slider_filter sales_table "sales" (50%float, 250%float) = Ok sales_table.
Proof.
  apply (slider_filter_whole_range sales_table "sales" (Int64 [50; 150; 250]%Z)
           (map float_of_Z [50; 150; 250]%Z) 50%float 250%float).
  - repeat constructor.
  - reflexivity.
  - reflexivity.
  - repeat constructor.
Defined.

(** *** Missing values *)

Lemma leb_nan_r (a f : float) :
  PrimFloat.is_nan f = true -> PrimFloat.leb a f = false.
Proof.
  intros H. rewrite leb_spec. unfold Prim2SF at 2. rewrite H.
  unfold SFleb. destruct (Prim2SF a) as [| | |s m e]; try destruct s; reflexivity.
Qed.

Lemma leb_nan_l (a f : float) :
  PrimFloat.is_nan f = true -> PrimFloat.leb f a = false.
Proof.
  intros H. rewrite leb_spec. unfold Prim2SF at 1. rewrite H. reflexivity.
Qed.

Lemma in_range_not_nan (min_val max_val f : float) :
  in_range min_val max_val (VFloat f) = true ->
  PrimFloat.is_nan f = false /\
  PrimFloat.is_nan min_val = false /\ PrimFloat.is_nan max_val = false.
Proof.
  unfold in_range. simpl. intros H. apply andb_prop in H. destruct H as [H1 H2].
  repeat split.
  - destruct (PrimFloat.is_nan f) eqn:E; [|reflexivity].
    rewrite (leb_nan_r min_val f E) in H1. discriminate.
  - destruct (PrimFloat.is_nan min_val) eqn:E; [|reflexivity].
    rewrite (leb_nan_l f min_val E) in H1. discriminate.
  - destruct (PrimFloat.is_nan max_val) eqn:E; [|reflexivity].
    rewrite (leb_nan_r f max_val E) in H2. discriminate.
Qed.

(** X3. On a float column, whatever the range, no row with a missing value
    (NaN) in the field survives the filter: once the slider is shown,
    such rows are gone even with the slider at its two ends. *)
Theorem slider_filter_drops_nan (df df' : DataFrame) (x_axis : string)
    (vs : list float) (min_val max_val : float) :
  wf_frame df ->
  df_col df x_axis = Some (Float64 vs) ->
  slider_filter df x_axis (min_val, max_val) = Ok df' ->
  Forall (fun r => exists f,
            row_get r x_axis = Some (VFloat f) /\ PrimFloat.is_nan f = false)
    (rows df').
Proof.
  intros Hwf Hc Hf.
  rewrite (slider_filter_numeric df x_axis (Float64 vs) min_val max_val Hwf Hc)
    in Hf by reflexivity.
  injection Hf as <-.
  assert (Hm : nrows df
               = length (map (row_in_range x_axis min_val max_val) (rows df))).
  { rewrite length_map, rows_length by exact Hwf. reflexivity. }
  rewrite rows_select_rows by assumption. rewrite take_mask_filter.
  apply Forall_forall. intros r Hr. apply list_elem_of_In in Hr.
  apply filter_In in Hr. destruct Hr as [Hin Hr].
  pose proof (row_get_rows_from (nrows df) df x_axis (Float64 vs) Hwf Hc) as Hget.
  fold (rows df) in Hget.
  apply (in_map (fun r => row_get r x_axis)) in Hin.
  rewrite Hget in Hin. simpl in Hin. rewrite map_map in Hin.
  apply in_map_iff in Hin. destruct Hin as (f & Hf & _).
  exists f. split; [symmetry; exact Hf|].
  unfold row_in_range in Hr. rewrite <- Hf in Hr.
  apply in_range_not_nan in Hr. apply Hr.
Qed.

Lemma slider_filter_drops_nan_witness :
  Forall (fun r => exists f,
            row_get r "price" = Some (VFloat f) /\ PrimFloat.is_nan f = false)
    (rows [("price", Float64 [1.5%float; 2.5%float])]).
Proof.
  apply (slider_filter_drops_nan
           [("price", Float64 [1.5%float; PrimFloat.nan; 2.5%float; PrimFloat.nan])]
           [("price", Float64 [1.5%float; 2.5%float])]
           "price" [1.5%float; PrimFloat.nan; 2.5%float; PrimFloat.nan]
           1.5%float 2.5%float).
  - repeat constructor.
  - reflexivity.
  - vm_compute. reflexivity.
Defined.

(** ** The CSV of a run on a numeric field *)

Lemma controls_returns_filtered (lib : Libs) (i : widgets) (df df' : DataFrame)
    (w : World) :
  truthy (sel_x_axis i) && truthy (sel_y_axis i) = true ->
  filter_step lib df (sel_x_axis i) (slider_value i) w = (Ok df', w) ->
  fst (controls lib i df w) = Ok df'.
Proof.
  intros Ht Hf. unfold controls. rewrite Ht.
  rewrite (bind_Ok _ _ _ _ _ Hf).
  destruct (generate_button i); [|reflexivity].
  destruct (generate_chart_cases lib df' (sel_chart_type i) (sel_x_axis i)
              (sel_y_axis i) (picked_color i) (show_data_points i) w)
    as (w' & Hg & _).
  rewrite (bind_Ok _ _ _ _ _ Hg). reflexivity.
Qed.

(** X4. End to end: in a run on a numeric field whose slider is shown and
    whose integers float64 holds exactly, the CSV offered for download
    is the header line of the uploaded table's column names followed by
    one line for each of its rows whose value lies in the slider's
    range, and for no other, in their order, with commas between the
    fields (no field needing quotes); and this whatever the session
    holds and whether or not a chart is generated or the deck exported
    in the same run. *)
Theorem run_offers_csv_of_rows_in_range (lib : Libs) (i : widgets)
    (df : DataFrame) (c : column) (min_val max_val : float) (w : World) :
  uploaded_file i = Some df ->
  wf_frame df ->
  truthy (sel_x_axis i) && truthy (sel_y_axis i) = true ->
  df_col df (sel_x_axis i) = Some c ->
  dtype_in_int_float (col_dtype c) = true ->
  exact_column c = true ->
  slider_value i = (min_val, max_val) ->
  raises lib (Slider ("Filter " +:+ sel_x_axis i +:+ " Range")) = None ->
  plain_writer lib ->
  Forall (fun r => plain_record r = true) (text_records df) ->
  csv_offered (ui (snd (run lib i w)))
  = Some (Bytes (delimited_lines
                   (columns df
                    :: map (map (fun nv => natural_text (snd nv)))
                         (List.filter
                            (exact_row_in_range (sel_x_axis i) min_val max_val)
                            (rows df))))).
Proof.
  intros Hu Hwf Ht Hc Hnum Hex Hs Hq Hw Hplain.
  set (m := map (row_in_range (sel_x_axis i) min_val max_val) (rows df)).
  assert (Hm : nrows df = length m).
  { unfold m. rewrite length_map, rows_length by exact Hwf. reflexivity. }
  assert (Hf : filter_step lib df (sel_x_axis i) (slider_value i) w
               = (Ok (select_rows df m), w)).
  { unfold filter_step. rewrite Hc, Hnum, Hs.
    rewrite (bind_Ok _ _ w w tt) by (unfold call; rewrite Hq; reflexivity).
    unfold lift_outcome.
    rewrite (slider_filter_numeric df (sel_x_axis i) c min_val max_val Hwf Hc Hnum).
    reflexivity. }
  rewrite (run_csv_offered lib i df w w Hu).
  rewrite (controls_returns_filtered lib i df _ w Ht Hf).
  pose proof (wf_select_rows df m Hwf Hm) as Hwf'.
  assert (Hrows : rows (select_rows df m)
                  = List.filter (exact_row_in_range (sel_x_axis i) min_val max_val)
                      (rows df)).
  { rewrite rows_select_rows by assumption. unfold m. rewrite take_mask_filter.
    apply filter_rows_exact with (c := c); assumption. }
  unfold to_csv. rewrite (csv_records_text _ Hwf'). unfold text_records.
  rewrite columns_select_rows, Hrows.
  rewrite writerows_plain; [reflexivity|exact Hw|].
  unfold text_records in Hplain. apply Forall_cons in Hplain.
  destruct Hplain as [Hhead Hbody]. constructor; [exact Hhead|].
  rewrite Forall_forall in Hbody. apply Forall_forall. intros r Hr.
  apply Hbody. apply list_elem_of_In in Hr. apply list_elem_of_In.
  apply in_map_iff in Hr. destruct Hr as (r0 & <- & Hr0).
  apply in_map. apply filter_In in Hr0. apply Hr0.
Qed.

Lemma run_offers_csv_of_rows_in_range_witness :
  csv_offered (ui (snd (run quiet
     (sample_widgets "Bar Chart" "sales" "date" (100%float, 200%float) true true)
     (session_with [pie_sales]))))
  = Some (Bytes "date,sales
tue,150
").
Proof.
  apply (run_offers_csv_of_rows_in_range quiet
           (sample_widgets "Bar Chart" "sales" "date" (100%float, 200%float) true true)
           sales_table (Int64 [50; 150; 250]%Z) 100%float 200%float
           (session_with [pie_sales])); try reflexivity.
  - repeat constructor.
  - exact quiet_plain_writer.
  - repeat constructor.
Defined.

(** ** A run without a table (lines 12 to 22, 165 and 166) *)

(** X5. Before a file is uploaded a run shows the title and the invitation
    to upload, and nothing else: no library is called, so the run cannot
    fail; the ledger is created if the session has none and is otherwise
    left as it is, as are the figures and the files. *)
Theorem run_without_upload (lib : Libs) (i : widgets) (w : World) :
  uploaded_file i = None ->
  run lib i w
  = (Ok tt,
     {| session_charts := Some (ledger w);
        ui := [st_title "📊 Data Visualization Dashboard";
               st_info "Please upload a CSV file to get started."];
        figs := figs w;
        files := files w |}).
Proof.
  intros Hu. unfold run, app. rewrite Hu.
  unfold st, modify, session_init, mbind, M_bind, ledger.
  destruct w as [[l|] page fs fl]; reflexivity.
Qed.

Lemma run_without_upload_witness :
  run no_plots
    {| uploaded_file := None; sel_chart_type := "Bar Chart"; sel_x_axis := "";
       sel_y_axis := ""; picked_color := "#1f77b4"; show_data_points := false;
       slider_value := (0%float, 0%float);
       generate_button := true; ppt_button := true |}
    (session_with [bar_sales])
  = (Ok tt,
     {| session_charts := Some (ledger (session_with [bar_sales]));
        ui := [st_title "📊 Data Visualization Dashboard";
               st_info "Please upload a CSV file to get started."];
        figs := figs (session_with [bar_sales]);
        files := files (session_with [bar_sales]) |}).
Proof.
  apply (run_without_upload no_plots
           {| uploaded_file := None; sel_chart_type := "Bar Chart"; sel_x_axis := "";
              sel_y_axis := ""; picked_color := "#1f77b4"; show_data_points := false;
              slider_value := (0%float, 0%float);
              generate_button := true; ppt_button := true |}
           (session_with [bar_sales])).
  reflexivity.
Defined.

(** ** The list of generated charts (lines 97 to 101) *)

Lemma set_ui_same (w : World) : set_ui (ui w) w = w.
Proof. destruct w; reflexivity. Qed.

Lemma write_all_page (lines : list string) (w : World) :
  write_all lines w = (Ok tt, set_ui (ui w ++ map st_write lines) w).
Proof.
  revert w; induction lines as [|s lines IH]; intros w; simpl.
  - rewrite app_nil_r, set_ui_same. reflexivity.
  - rewrite (bind_Ok _ _ w (set_ui (ui w ++ [st_write s]) w) tt) by reflexivity.
    rewrite IH. simpl. rewrite <- app_assoc. reflexivity.
Qed.

(** X6. The page lists the whole ledger, one line per entry and in ledger
    order, under the heading "Generated Charts"; with an empty ledger
    neither heading nor line is shown.  Nothing else changes. *)
Theorem display_charts_lists_ledger (l : list chart) (w : World) :
  session_charts w = Some l ->
  display_charts w
  = (Ok tt,
     set_ui (ui w ++ match l with
                     | [] => []
                     | _ => st_subheader "Generated Charts"
                            :: map (fun c => st_write (chart_line c)) l
                     end) w).
Proof.
  intros Hl. unfold display_charts.
  rewrite (bind_Ok _ _ w w l) by (unfold get_charts; rewrite Hl; reflexivity).
  destruct l as [|c l].
  - rewrite app_nil_r, set_ui_same. reflexivity.
  - rewrite (bind_Ok _ _ w (set_ui (ui w ++ [st_subheader "Generated Charts"]) w) tt)
      by reflexivity.
    rewrite write_all_page. simpl. rewrite <- app_assoc, map_map. reflexivity.
Qed.

Lemma display_charts_lists_ledger_witness :
  display_charts (session_with [bar_sales; bar_sales; pie_sales])
  = (Ok tt,
     set_ui (ui (session_with [bar_sales; bar_sales; pie_sales])
             ++ st_subheader "Generated Charts"
                :: map (fun c => st_write (chart_line c))
                     [bar_sales; bar_sales; pie_sales])
       (session_with [bar_sales; bar_sales; pie_sales])).
Proof.
  apply (display_charts_lists_ledger [bar_sales; bar_sales; pie_sales]
           (session_with [bar_sales; bar_sales; pie_sales])).
  reflexivity.
Defined.

(** ** pyplot's open figures *)

Lemma new_fig_num_fresh (fs : list (nat * list plot)) (f : nat * list plot) :
  In f fs -> fst f <> new_fig_num fs.
Proof.
  unfold new_fig_num. intros Hin.
  assert (H : fst f <= foldr Nat.max 0 (map fst fs)).
  { induction fs as [|g fs IH]; [destruct Hin|].
    simpl. destruct Hin as [->|Hin]; [lia|]. specialize (IH Hin). lia. }
  lia.
Qed.

Lemma fig_draw_other (n : nat) (p : plot) (fs : list (nat * list plot)) :
  (forall f, In f fs -> fst f <> n) -> fig_draw n p fs = fs.
Proof.
  intros Hn. unfold fig_draw. induction fs as [|f fs IH]; [reflexivity|].
  simpl. rewrite IH by (intros g Hg; apply Hn; right; exact Hg).
  destruct (Nat.eqb_spec (fst f) n) as [E|E]; [|reflexivity].
  exfalso. apply (Hn f); [left; reflexivity|exact E].
Qed.

Lemma figs_close_other (n : nat) (fs : list (nat * list plot)) :
  (forall f, In f fs -> fst f <> n) ->
  List.filter (fun f => negb (Nat.eqb (fst f) n)) fs = fs.
Proof.
  intros Hn. induction fs as [|f fs IH]; [reflexivity|].
  simpl. rewrite IH by (intros g Hg; apply Hn; right; exact Hg).
  destruct (Nat.eqb_spec (fst f) n) as [E|E]; [|reflexivity].
  exfalso. apply (Hn f); [left; reflexivity|exact E].
Qed.

Section Figures.
Variable lib : Libs.

Lemma save_and_place_figs (fig idx : nat) (title : string) (w w' : World)
    (content : list plot) (fs : list (nat * list plot)) (s : slide) :
  figs w = (fig, content) :: fs ->
  (forall f, In f fs -> fst f <> fig) ->
  save_and_place lib fig idx title w = (Ok s, w') ->
  figs w' = fs.
Proof.
  intros Hf Hfresh H. unfold save_and_place in H.
  apply bind_inv in H.
  destruct H as [([] & w1 & Hs & H)|(e & _ & He)]; [|discriminate].
  unfold plt_savefig in Hs. rewrite Hf in Hs.
  apply write_image_returned in Hs. subst w1.
  apply bind_inv in H.
  destruct H as [([] & w2 & Hc & H)|(e & _ & He)]; [|discriminate].
  injection Hc as <-.
  apply bind_inv in H.
  destruct H as [(pic & w3 & Hp & H)|(e & _ & He)]; [|discriminate].
  assert (Hw3 : preserves (unchanged figs)
                  (add_picture (chart_png idx) (Inches 1) (Inches 1) (Inches 6)
                     (Inches 4)))
    by apply (preserves_add_picture _ (unchanged_refl figs)).
  apply Hw3 in Hp. unfold unchanged in Hp. injection H as _ <-.
  rewrite Hp. simpl. rewrite Hf. simpl. rewrite Nat.eqb_refl. simpl.
  apply figs_close_other, Hfresh.
Qed.

Lemma draw_save_place_figs (p : plot) (idx : nat) (title : string)
    (w w' : World) (s : slide) :
  (fig ← plt_subplots; draw_on lib fig p;; save_and_place lib fig idx title) w
  = (Ok s, w') ->
  figs w' = figs w.
Proof.
  intros H. apply bind_inv in H.
  destruct H as [(fig & w1 & Hn & H)|(e & _ & He)]; [|discriminate].
  injection Hn as <- <-.
  apply bind_inv in H.
  destruct H as [([] & w2 & Hd & H)|(e & _ & He)]; [|discriminate].
  apply draw_on_returned in Hd. subst w2.
  eapply save_and_place_figs in H; [exact H| |].
  - simpl. rewrite Nat.eqb_refl. simpl.
    rewrite fig_draw_other; [reflexivity|].
    intros f Hin. apply new_fig_num_fresh, Hin.
  - intros f Hin. apply new_fig_num_fresh, Hin.
Qed.

Lemma blank_save_place_figs (idx : nat) (title : string) (w w' : World)
    (s : slide) :
  (fig ← plt_subplots; save_and_place lib fig idx title) w = (Ok s, w') ->
  figs w' = figs w.
Proof.
  intros H. apply bind_inv in H.
  destruct H as [(fig & w1 & Hn & H)|(e & _ & He)]; [|discriminate].
  injection Hn as <- <-.
  eapply save_and_place_figs in H; [exact H|reflexivity|].
  intros f Hin. apply new_fig_num_fresh, Hin.
Qed.

(** The turn of a Pie Chart entry leaves its blank figure open. *)
Lemma pie_figs (p : plot) (idx : nat) (title : string) (w w' : World)
    (r : outcome slide) :
  (fig ← plt_subplots;
   pfig ← px lib p;
   pio_write_image lib pfig (chart_png idx);;
   plt_close_foreign pfig;;
   mret {| title_text := title; pictures := [] |}) w = (r, w') ->
  figs w' = (new_fig_num (figs w), []) :: figs w.
Proof.
  intros H. apply bind_inv in H.
  destruct H as [(fig & w1 & Hn & H)|(e & Hn & _)]; [|discriminate].
  injection Hn as <- <-.
  assert (Hp : preserves (unchanged figs)
                 (pfig ← px lib p;
                  pio_write_image lib pfig (chart_png idx);;
                  plt_close_foreign pfig;;
                  mret {| title_text := title; pictures := [] |})).
  { apply (preserves_bind _ (unchanged_trans figs)).
    - unfold px. apply (preserves_bind _ (unchanged_trans figs));
        [apply (preserves_call _ (unchanged_refl figs))|].
      intros _. apply (preserves_ret _ (unchanged_refl figs)).
    - intros pfig. apply (preserves_bind _ (unchanged_trans figs)).
      + unfold pio_write_image.
        apply (preserves_bind _ (unchanged_trans figs));
          [apply (preserves_call _ (unchanged_refl figs))|].
        intros _. apply preserves_modify. intros w0. reflexivity.
      + intros _. apply (preserves_bind _ (unchanged_trans figs));
          [apply (preserves_throw _ (unchanged_refl figs))|].
        intros _. apply (preserves_ret _ (unchanged_refl figs)). }
  apply Hp in H. exact H.
Qed.

Lemma export_slide_figs (df : DataFrame) (idx : nat) (c : chart)
    (w w' : World) (s : slide) :
  export_slide lib df idx c w = (Ok s, w') -> figs w' = figs w.
Proof.
  destruct c as [[[chart_type x_axis] y_axis] color].
  unfold export_slide.
  destruct (String.eqb chart_type "Bar Chart") eqn:E1.
  { apply String.eqb_eq in E1. subst chart_type. apply draw_save_place_figs. }
  destruct (String.eqb chart_type "Line Chart") eqn:E2.
  { apply String.eqb_eq in E2. subst chart_type. apply draw_save_place_figs. }
  destruct (String.eqb chart_type "Scatter Plot") eqn:E3.
  { apply String.eqb_eq in E3. subst chart_type. apply draw_save_place_figs. }
  destruct (String.eqb chart_type "Histogram") eqn:E4.
  { apply String.eqb_eq in E4. subst chart_type. apply draw_save_place_figs. }
  destruct (String.eqb chart_type "Box Plot") eqn:E5.
  { apply String.eqb_eq in E5. subst chart_type. apply draw_save_place_figs. }
  destruct (String.eqb chart_type "Pie Chart") eqn:E6.
  { intros H. exfalso. revert H. apply pie_never_returns. }
  apply blank_save_place_figs.
Qed.

Lemma export_slide_pie_figs (df : DataFrame) (idx : nat) (c : chart)
    (w w' : World) (r : outcome slide) :
  is_pie c = true ->
  export_slide lib df idx c w = (r, w') ->
  (exists e, r = Raise e) /\
  figs w' = (new_fig_num (figs w), []) :: figs w.
Proof.
  intros Hc H. split.
  - destruct r as [s|e]; [|eauto].
    apply export_slide_returned in H. destruct H as [Hnp _]. congruence.
  - destruct c as [[[chart_type x_axis] y_axis] color].
    unfold is_pie in Hc. apply String.eqb_eq in Hc. subst chart_type.
    revert H. apply pie_figs.
Qed.

End Figures.

(** X7. An export loop that completes has closed every figure it opened:
    pyplot's open figures are those of before, and the ledger held no
    Pie Chart entry.  The turn of a Pie Chart entry always ends in an
    error, and it leaves open the blank figure that [plt.subplots()]
    made for it, [plt.close] having been given the plotly figure. *)
Theorem export_loop_figures (lib : Libs) (df : DataFrame)
    (l : list chart) (idx : nat) (w w' : World) (prs : list slide) :
  export_loop lib df idx l w = (Ok prs, w') ->
  figs w' = figs w /\
  Forall (fun c => is_pie c = false) l /\
  (forall c k w0 r w1,
     is_pie c = true ->
     export_slide lib df k c w0 = (r, w1) ->
     (exists e, r = Raise e) /\
     figs w1 = (new_fig_num (figs w0), []) :: figs w0).
Proof.
  intros H. split; [|split].
  - revert idx w w' prs H; induction l as [|c l IH]; intros idx w w' prs H;
      simpl in *.
    + injection H as _ <-. reflexivity.
    + apply bind_inv in H.
      destruct H as [(s & w1 & Hs & H)|(e & _ & He)]; [|discriminate].
      apply export_slide_figs in Hs.
      apply bind_inv in H.
      destruct H as [(prs' & w2 & Hl & H)|(e & _ & He)]; [|discriminate].
      apply IH in Hl. injection H as _ <-. congruence.
  - apply export_loop_returned in H. apply H.
  - intros c k w0 r w1. apply export_slide_pie_figs.
Qed.

Lemma export_loop_figures_witness :
  figs (snd (export_loop quiet sales_table 0 [bar_sales; line_sales]
               (set_figs [(1, [])] new_session)))
  = figs (set_figs [(1, [])] new_session) /\
  Forall (fun c => is_pie c = false) [bar_sales; line_sales] /\
  (forall c k w0 r w1,
     is_pie c = true ->
     export_slide quiet sales_table k c w0 = (r, w1) ->
     (exists e, r = Raise e) /\
     figs w1 = (new_fig_num (figs w0), []) :: figs w0).
Proof.
  eapply (export_loop_figures quiet sales_table [bar_sales; line_sales] 0
            (set_figs [(1, [])] new_session)).
  vm_compute. reflexivity.
Defined.

(** ** The chart a generation shows (lines 66 to 88) *)

Section Shown.
Variable lib : Libs.







End Shown.



(** ** The files of an export (lines 140, 145, 150 to 163) *)

Lemma files_after_outside (df : DataFrame) (l : list chart) (idx : nat)
    (fs : gmap string file) (name : string) :
  (forall k, k < length l -> name <> chart_png (idx + k)) ->
  files_after df idx l fs !! name = fs !! name.
Proof.
  revert idx fs; induction l as [|c l IH]; intros idx fs Hn; simpl.
  - reflexivity.
  - rewrite IH.
    + apply lookup_insert_ne. intros Heq. apply (Hn 0); [simpl; lia|].
      rewrite Nat.add_0_r. symmetry. exact Heq.
    + intros k Hk. replace (S idx + k) with (idx + S k) by lia.
      apply Hn. simpl. lia.
Qed.

(** X9. A completed export has written the image files [chart_0.png] to
    [chart_(n-1).png], [n] the number of ledger entries, and the deck
    [dashboard.pptx]; it has touched no other file.  In particular the
    images of an earlier export of a longer ledger stay on disk. *)
Theorem export_writes_only_its_files (lib : Libs) (df : DataFrame)
    (l : list chart) (w w' : World) (name : string) :
  session_charts w = Some l ->
  download_ppt lib df w = (Ok tt, w') ->
  name <> ppt_filename ->
  (forall k, k < length l -> name <> chart_png k) ->
  files w' !! name = files w !! name.
Proof.
  intros Hl Hd Hppt Hpng.
  destruct (download_ppt_returned lib df l w w' Hl Hd) as [_ Hf].
  rewrite Hf, lookup_insert_ne by (apply not_eq_sym, Hppt).
  apply files_after_outside. intros k Hk. apply Hpng, Hk.
Qed.

Lemma export_writes_only_its_files_witness :
  files (snd (download_ppt quiet sales_table
                (set_files (<["chart_1.png" := Png []]> ∅)
                   (session_with [bar_sales])))) !! "chart_1.png"
  = files (set_files (<["chart_1.png" := Png []]> ∅) (session_with [bar_sales]))
      !! "chart_1.png".
Proof.
  apply (export_writes_only_its_files quiet sales_table [bar_sales]
           (set_files (<["chart_1.png" := Png []]> ∅) (session_with [bar_sales]))).
  - reflexivity.
  - vm_compute. reflexivity.
  - discriminate.
  - intros k Hk Heq. simpl in Hk.
    assert (k = 0) by lia. subst k. vm_compute in Heq. discriminate.
Defined.

Lemma download_ppt_page (lib : Libs) (df : DataFrame) (l : list chart)
    (w w' : World) :
  session_charts w = Some l ->
  download_ppt lib df w = (Ok tt, w') ->
  ui w' = ui w ++ [st_download_button "Download PPT" (Pptx (slides_from df 0 l))
                     ppt_filename ppt_mime].
Proof.
  intros Hl H. unfold download_ppt in H.
  rewrite (bind_Ok _ _ w w l) in H
    by (unfold get_charts; rewrite Hl; reflexivity).
  apply bind_inv in H.
  destruct H as [(prs & w1 & Hloop & H)|(e & _ & He)]; [|discriminate].
  pose proof Hloop as Hui.
  apply (frame_export_loop ui) in Hui; [| reflexivity | reflexivity].
  apply export_loop_returned in Hloop. destruct Hloop as (_ & -> & _).
  apply bind_inv in H.
  destruct H as [([] & w2 & Hs & H)|(e & _ & He)]; [|discriminate].
  apply prs_save_returned in Hs. subst w2.
  apply bind_inv in H.
  destruct H as [(f & w4 & Ho & H)|(e & _ & He)]; [|discriminate].
  unfold open_rb in Ho. simpl in Ho. rewrite lookup_insert_eq in Ho.
  injection Ho as <- <-. injection H as <-. simpl.
  unfold unchanged in Hui. rewrite Hui. reflexivity.
Qed.

(** X10. What a completed export offers for download is the deck it has just
    saved: the button "Download PPT" carries the content of
    [dashboard.pptx], under that file name and the pptx MIME type, and
    that deck has one slide per ledger entry, in ledger order, each
    with its entry's title.  With an empty ledger the deck offered is
    empty. *)
Theorem download_ppt_offers_saved_deck (lib : Libs) (df : DataFrame)
    (l : list chart) (w w' : World) :
  session_charts w = Some l ->
  download_ppt lib df w = (Ok tt, w') ->
  exists prs,
    ui w' = ui w ++ [st_download_button "Download PPT" (Pptx prs)
                       "dashboard.pptx" ppt_mime] /\
    files w' !! "dashboard.pptx" = Some (Pptx prs) /\
    length prs = length l /\
    (forall k c, l !! k = Some c ->
       exists s, prs !! k = Some s /\ title_text s = slide_title c).
Proof.
  intros Hl Hd. exists (slides_from df 0 l).
  split; [apply (download_ppt_page lib df l w w' Hl Hd)|].
  destruct (download_ppt_returned lib df l w w' Hl Hd) as [_ Hf].
  split; [|split].
  - rewrite Hf. apply lookup_insert_eq.
  - apply slides_from_length.
  - intros k c Hk. exists (slide_for df k c). split; [|reflexivity].
    apply (slides_from_lookup df l 0 k c Hk).
Qed.

Lemma download_ppt_offers_saved_deck_witness :
  exists prs,
    ui (snd (download_ppt quiet sales_table (session_with [bar_sales; line_sales])))
    = ui (session_with [bar_sales; line_sales])
      ++ [st_download_button "Download PPT" (Pptx prs) "dashboard.pptx" ppt_mime] /\
    files (snd (download_ppt quiet sales_table (session_with [bar_sales; line_sales])))
      !! "dashboard.pptx" = Some (Pptx prs) /\
    length prs = length [bar_sales; line_sales] /\
    (forall k c, [bar_sales; line_sales] !! k = Some c ->
       exists s, prs !! k = Some s /\ title_text s = slide_title c).
Proof.
  apply (download_ppt_offers_saved_deck quiet sales_table [bar_sales; line_sales]
           (session_with [bar_sales; line_sales])).
  - reflexivity.
  - vm_compute. reflexivity.
Defined.

(** ** An export that fails *)

(** How [prs.save] can fail: before the file is touched, or after it
    has been emptied. *)
Lemma prs_save_raises (lib : Libs) (name : string) (prs : list slide)
    (w w' : World) (e : exn) :
  prs_save lib name prs w = (Raise e, w') ->
  w' = w \/
  (w' = set_files (<[name := Truncated]> (files w)) w /\
   exists msg, raises lib (SavePresentation name) = Some msg /\ e = LibError msg).
Proof.
  unfold prs_save. intros H. apply bind_inv in H.
  destruct H as [([] & w1 & Hc & H)|(e0 & Hc & _)].
  - apply call_returned in Hc. subst w1.
    apply bind_inv in H.
    destruct H as [([] & w2 & Ht & H)|(e0 & Ht & _)]; [|discriminate].
    injection Ht as <-.
    apply bind_inv in H.
    destruct H as [([] & w3 & Hc & H)|(e0 & Hc & He)]; [discriminate|].
    right. unfold call in Hc.
    destruct (raises lib (SavePresentation name)) as [msg|]; [|discriminate].
    injection Hc as <- <-. injection He as ->. split; [reflexivity|eauto].
  - left. unfold call in Hc. destruct (raises lib _); inversion Hc. reflexivity.
Qed.

(** Where the export can fail: there is no ledger, or the loop raises,
    or saving the deck does. *)
Lemma download_ppt_raises (lib : Libs) (df : DataFrame) (w w' : World) (e : exn) :
  download_ppt lib df w = (Raise e, w') ->
  (session_charts w = None /\ w' = w)
  \/ (exists l, session_charts w = Some l /\
                 export_loop lib df 0 l w = (Raise e, w'))
  \/ (exists l prs w1, session_charts w = Some l /\
                        export_loop lib df 0 l w = (Ok prs, w1) /\
                        prs_save lib ppt_filename prs w1 = (Raise e, w')).
Proof.
  intros H. unfold download_ppt in H. apply bind_inv in H.
  destruct H as [(l & w0 & Hg & H)|(e0 & Hg & _)].
  2:{ left. unfold get_charts in Hg. destruct (session_charts w); inversion Hg.
      auto. }
  right.
  assert (Hl : session_charts w = Some l /\ w0 = w).
  { unfold get_charts in Hg. destruct (session_charts w); inversion Hg. auto. }
  destruct Hl as [Hl ->]. apply bind_inv in H.
  destruct H as [(prs & w1 & Hloop & H)|(e0 & Hloop & He)].
  2:{ left. injection He as ->. eauto. }
  right. apply bind_inv in H.
  destruct H as [([] & w2 & Hs & H)|(e0 & Hs & He)].
  - exfalso. apply prs_save_returned in Hs. subst w2.
    apply bind_inv in H.
    destruct H as [(f & w4 & Ho & H)|(e1 & Ho & _)].
    + discriminate.
    + unfold open_rb in Ho. simpl in Ho. rewrite lookup_insert_eq in Ho.
      discriminate.
  - injection He as ->. eauto 6.
Qed.

Lemma download_ppt_raises_page (lib : Libs) (df : DataFrame) (w w' : World)
    (e : exn) :
  download_ppt lib df w = (Raise e, w') -> ui w' = ui w.
Proof.
  intros H. apply download_ppt_raises in H.
  destruct H as [[_ ->]|[(l & _ & Hloop)|(l & prs & w1 & _ & Hloop & Hs)]].
  - reflexivity.
  - apply (frame_export_loop ui) in Hloop; [exact Hloop| |]; reflexivity.
  - apply (frame_export_loop ui) in Hloop; [| reflexivity | reflexivity].
    unfold unchanged in Hloop. rewrite <- Hloop.
    apply prs_save_raises in Hs. destruct Hs as [->|[-> _]]; reflexivity.
Qed.



(** The two ways of the deck: an image that cannot be written leaves the
    earlier deck in place; a deck that cannot be written leaves an
    emptied file. *)
Example failed_export_decks :
  files (snd (download_ppt no_disk sales_table
                (set_files (<["dashboard.pptx" := Pptx []]> ∅)
                   (session_with [bar_sales])))) !! "dashboard.pptx"
  = Some (Pptx []) /\
  download_ppt no_save sales_table
    (set_files (<["dashboard.pptx" := Pptx []]> ∅) (session_with [bar_sales]))
  = (Raise (LibError "No space left on device"),
     set_files (<["dashboard.pptx" := Truncated]>
                  (<["chart_0.png" :=
                       Png [sns_barplot sales_table "sales" "date" "#1f77b4"]]>
                     (<["dashboard.pptx" := Pptx []]> ∅)))
       (session_with [bar_sales])).
Proof. split; vm_compute; reflexivity. Qed.

(** ** A generation and the list of the same run (lines 63 to 101) *)

Lemma display_charts_page (l : list chart) (w : World) :
  session_charts w = Some l ->
  exists w',
    display_charts w = (Ok tt, w') /\
    session_charts w' = Some l /\
    ui w' = ui w ++ match l with
                    | [] => []
                    | _ => st_subheader "Generated Charts"
                           :: map (fun c => st_write (chart_line c)) l
                    end.
Proof.
  intros Hl. unfold display_charts.
  rewrite (bind_Ok _ _ w w l) by (unfold get_charts; rewrite Hl; reflexivity).
  destruct l as [|c l].
  - exists w. rewrite app_nil_r. auto.
  - rewrite (bind_Ok _ _ w (set_ui (ui w ++ [st_subheader "Generated Charts"]) w) tt)
      by reflexivity.
    rewrite write_all_page. eexists. split; [reflexivity|]. simpl.
    split; [exact Hl|]. rewrite <- app_assoc, map_map. reflexivity.
Qed.

(** X12. The script generates before it lists: in a run whose generation
    succeeds, the list "Generated Charts" shown by that same run is the
    ledger of before followed by the new entry, so the chart just made
    is its last line. *)
Theorem run_lists_generated_chart (lib : Libs) (i : widgets) (w : World) :
  (forall c, raises lib c = None) ->
  generates i ->
  exists before after,
    ui (snd (run lib i w))
    = before
      ++ st_subheader "Generated Charts"
         :: map (fun c => st_write (chart_line c)) (ledger w ++ [spec_of i])
      ++ after.
Proof.
  intros Hq (df & Hu & Hx & Hy & Hcx & Hcy & Hg). unfold run.
  change (ledger w) with (ledger (set_ui [] w)).
  generalize (set_ui [] w). clear w. intros w.
  destruct (app_preamble lib i df w Hu) as (w1 & Happ & Hc1 & _).
  destruct (controls_generates lib Hq i df w1 (ledger w) Hx Hy Hcx Hcy Hg Hc1)
    as (df' & w2 & Hctl & Hc2).
  rewrite Happ, (bind_Ok _ _ _ _ _ Hctl). unfold outputs.
  destruct (display_charts_page (ledger w ++ [spec_of i]) w2 Hc2)
    as (w3 & Hd & Hc3 & Hui3).
  rewrite (bind_Ok _ _ _ _ _ Hd).
  set (button := st_download_button "Download CSV" (Bytes (to_csv lib df'))
                   "filtered_dataset.csv" "text/csv").
  set (w4 := set_ui ((ui w3 ++ [st_subheader "Download Filtered Dataset"])
                     ++ [button]) w3).
  assert (Hcsv : download_csv lib df' w3 = (Ok tt, w4)) by reflexivity.
  rewrite (bind_Ok _ _ _ _ _ Hcsv).
  assert (Hlist : match ledger w ++ [spec_of i] with
                  | [] => []
                  | _ => st_subheader "Generated Charts"
                         :: map (fun c => st_write (chart_line c))
                              (ledger w ++ [spec_of i])
                  end
                  = st_subheader "Generated Charts"
                    :: map (fun c => st_write (chart_line c))
                         (ledger w ++ [spec_of i])).
  { destruct (ledger w); reflexivity. }
  rewrite Hlist in Hui3.
  assert (Hui4 : ui w4
                 = ui w2
                   ++ (st_subheader "Generated Charts"
                       :: map (fun c => st_write (chart_line c))
                            (ledger w ++ [spec_of i]))
                   ++ [st_subheader "Download Filtered Dataset"; button]).
  { unfold w4. simpl. rewrite Hui3, <- !app_assoc. reflexivity. }
  destruct (ppt_button i); cbv iota.
  - destruct (download_ppt lib df' w4) as [[[]|e] w5] eqn:Hppt; cbn [snd].
    + rewrite (download_ppt_page lib df' (ledger w ++ [spec_of i]) w4 w5 Hc3 Hppt).
      rewrite Hui4. exists (ui w2). eexists.
      rewrite <- !app_assoc. simpl. reflexivity.
    + rewrite (download_ppt_raises_page lib df' w4 w5 e Hppt), Hui4.
      exists (ui w2). eexists. simpl. reflexivity.
  - cbn [snd mret M_ret]. rewrite Hui4. exists (ui w2). eexists. simpl. reflexivity.
Qed.

Lemma run_lists_generated_chart_witness :
  exists before after,
    ui (snd (run quiet
               (sample_widgets "Pie Chart" "date" "sales" (0%float, 0%float) true true)
               (session_with [bar_sales])))
    = before
      ++ st_subheader "Generated Charts"
         :: map (fun c => st_write (chart_line c))
              (ledger (session_with [bar_sales])
               ++ [spec_of (sample_widgets "Pie Chart" "date" "sales"
                              (0%float, 0%float) true true)])
      ++ after.
Proof.
  apply (run_lists_generated_chart quiet
           (sample_widgets "Pie Chart" "date" "sales" (0%float, 0%float) true true)
           (session_with [bar_sales])).
  - intros c. reflexivity.
  - apply sample_widgets_generates; try reflexivity; eexists; reflexivity.
Defined.

(** ** A run whose filter step raises (lines 51 to 60) *)

(** X13. The filter step stands outside every handler: when it raises (the
    field is not a column, or the slider fails), the run ends there
    with that error.  The page holds the title and the preview only:
    no chart is generated, no list shown, no download offered; and the
    ledger's entries, the figures and the files are as before. *)
Theorem run_stops_when_filter_raises (lib : Libs) (i : widgets) (df : DataFrame)
    (e : exn) (w w0 : World) :
  uploaded_file i = Some df ->
  truthy (sel_x_axis i) && truthy (sel_y_axis i) = true ->
  fst (filter_step lib df (sel_x_axis i) (slider_value i) w0) = Raise e ->
  fst (run lib i w) = Raise e /\
  ui (snd (run lib i w))
  = [st_title "📊 Data Visualization Dashboard";
     st_success "File uploaded successfully!";
     st_subheader "Preview of the Dataset";
     st_write_frame (df_head df);
     st_header "Visualization Settings"] /\
  ledger (snd (run lib i w)) = ledger w /\
  figs (snd (run lib i w)) = figs w /\
  files (snd (run lib i w)) = files w.
Proof.
  intros Hu Ht Hf. unfold run.
  rewrite (app_preamble_world lib i df (set_ui [] w) Hu).
  match goal with |- context [ (controls _ _ _ ≫= _) ?wx ] => set (w1 := wx) end.
  rewrite (filter_step_any_world lib df (sel_x_axis i) (slider_value i) w0 w1)
    in Hf.
  destruct (filter_step lib df (sel_x_axis i) (slider_value i) w1)
    as [r w1'] eqn:Hfs.
  simpl in Hf. subst r.
  pose proof (filter_step_world _ _ _ _ _ _ _ Hfs) as ->.
  assert (Hctl : controls lib i df w1 = (Raise e, w1)).
  { unfold controls. rewrite Ht. apply bind_Raise, Hfs. }
  rewrite (bind_Raise _ _ _ _ _ Hctl). simpl.
  repeat split.
Qed.

Lemma run_stops_when_filter_raises_witness :
  fst (run quiet (sample_widgets "Bar Chart" "price" "date" (0%float, 1%float)
                    true true) (session_with [bar_sales]))
  = Raise (KeyError "price") /\
  ui (snd (run quiet (sample_widgets "Bar Chart" "price" "date" (0%float, 1%float)
                        true true) (session_with [bar_sales])))
  = [st_title "📊 Data Visualization Dashboard";
     st_success "File uploaded successfully!";
     st_subheader "Preview of the Dataset";
     st_write_frame (df_head sales_table);
     st_header "Visualization Settings"] /\
  ledger (snd (run quiet (sample_widgets "Bar Chart" "price" "date"
                            (0%float, 1%float) true true)
                 (session_with [bar_sales])))
  = ledger (session_with [bar_sales]) /\
  figs (snd (run quiet (sample_widgets "Bar Chart" "price" "date"
                          (0%float, 1%float) true true)
               (session_with [bar_sales])))
  = figs (session_with [bar_sales]) /\
  files (snd (run quiet (sample_widgets "Bar Chart" "price" "date"
                           (0%float, 1%float) true true)
                (session_with [bar_sales])))
  = files (session_with [bar_sales]).
Proof.
  apply (run_stops_when_filter_raises quiet
           (sample_widgets "Bar Chart" "price" "date" (0%float, 1%float) true true)
           sales_table (KeyError "price") (session_with [bar_sales]) new_session);
    reflexivity.
Defined.

(** ** Exporting again *)

(** X14. The export replays the ledger from scratch: two completed exports
    of the same ledger on the same table leave the same deck, the same
    image files and offer the same download, whatever the session went
    through in between (figures left open by generations or by an
    earlier export, files already on disk). *)
Theorem export_replay (lib : Libs) (df : DataFrame) (l : list chart)
    (w1 w2 w1' w2' : World) :
  session_charts w1 = Some l ->
  session_charts w2 = Some l ->
  download_ppt lib df w1 = (Ok tt, w1') ->
  download_ppt lib df w2 = (Ok tt, w2') ->
  files w1' !! ppt_filename = files w2' !! ppt_filename /\
  (forall k, k < length l -> files w1' !! chart_png k = files w2' !! chart_png k) /\
  last (ui w1') = last (ui w2').
Proof.
  intros Hl1 Hl2 Hd1 Hd2.
  destruct (download_ppt_returned lib df l w1 w1' Hl1 Hd1) as [_ Hf1].
  destruct (download_ppt_returned lib df l w2 w2' Hl2 Hd2) as [_ Hf2].
  split; [|split].
  - rewrite Hf1, Hf2, !lookup_insert_eq. reflexivity.
  - intros k Hk. destruct (lookup_lt_is_Some_2 l k Hk) as [c Hc].
    rewrite Hf1, Hf2.
    rewrite !lookup_insert_ne by (apply not_eq_sym, chart_png_not_ppt).
    pose proof (files_after_lookup df l 0 k c (files w1) Hc) as H1.
    pose proof (files_after_lookup df l 0 k c (files w2) Hc) as H2.
    simpl in H1, H2. rewrite H1, H2. reflexivity.
  - rewrite (download_ppt_page lib df l w1 w1' Hl1 Hd1).
    rewrite (download_ppt_page lib df l w2 w2' Hl2 Hd2).
    rewrite !last_snoc. reflexivity.
Qed.

Lemma export_replay_witness :
  files (snd (download_ppt quiet sales_table (session_with [bar_sales; line_sales])))
    !! ppt_filename
  = files (snd (download_ppt quiet sales_table
                  (snd (download_ppt quiet sales_table
                          (session_with [bar_sales; line_sales])))))
      !! ppt_filename /\
  (forall k, k < length [bar_sales; line_sales] ->
     files (snd (download_ppt quiet sales_table
                   (session_with [bar_sales; line_sales]))) !! chart_png k
     = files (snd (download_ppt quiet sales_table
                     (snd (download_ppt quiet sales_table
                             (session_with [bar_sales; line_sales])))))
         !! chart_png k) /\
  last (ui (snd (download_ppt quiet sales_table
                   (session_with [bar_sales; line_sales]))))
  = last (ui (snd (download_ppt quiet sales_table
                     (snd (download_ppt quiet sales_table
                             (session_with [bar_sales; line_sales])))))).
Proof.
  apply (export_replay quiet sales_table [bar_sales; line_sales]
           (session_with [bar_sales; line_sales])
           (snd (download_ppt quiet sales_table
                   (session_with [bar_sales; line_sales]))));
    vm_compute; reflexivity.
Defined.
